(** * PrepHub: the skill gap and readiness engine

    A shallow embedding of the computational core of PrepHub's
    [script.js]: the skill vocabulary and its extractor, the
    matched/missing classification done by the company detail view, the
    skill gap view, the progress view, the dashboard and the JD analyzer,
    and the two form handlers that write skill lists into the state.

    JavaScript values are modelled as follows.
    - A string is a [string] of 8-bit characters read as the code units
      U+0000..U+00FF; [toLowerCase] and [trim] are the ECMAScript
      functions restricted to that range.
    - A Number is an IEEE 754 binary64 value, [spec_float] at precision 53
      and maximal exponent 1024, so that [0 / 0] is [NaN] and the division
      and the multiplication round as they do in the engine.
    - An array is a [list]; a [Set] of strings is the list of its members
      in insertion order.
    - The global [appState] and [jdaExtractedSkills] are threaded
      explicitly; what a render function writes into the page is returned
      as a value. *)

From Stdlib Require Import List String Ascii ZArith NArith Lia Bool.
From Stdlib Require Import SpecFloat Permutation Sorted.
Import ListNotations.

Local Open Scope string_scope.
Local Open Scope list_scope.

(** ** JavaScript strings *)

Module JsString.

(** [String.prototype.toLowerCase] on one code unit below U+0100:
    A..Z and the Latin-1 capitals U+00C0..U+00DE (U+00D7, the
    multiplication sign, apart) move up by 32. *)
Definition lowerChar (c : ascii) : ascii :=
  let n := N_of_ascii c in
  if ((65 <=? n) && (n <=? 90) ||
      (192 <=? n) && (n <=? 222) && negb (n =? 215))%N
  then ascii_of_N (n + 32) else c.

Fixpoint toLowerCase (s : string) : string :=
  match s with
  | EmptyString => EmptyString
  | String c s' => String (lowerChar c) (toLowerCase s')
  end.

(** [s.startsWith(p)]. *)
Fixpoint startsWith (s p : string) {struct p} : bool :=
  match p, s with
  | EmptyString, _ => true
  | String _ _, EmptyString => false
  | String a p', String b s' => Ascii.eqb a b && startsWith s' p'
  end.

(** [s.includes(sub)]: [sub] occurs in [s] at some position. *)
Fixpoint includes (s sub : string) : bool :=
  startsWith s sub ||
  match s with
  | EmptyString => false
  | String _ s' => includes s' sub
  end.

(** White space and line terminators below U+0100, as [trim] sees
    them: TAB, LF, VT, FF, CR, SP and NBSP. *)
Definition isWhiteSpace (c : ascii) : bool :=
  let n := N_of_ascii c in
  ((n =? 9) || (n =? 10) || (n =? 11) || (n =? 12) || (n =? 13) ||
   (n =? 32) || (n =? 160))%N.

Fixpoint trimStart (s : string) : string :=
  match s with
  | EmptyString => EmptyString
  | String c s' => if isWhiteSpace c then trimStart s' else s
  end.

Fixpoint trimEnd (s : string) : string :=
  match s with
  | EmptyString => EmptyString
  | String c s' =>
      match trimEnd s' with
      | EmptyString => if isWhiteSpace c then EmptyString
                       else String c EmptyString
      | t => String c t
      end
  end.

(** [s.trim()]. *)
Definition trim (s : string) : string := trimEnd (trimStart s).

(** [s.split(sep)] for a separator of one code unit; the result is never
    empty: [''.split(',')] is [['']]. *)
Fixpoint split (sep : ascii) (s : string) : list string :=
  match s with
  | EmptyString => [EmptyString]
  | String c s' =>
      if Ascii.eqb c sep then EmptyString :: split sep s'
      else match split sep s' with
           | [] => [String c EmptyString]
           | t :: ts => String c t :: ts
           end
  end.

(** [parts.join(sep)]. *)
Fixpoint join (sep : string) (parts : list string) : string :=
  match parts with
  | [] => EmptyString
  | [p] => p
  | p :: ps => p ++ sep ++ join sep ps
  end.

(** Truthiness of a string: only [''] is falsy. *)
Definition truthy (s : string) : bool :=
  match s with EmptyString => false | String _ _ => true end.

(** [a || b] on strings. *)
Definition orElse (a b : string) : string := if truthy a then a else b.

End JsString.

(** ** JavaScript Numbers *)

Module JsNumber.

Definition number : Type := spec_float.

Definition prec : Z := 53.
Definition emax : Z := 1024.

(** The Number of an integer: an array length, a literal. *)
Definition ofZ (z : Z) : number := binary_normalize prec emax z 0 false.
Definition ofNat (n : nat) : number := ofZ (Z.of_nat n).

Definition NaN : number := S754_nan.

Definition div (x y : number) : number := SFdiv prec emax x y.
Definition mul (x y : number) : number := SFmul prec emax x y.
Definition sub (x y : number) : number := SFsub prec emax x y.

Definition isNaN (x : number) : bool :=
  match x with S754_nan => true | _ => false end.

(** [x > y] and [x >= y]: false as soon as one side is [NaN]. *)
Definition gt (x y : number) : bool := SFltb y x.
Definition ge (x y : number) : bool := SFleb y x.

(** [Math.round]: the nearest integer, a half going up; [NaN], the
    infinities and the zeros are returned as they are, and a value that
    rounds to zero keeps its sign. For [m * 2^(-p)] the result is
    [floor ((2 m + 2^p) / 2^(p+1))]. *)
Definition Math_round (x : number) : number :=
  match x with
  | S754_finite s m (Zneg p) =>
      let v := if s then Zneg m else Zpos m in
      let r := ((2 * v + 2 ^ Zpos p) / 2 ^ (Zpos p + 1))%Z in
      if (r =? 0)%Z then S754_zero s else ofZ r
  | _ => x
  end.

End JsNumber.

(** ** JavaScript arrays and sets *)

Module JsArray.
Import JsNumber.

(** [arr.includes(x)] on an array of strings: strict equality with some
    element. *)
Definition includes (arr : list string) (x : string) : bool :=
  existsb (String.eqb x) arr.

(** [set.add(x)] on a [Set] of strings kept in insertion order. *)
Definition Set_add (s : list string) (x : string) : list string :=
  if includes s x then s else s ++ [x].

Section Sort.
Variable A : Type.
Variable comparefn : A -> A -> number.

(** The abstract operation SortCompare: a comparator result that is
    [NaN] counts as [+0]. *)
Definition SortCompare (x y : A) : number :=
  let v := comparefn x y in
  if isNaN v then ofZ 0 else v.

(** [x], which stood before every element of [l], is put before the
    first element it does not compare greater than. *)
Fixpoint insert (x : A) (l : list A) : list A :=
  match l with
  | [] => [x]
  | y :: l' =>
      if gt (SortCompare x y) (ofZ 0) then y :: insert x l'
      else x :: l
  end.

(** [arr.sort(comparefn)]: the stable sort, as an insertion sort. With
    a comparator that is not consistent (one that returns [NaN] for
    some pairs) ECMAScript leaves the order to the engine; the
    insertion sort then is one admissible engine, and an engine that
    inserts by binary search can order such an array differently. *)
Definition sort (arr : list A) : list A := fold_right insert [] arr.
End Sort.

Arguments SortCompare {A} comparefn x y.
Arguments insert {A} comparefn x l.
Arguments sort {A} comparefn arr.

End JsArray.

(** ** The application *)

Module PrepHub.
Import JsString JsNumber.

Record Company : Type := mkCompany {
  id : Z;
  name : string;
  role : string;
  requiredSkills : list string;
  location : string;
  type : string;
  isFavorite : bool;
  notes : string;
  description : option string;
  addedDate : string;
  deadline : option string
}.

(** [appState]. *)
Record AppState : Type := mkAppState {
  companies : list Company;
  currentView : string;
  currentCompany : option Company;
  userSkills : list string
}.

(** The two module-level variables the core reads and writes. *)
Record Globals : Type := mkGlobals {
  appState : AppState;
  jdaExtractedSkills : list string
}.

(** [Math.round((part / whole) * 100)], the expression every readiness
    figure is computed with. *)
Definition percentOf (part whole : nat) : number :=
  Math_round (mul (div (ofNat part) (ofNat whole)) (ofZ 100)).

(** *** Dashboard *)

(** The [Set] both the dashboard and the skill gap view build:
    [companies.forEach(c => c.requiredSkills.forEach(s => set.add(s)))]. *)
Definition allRequiredSkills (cs : list Company) : list string :=
  fold_left
    (fun set company => fold_left JsArray.Set_add (requiredSkills company) set)
    cs [].

Record DashboardStats : Type := mkDashboardStats {
  totalCompanies : nat;
  favoriteCount : nat;
  skillsNeeded : nat;
  overallProgress : number
}.

(** [renderDashboard]: the four figures of the dashboard (shown only when
    there is a company). *)
Definition renderDashboard (st : AppState) : DashboardStats :=
  let all := allRequiredSkills (companies st) in
  let needed :=
    List.length
      (filter (fun skill => negb (JsArray.includes (userSkills st) skill)) all) in
  let totalSkillsNeeded := List.length all in
  let skillsAcquired :=
    List.length
      (filter (fun skill => JsArray.includes (userSkills st) skill) all) in
  {| totalCompanies := List.length (companies st);
     favoriteCount := List.length (filter isFavorite (companies st));
     skillsNeeded := needed;
     overallProgress :=
       if (0 <? totalSkillsNeeded)%nat
       then percentOf skillsAcquired totalSkillsNeeded
       else ofZ 0 |}.

(** *** Company detail *)

Record CompanyDetail : Type := mkCompanyDetail {
  detailCompany : Company;
  proficientSkills : list string;
  neededSkills : list string
}.

(** [viewCompanyDetail]: the company is looked up by id, stored in
    [appState.currentCompany], and its required skills are split by
    [appState.userSkills.includes(skill)]. *)
Definition viewCompanyDetail (companyId : Z) (st : AppState)
  : AppState * option CompanyDetail :=
  match find (fun c => (id c =? companyId)%Z) (companies st) with
  | None => (st, None)
  | Some company =>
      ({| companies := companies st;
          currentView := currentView st;
          currentCompany := Some company;
          userSkills := userSkills st |},
       Some {| detailCompany := company;
               proficientSkills :=
                 filter (fun skill => JsArray.includes (userSkills st) skill)
                        (requiredSkills company);
               neededSkills :=
                 filter (fun skill =>
                           negb (JsArray.includes (userSkills st) skill))
                        (requiredSkills company) |})
  end.

(** *** Skill gap analysis *)

(** The figure shown next to a skill: the number of companies whose
    lower-cased required skills include the lower-cased skill. *)
Definition demandCount (cs : list Company) (skill : string) : nat :=
  List.length
    (filter (fun c => JsArray.includes (map toLowerCase (requiredSkills c))
                                       (toLowerCase skill)) cs).

Record GapAnalysis : Type := mkGapAnalysis {
  gapNeeded : list (string * nat);
  gapProficient : list (string * nat);
  gapReadiness : number
}.

Inductive SkillGapView : Type :=
| EmptySkills
| NoRequiredSkills
| GapShown (g : GapAnalysis).

(** [renderSkillGapAnalysis]. *)
Definition renderSkillGapAnalysis (st : AppState) : SkillGapView :=
  if (List.length (companies st) =? 0)%nat then EmptySkills
  else
    let all := allRequiredSkills (companies st) in
    let userSkillsLower := map toLowerCase (userSkills st) in
    let proficient :=
      filter (fun skill => JsArray.includes userSkillsLower (toLowerCase skill))
             all in
    let needed :=
      filter (fun skill =>
                negb (JsArray.includes userSkillsLower (toLowerCase skill)))
             all in
    if (List.length all =? 0)%nat then NoRequiredSkills
    else
      let withCount := fun skill => (skill, demandCount (companies st) skill) in
      let total := (List.length proficient + List.length needed)%nat in
      GapShown
        {| gapNeeded := map withCount needed;
           gapProficient := map withCount proficient;
           gapReadiness :=
             if (0 <? total)%nat
             then percentOf (List.length proficient) total
             else ofZ 0 |}.

(** *** Progress *)

Record ProgressItem : Type := mkProgressItem {
  company : Company;
  totalSkills : nat;
  acquiredSkills : nat;
  percentage : number
}.

(** The callback of [appState.companies.map] in [renderProgress]. *)
Definition progressItem (skills : list string) (c : Company) : ProgressItem :=
  let total := List.length (requiredSkills c) in
  let acquired :=
    List.length
      (filter (fun skill => JsArray.includes skills skill) (requiredSkills c)) in
  {| company := c;
     totalSkills := total;
     acquiredSkills := acquired;
     percentage := percentOf acquired total |}.

(** [renderProgress]: one item per company, sorted with
    [(a, b) => a.percentage - b.percentage]. *)
Definition renderProgress (st : AppState) : list ProgressItem :=
  JsArray.sort (fun a b => sub (percentage a) (percentage b))
               (map (progressItem (userSkills st)) (companies st)).

(** *** Skill vocabulary and extractor *)

(** Master skill list for extraction from job descriptions. *)
Definition KNOWN_SKILLS : list string := [
  (* Languages *)
  "JavaScript"; "TypeScript"; "Python"; "Java"; "C++"; "C#"; "C"; "Go"; "Rust"; "Ruby"; "PHP"; "Swift"; "Kotlin"; "Scala"; "R"; "MATLAB";
  (* Frontend *)
  "React"; "Angular"; "Vue"; "Vue.js"; "Next.js"; "Nuxt.js"; "HTML"; "CSS"; "Sass"; "Tailwind"; "Bootstrap"; "jQuery"; "Redux"; "GraphQL"; "WebGL"; "Three.js";
  (* Backend *)
  "Node.js"; "Express"; "Django"; "Flask"; "FastAPI"; "Spring"; "Spring Boot"; "Laravel"; "Rails"; "ASP.NET"; ".NET"; "Symfony";
  (* Databases *)
  "MySQL"; "PostgreSQL"; "MongoDB"; "Redis"; "SQLite"; "Oracle"; "SQL Server"; "Firebase"; "Supabase"; "DynamoDB"; "Cassandra"; "Elasticsearch";
  (* Cloud & DevOps *)
  "AWS"; "Azure"; "GCP"; "Docker"; "Kubernetes"; "CI/CD"; "Jenkins"; "GitHub Actions"; "Terraform"; "Ansible"; "Linux"; "Nginx"; "Apache";
  (* Mobile *)
  "React Native"; "Flutter"; "Android"; "iOS"; "Xamarin";
  (* Data & AI *)
  "Machine Learning"; "Deep Learning"; "TensorFlow"; "PyTorch"; "Pandas"; "NumPy"; "Scikit-learn"; "OpenCV"; "NLP"; "LLM"; "Data Science"; "Power BI"; "Tableau";
  (* Tools & Others *)
  "Git"; "GitHub"; "GitLab"; "Jira"; "Figma"; "REST"; "REST API"; "Microservices"; "Agile"; "Scrum"; "OOP"; "DSA"; "Data Structures";
  (* Testing *)
  "Jest"; "Mocha"; "Selenium"; "Cypress"; "JUnit"; "pytest"
].

(** [extractSkillsFromText]; [None] is [null], and [!text] also holds of
    the empty string. *)
Definition extractSkillsFromText (text : option string) : list string :=
  match text with
  | None => []
  | Some text =>
      if negb (truthy text) then []
      else
        let lower := toLowerCase text in
        filter (fun skill => JsString.includes lower (toLowerCase skill))
               KNOWN_SKILLS
  end.

(** *** JD analyzer *)

Inductive Tier : Type := high | mid | low.

(** [score >= 70 ? 'high' : score >= 40 ? 'mid' : 'low']. *)
Definition scoreTier (score : number) : Tier :=
  if ge score (ofZ 70) then high
  else if ge score (ofZ 40) then mid
  else low.

(** What [analyzeJD] writes into the results panel. *)
Record JDAResults : Type := mkJDAResults {
  jdaNoSkills : bool;
  jdaScoreCircle : Tier;
  jdaScoreValue : number;
  jdaHaveSkills : list string;
  jdaNeedSkills : list string
}.

Inductive JDAOutcome : Type :=
| JDANotification (message : string)
| JDAShown (r : JDAResults).

(** [analyzeJD], given the value of the [jdaText] field. *)
Definition analyzeJD (jdaText : string) (g : Globals) : Globals * JDAOutcome :=
  let text := trim jdaText in
  if negb (truthy text)
  then (g, JDANotification "Please paste a job description first")
  else
    let extracted := extractSkillsFromText (Some text) in
    let g' := {| appState := appState g; jdaExtractedSkills := extracted |} in
    if (List.length extracted =? 0)%nat
    then (g', JDAShown {| jdaNoSkills := true;
                          jdaScoreCircle := low;
                          jdaScoreValue := ofZ 0;
                          jdaHaveSkills := [];
                          jdaNeedSkills := [] |})
    else
      let userSkillsLower := map toLowerCase (userSkills (appState g')) in
      let haveSkills :=
        filter (fun s => JsArray.includes userSkillsLower (toLowerCase s))
               extracted in
      let needSkills :=
        filter (fun s => negb (JsArray.includes userSkillsLower (toLowerCase s)))
               extracted in
      let score := percentOf (List.length haveSkills) (List.length extracted) in
      (g', JDAShown {| jdaNoSkills := false;
                       jdaScoreCircle := scoreTier score;
                       jdaScoreValue := score;
                       jdaHaveSkills := haveSkills;
                       jdaNeedSkills := needSkills |}).

(** *** Form handlers *)

(** The fields of the add-company form, and the clock readings
    [Date.now()] and [new Date().toISOString()] taken while handling it. *)
Record AddCompanyForm : Type := mkAddCompanyForm {
  formCompanyName : string;
  formRole : string;
  formSkills : string;
  formLocation : string;
  formType : string;
  formDeadline : string;
  formNow : Z;
  formNowISO : string
}.

(** [switchView], as far as [appState] goes. *)
Definition switchView (viewName : string) (st : AppState) : AppState :=
  {| companies := companies st;
     currentView := viewName;
     currentCompany := currentCompany st;
     userSkills := userSkills st |}.

(** [handleAddCompany]. *)
Definition handleAddCompany (form : AddCompanyForm) (st : AppState) : AppState :=
  let newCompany :=
    {| id := formNow form;
       name := formCompanyName form;
       role := formRole form;
       requiredSkills :=
         filter truthy (map trim (split "," (formSkills form)));
       location := orElse (formLocation form) "Not specified";
       type := formType form;
       isFavorite := false;
       notes := "";
       description := None;
       addedDate := formNowISO form;
       deadline := if truthy (formDeadline form)
                   then Some (formDeadline form) else None |} in
  switchView "companies"
    {| companies := companies st ++ [newCompany];
       currentView := currentView st;
       currentCompany := currentCompany st;
       userSkills := userSkills st |}.

(** [handleUpdateSkills], given the value of the [skills] field. *)
Definition handleUpdateSkills (skills : string) (st : AppState) : AppState :=
  {| companies := companies st;
     currentView := currentView st;
     currentCompany := currentCompany st;
     userSkills := filter truthy (map trim (split "," skills)) |}.

End PrepHub.

(** ** The specification's vocabulary

    Notions the specification is worded with and the source has no
    function for; the theorems compare the source with them. *)

Module Spec.
Import JsString JsNumber.

(** [sub] occurs in [s]. *)
Definition Substring (sub s : string) : Prop :=
  exists l r : string, s = (l ++ sub ++ r)%string.

(** [l1] is [l2] with some entries left out, the others in place. *)
Inductive Subsequence {A : Type} : list A -> list A -> Prop :=
| Subsequence_nil : Subsequence [] []
| Subsequence_skip x l1 l2 : Subsequence l1 l2 -> Subsequence l1 (x :: l2)
| Subsequence_keep x l1 l2 : Subsequence l1 l2 -> Subsequence (x :: l1) (x :: l2).

(** Deduplication by case-insensitive identity, the first spelling kept;
    [seen] holds the lower-cased entries met so far. *)
Fixpoint dedupFrom (seen : list string) (l : list string) : list string :=
  match l with
  | [] => []
  | x :: l' =>
      if JsArray.includes seen (toLowerCase x) then dedupFrom seen l'
      else x :: dedupFrom (toLowerCase x :: seen) l'
  end.

Definition dedupCI (l : list string) : list string := dedupFrom [] l.

(** The integer nearest to [100 * part / whole], a half going up. *)
Definition roundHalfUp (part whole : nat) : Z :=
  ((200 * Z.of_nat part + Z.of_nat whole) / (2 * Z.of_nat whole))%Z.

Record GapResult : Type := mkGapResult {
  matched : list string;
  missing : list string;
  readinessPercent : number
}.

(** The invariant of a GapResult as the specification words it. *)
Definition GapInvariant (required : list string) (g : GapResult) : Prop :=
  (forall s, In s (matched g) -> ~ In s (missing g)) /\
  (forall s, In s (matched g) \/ In s (missing g) <-> In s (dedupCI required)) /\
  readinessPercent g =
    (let total := (List.length (matched g) + List.length (missing g))%nat in
     if (0 <? total)%nat
     then ofZ (roundHalfUp (List.length (matched g)) total)
     else ofZ 0).

(** The GapResult of one company as the application shows it: the two
    lists of the detail view and the percentage of the progress view. *)
Definition companyGap (skills : list string) (c : PrepHub.Company)
  : GapResult :=
  {| matched := filter (fun skill => JsArray.includes skills skill)
                       (PrepHub.requiredSkills c);
     missing := filter (fun skill => negb (JsArray.includes skills skill))
                       (PrepHub.requiredSkills c);
     readinessPercent :=
       PrepHub.percentage (PrepHub.progressItem skills c) |}.

(** Every code unit of [s] is white space. *)
Fixpoint allWhite (s : string) : bool :=
  match s with
  | EmptyString => true
  | String c s' => isWhiteSpace c && allWhite s'
  end.

(** [s] begins, respectively ends, with white space. *)
Definition startsWhite (s : string) : bool :=
  match s with
  | EmptyString => false
  | String c _ => isWhiteSpace c
  end.

Fixpoint endsWhite (s : string) : bool :=
  match s with
  | EmptyString => false
  | String c EmptyString => isWhiteSpace c
  | String _ s' => endsWhite s'
  end.

(** [t] is [tok] with the surrounding white space taken off. *)
Definition Trimmed (tok t : string) : Prop :=
  (exists l r : string,
      tok = (l ++ t ++ r)%string /\ allWhite l = true /\ allWhite r = true) /\
  startsWhite t = false /\ endsWhite t = false.

(** [s] holds no comma. *)
Fixpoint commaFree (s : string) : bool :=
  match s with
  | EmptyString => true
  | String c s' => negb (Ascii.eqb c ",") && commaFree s'
  end.

(** [toks] are the comma-separated tokens of [s]. *)
Definition CommaTokens (s : string) (toks : list string) : Prop :=
  toks <> [] /\ join "," toks = s /\ Forall (fun t => commaFree t = true) toks.

(** [skills] are the tokens [toks], each trimmed, the empty ones left
    out, in order. *)
Inductive SkillsOfTokens : list string -> list string -> Prop :=
| SkillsOfTokens_nil : SkillsOfTokens [] []
| SkillsOfTokens_empty tok toks skills :
    Trimmed tok "" -> SkillsOfTokens toks skills ->
    SkillsOfTokens (tok :: toks) skills
| SkillsOfTokens_skill tok t toks skills :
    Trimmed tok t -> t <> "" -> SkillsOfTokens toks skills ->
    SkillsOfTokens (tok :: toks) (t :: skills).

End Spec.

(** ** Finite checks

    Facts about the fixed vocabulary and about the readiness arithmetic on
    the sizes the vocabulary allows, each a boolean that evaluates. *)

Module Tables.
Import JsString JsNumber PrepHub.

Definition eqbNumber (x y : number) : bool :=
  match x, y with
  | S754_zero a, S754_zero b => Bool.eqb a b
  | S754_infinity a, S754_infinity b => Bool.eqb a b
  | S754_nan, S754_nan => true
  | S754_finite a m e, S754_finite b n f =>
      Bool.eqb a b && Pos.eqb m n && Z.eqb e f
  | _, _ => false
  end.

Definition eqbTier (a b : Tier) : bool :=
  match a, b with
  | high, high | mid, mid | low, low => true
  | _, _ => false
  end.

Fixpoint nodupb (l : list string) : bool :=
  match l with
  | [] => true
  | x :: l' => negb (JsArray.includes l' x) && nodupb l'
  end.

(** The sizes at which the double product [(part / whole) * 100] falls
    just under a half that the exact ratio reaches: 23 of 40 is
    57.49999999999999 and not 57.5. *)
Definition floatSlip (part whole : nat) : bool :=
  ((part =? 23) && (whole =? 40) || (part =? 46) && (whole =? 80))%nat.

Definition expectedPercent (part whole : nat) : Z :=
  (Spec.roundHalfUp part whole - if floatSlip part whole then 1 else 0)%Z.

Definition percentRowOk (whole : nat) : bool :=
  forallb (fun part => eqbNumber (percentOf part whole)
                                 (ofZ (expectedPercent part whole)))
          (seq 0 (S whole)).


(** The tier of an integer score, by the thresholds 70 and 40. *)
Definition tierOfZ (z : Z) : Tier :=
  if (70 <=? z)%Z then high else if (40 <=? z)%Z then mid else low.

(** The integer percentage of a progress item. *)
Definition readiness (i : ProgressItem) : Z :=
  expectedPercent (acquiredSkills i) (totalSkills i).

(** On integer percentages the comparator of the progress ranking orders
    as the integers do. *)
Definition compareRowOk (a : nat) : bool :=
  forallb (fun b => Bool.eqb (gt (JsArray.SortCompare sub (ofNat a) (ofNat b))
                                 (ofZ 0))
                             (Z.of_nat b <? Z.of_nat a)%Z)
          (seq 0 101).

Definition tierRowOk (n : nat) : bool :=
  eqbTier (scoreTier (ofNat n)) (tierOfZ (Z.of_nat n)).

End Tables.

(** ** The rest of the tracker

    Company management, the two ways a job enters the tracker, the jobs
    search state, and the skills line of the resume builder. The answer of
    [confirm] and the readings of the clock are arguments. *)

Module Tracker.
Import JsString JsNumber PrepHub.

(** What [arr.find(p)] returns is updated in place: the first element that
    satisfies [p] is replaced by [f] of it. *)
Fixpoint updateFirst {A : Type} (p : A -> bool) (f : A -> A) (l : list A)
  : list A :=
  match l with
  | [] => []
  | x :: l' => if p x then f x :: l' else x :: updateFirst p f l'
  end.

(** [toggleFavorite], as it acts on [appState.companies]: the company
    found by id has [isFavorite] negated. *)
Definition toggleFavorite (companyId : Z) (cs : list Company) : list Company :=
  updateFirst (fun c => (id c =? companyId)%Z)
    (fun c => {| id := id c; name := name c; role := role c;
                 requiredSkills := requiredSkills c;
                 location := location c; type := type c;
                 isFavorite := negb (isFavorite c);
                 notes := notes c; description := description c;
                 addedDate := addedDate c; deadline := deadline c |})
    cs.

(** [autoSaveNotes], as it acts on [appState.companies], given the value
    of the notes field. *)
Definition autoSaveNotes (companyId : Z) (notesValue : string)
  (cs : list Company) : list Company :=
  updateFirst (fun c => (id c =? companyId)%Z)
    (fun c => {| id := id c; name := name c; role := role c;
                 requiredSkills := requiredSkills c;
                 location := location c; type := type c;
                 isFavorite := isFavorite c;
                 notes := notesValue; description := description c;
                 addedDate := addedDate c; deadline := deadline c |})
    cs.

(** [deleteCompany], given the answer of [confirm]. *)
Definition deleteCompany (companyId : Z) (confirmed : bool) (st : AppState)
  : AppState :=
  match find (fun c => (id c =? companyId)%Z) (companies st) with
  | None => st
  | Some _ =>
      if negb confirmed then st
      else {| companies :=
                filter (fun c => negb (id c =? companyId)%Z) (companies st);
              currentView := currentView st;
              currentCompany := currentCompany st;
              userSkills := userSkills st |}
  end.

(** The skill tags of a company card: [requiredSkills.slice(0, 3)], and
    [requiredSkills.length - 3] for the tag "+N more", shown when it is
    positive. *)
Record CardTags : Type := mkCardTags {
  skillsPreview : list string;
  moreSkills : Z;
  moreShown : bool
}.

Definition createCompanyCard (c : Company) : CardTags :=
  let more := (Z.of_nat (List.length (requiredSkills c)) - 3)%Z in
  {| skillsPreview := firstn 3 (requiredSkills c);
     moreSkills := more;
     moreShown := (0 <? more)%Z |}.

(** [addJobToTracker]. *)
Definition addJobToTracker
  (company role jobLocation jobDescription : string) (now : Z) (nowISO : string)
  (st : AppState) : AppState :=
  let newCompany :=
    {| id := now;
       name := company;
       role := role;
       requiredSkills := [];
       location := orElse jobLocation "Not specified";
       type := if JsString.includes (toLowerCase role) "intern"
               then "Internship" else "Full-time";
       isFavorite := false;
       notes := "Added from Jobs search. Use JD Analyzer to extract required skills.";
       description := Some jobDescription;
       addedDate := nowISO;
       deadline := None |} in
  {| companies := companies st ++ [newCompany];
     currentView := currentView st;
     currentCompany := currentCompany st;
     userSkills := userSkills st |}.

(** The fields [addJDAToTracker] reads, and the clock. *)
Record JDAForm : Type := mkJDAForm {
  jdaCompanyName : string;
  jdaRoleName : string;
  jdaText : string;
  jdaNow : Z;
  jdaNowISO : string
}.

(** [addJDAToTracker]: [None] stands for the notification
    'No skills detected to add'. *)
Definition addJDAToTracker (form : JDAForm) (g : Globals) : option Globals :=
  let company := orElse (trim (jdaCompanyName form)) "Unknown Company" in
  let role := orElse (trim (jdaRoleName form)) "Unknown Role" in
  if (List.length (jdaExtractedSkills g) =? 0)%nat then None
  else
    let newCompany :=
      {| id := jdaNow form;
         name := company;
         role := role;
         requiredSkills := jdaExtractedSkills g;
         location := "Not specified";
         type := if JsString.includes (toLowerCase role) "intern"
                 then "Internship" else "Full-time";
         isFavorite := false;
         notes := "Added from JD Analyzer.";
         description := Some (trim (jdaText form));
         addedDate := jdaNowISO form;
         deadline := None |} in
    Some {| appState :=
              switchView "companies"
                {| companies := companies (appState g) ++ [newCompany];
                   currentView := currentView (appState g);
                   currentCompany := currentCompany (appState g);
                   userSkills := userSkills (appState g) |};
            jdaExtractedSkills := jdaExtractedSkills g |}.

(** [clearJDA], as far as the globals go. *)
Definition clearJDA (g : Globals) : Globals :=
  {| appState := appState g; jdaExtractedSkills := [] |}.

(** [importSkillsFromProfile]: the value written into the skills field of
    the resume builder, [None] when there is no skill to import. *)
Definition importSkillsFromProfile (st : AppState) : option string :=
  if (List.length (userSkills st) =? 0)%nat then None
  else Some (join ", " (userSkills st)).

(** The skill chips [updatePreview] shows for the value of the skills
    field; [None] is the placeholder 'Add your skills above'. *)
Definition previewSkillChips (skills : string) : option (list string) :=
  if truthy skills
  then Some (filter truthy (map trim (split "," skills)))
  else None.

(** [renderJobsQuickTags]: [userSkills.slice(0, 8)], [None] for the hint
    shown when there is no skill. *)
Definition renderJobsQuickTags (st : AppState) : option (list string) :=
  let skills := firstn 8 (userSkills st) in
  if (List.length skills =? 0)%nat then None else Some skills.

(** [jobsState]. *)
Record JobsState : Type := mkJobsState {
  currentPage : Z;
  totalResults : Z;
  resultsPerPage : Z;
  lastKeyword : string;
  lastLocation : string;
  lastCountry : string
}.

(** The query [searchJobs] sends to the proxy. *)
Record JobsQuery : Type := mkJobsQuery {
  queryKeyword : string;
  queryLocation : string;
  queryCountry : string;
  queryPage : Z
}.

(** [searchJobs] up to the request: the fields are read, [jobsState] is
    updated and the query is built. *)
Definition searchJobs (page : Z) (jobKeyword jobLocation jobCountry : string)
  (js : JobsState) : JobsState * JobsQuery :=
  let keyword := orElse (trim jobKeyword) "software developer intern" in
  let loc := trim jobLocation in
  ({| currentPage := page;
      totalResults := totalResults js;
      resultsPerPage := resultsPerPage js;
      lastKeyword := keyword;
      lastLocation := loc;
      lastCountry := jobCountry |},
   {| queryKeyword := keyword;
      queryLocation := loc;
      queryCountry := jobCountry;
      queryPage := page |}).

(** [loadJobsPage]: no search below page 1. *)
Definition loadJobsPage (direction : Z)
  (jobKeyword jobLocation jobCountry : string) (js : JobsState)
  : JobsState * option JobsQuery :=
  let newPage := (currentPage js + direction)%Z in
  if (newPage <? 1)%Z then (js, None)
  else let '(js', q) := searchJobs newPage jobKeyword jobLocation jobCountry js in
       (js', Some q).

End Tracker.

(** ** HTML escaping *)

Module Html.
Import JsString.

(** [s.replace(/c/g, by)] for a pattern that is one literal code unit. *)
Fixpoint replaceAll (c : ascii) (by_ : string) (s : string) : string :=
  match s with
  | EmptyString => EmptyString
  | String d s' =>
      if Ascii.eqb d c then by_ ++ replaceAll c by_ s'
      else String d (replaceAll c by_ s')
  end.

(** [escapeHtml]: the five replacements, in the order of the source. *)
Definition escapeHtml (str : string) : string :=
  replaceAll "'" "&#39;"
    (replaceAll "034" "&quot;"
       (replaceAll ">" "&gt;"
          (replaceAll "<" "&lt;"
             (replaceAll "&" "&amp;" str)))).

(** The replacement of one code unit, all five rules at once. *)
Definition escapeChar (c : ascii) : string :=
  if Ascii.eqb c "&" then "&amp;"
  else if Ascii.eqb c "<" then "&lt;"
  else if Ascii.eqb c ">" then "&gt;"
  else if Ascii.eqb c "034" then "&quot;"
  else if Ascii.eqb c "'" then "&#39;"
  else String c EmptyString.

Fixpoint escapeEach (s : string) : string :=
  match s with
  | EmptyString => EmptyString
  | String c s' => escapeChar c ++ escapeEach s'
  end.

(** [s] is free of markup: it holds none of the four code units that
    open or close a tag or an attribute value, and every ampersand in it
    begins one of the five entities. *)
Fixpoint markupFree (s : string) : bool :=
  match s with
  | EmptyString => true
  | String c s' =>
      negb (Ascii.eqb c "<") && negb (Ascii.eqb c ">") &&
      negb (Ascii.eqb c "034") && negb (Ascii.eqb c "'") &&
      (negb (Ascii.eqb c "&") ||
       startsWith s' "amp;" || startsWith s' "lt;" || startsWith s' "gt;" ||
       startsWith s' "quot;" || startsWith s' "#39;") &&
      markupFree s'
  end.

(** Reading the five entities back. *)
Fixpoint unescapeHtml (s : string) : string :=
  match s with
  | String "&" (String "a" (String "m" (String "p" (String ";" r)))) =>
      String "&" (unescapeHtml r)
  | String "&" (String "l" (String "t" (String ";" r))) =>
      String "<" (unescapeHtml r)
  | String "&" (String "g" (String "t" (String ";" r))) =>
      String ">" (unescapeHtml r)
  | String "&" (String "q" (String "u" (String "o" (String "t"
      (String ";" r))))) =>
      String "034" (unescapeHtml r)
  | String "&" (String "#" (String "3" (String "9" (String ";" r)))) =>
      String "'" (unescapeHtml r)
  | String c r => String c (unescapeHtml r)
  | EmptyString => EmptyString
  end.

End Html.

(** ** More finite checks *)

Module MoreTables.
Import JsNumber PrepHub Tables.

(** Up to the size of the vocabulary, the percentage is 100 only when the
    part is the whole and 0 only when the part is nothing. *)
Definition extremeRowOk (whole : nat) : bool :=
  forallb (fun part =>
             Bool.eqb (expectedPercent part whole =? 100)%Z (part =? whole)%nat &&
             Bool.eqb (expectedPercent part whole =? 0)%Z (part =? 0)%nat)
          (seq 0 (S whole)).

(** ... and it does not go down when the part goes up. *)
Definition monotoneRowOk (whole : nat) : bool :=
  forallb (fun part =>
             (expectedPercent part whole <=? expectedPercent (S part) whole)%Z)
          (seq 0 whole).

End MoreTables.

(** ** Job cards *)

Module JobCard.
Import JsString PrepHub Tracker Html.

(** Whether ['>'] occurs in [s]. *)
Fixpoint hasClose (s : string) : bool :=
  match s with
  | EmptyString => false
  | String c s' => Ascii.eqb c ">" || hasClose s'
  end.

(** The pattern [<[^>]+>] matches at a ['<'] that [s] follows exactly
    when [s] begins with a code unit other than ['>'] and holds a ['>']:
    the match then ends at the first ['>']. *)
Definition tagAhead (s : string) : bool :=
  match s with
  | EmptyString => false
  | String c _ => negb (Ascii.eqb c ">") && hasClose s
  end.

(** [s.replace(/<[^>]+>/g, '')], scanning from the left: outside a match
    a ['<'] at which the pattern matches opens one, every other code unit
    is kept; inside a match everything is dropped up to and with the
    first ['>']. *)
Fixpoint stripFrom (inTag : bool) (s : string) : string :=
  match s with
  | EmptyString => EmptyString
  | String c s' =>
      if inTag then
        if Ascii.eqb c ">" then stripFrom false s' else stripFrom true s'
      else if Ascii.eqb c "<" && tagAhead s' then stripFrom true s'
      else String c (stripFrom false s')
  end.

Definition stripTags (s : string) : string := stripFrom false s.

(** A tag starts at the head of [s], respectively somewhere in [s]. *)
Definition tagStart (s : string) : bool :=
  match s with
  | EmptyString => false
  | String c s' => Ascii.eqb c "<" && tagAhead s'
  end.

Fixpoint hasTag (s : string) : bool :=
  tagStart s ||
  match s with
  | EmptyString => false
  | String _ s' => hasTag s'
  end.

(** A match of the pattern begins [s]: a ['<'], a non-empty run free of
    ['>'], a ['>']. *)
Definition TagAt (s : string) : Prop :=
  exists m r : string,
    s = String "<" (m ++ String ">" r) /\ m <> EmptyString /\
    hasClose m = false.

(** [d] is [s] with the matches of the pattern left out, as a global
    replace finds them from the left: a match that begins at a position
    is left out whole and the search goes on behind it, a code unit at
    which no match begins is kept. *)
Inductive Stripped : string -> string -> Prop :=
| Stripped_end : Stripped EmptyString EmptyString
| Stripped_keep (c : ascii) (s d : string) :
    ~ TagAt (String c s) -> Stripped s d ->
    Stripped (String c s) (String c d)
| Stripped_tag (m r d : string) :
    m <> EmptyString -> hasClose m = false -> Stripped r d ->
    Stripped (String "<" (m ++ String ">" r)) d.

(** The fields of a posting that a job card reads; [None] is a missing
    field. *)
Record Job : Type := mkJob {
  jobTitle : option string;
  jobCompanyName : option string;
  jobLocationName : option string;
  jobDescription : option string;
  jobContractType : option string;
  jobContractTime : option string
}.

(** [x || fallback] for a field that may be missing. *)
Definition orDefault (x : option string) (fallback : string) : string :=
  match x with
  | Some s => orElse s fallback
  | None => fallback
  end.

(** What [createJobCard] stores in [_jobCache]. *)
Record CachedJob : Type := mkCachedJob {
  cachedCompany : string;
  cachedTitle : string;
  cachedLocation : string;
  cachedDescription : string
}.

Record JobCardView : Type := mkJobCardView {
  cardTitle : string;
  cardCompany : string;
  cardLocation : string;
  cardBadge : string;
  cardDescription : string;
  cardCache : CachedJob
}.

(** [createJobCard]: the texts of the card, each through [escapeHtml],
    and the cache entry. *)
Definition createJobCard (job : Job) : JobCardView :=
  let title := orDefault (jobTitle job) "Untitled Role" in
  let company := orDefault (jobCompanyName job) "Company Not Listed" in
  let loc := orDefault (jobLocationName job) "Location Not Specified" in
  let description := orDefault (jobDescription job) "" in
  let contractType := orDefault (jobContractType job) "" in
  let contractTime := orDefault (jobContractTime job) "" in
  let badgeLabel :=
    if String.eqb contractTime "part_time" then "Part-time"
    else if String.eqb contractType "contract" then "Contract"
    else if JsString.includes (toLowerCase title) "intern" then "Internship"
    else "Full-time" in
  let cleanDesc :=
    (String.substring 0 200 (stripTags description) ++ "...")%string in
  {| cardTitle := escapeHtml title;
     cardCompany := escapeHtml company;
     cardLocation := escapeHtml loc;
     cardBadge := badgeLabel;
     cardDescription := escapeHtml cleanDesc;
     cardCache := {| cachedCompany := company;
                     cachedTitle := title;
                     cachedLocation := loc;
                     cachedDescription := stripTags description |} |}.

(** [addJobToTrackerFromCache], given the entry found in the cache;
    [None] is a key that is not there, which only notifies. *)
Definition addJobToTrackerFromCache (entry : option CachedJob) (now : Z)
  (nowISO : string) (st : AppState) : AppState :=
  match entry with
  | None => st
  | Some job =>
      addJobToTracker (cachedCompany job) (cachedTitle job)
                      (cachedLocation job) (cachedDescription job)
                      now nowISO st
  end.

End JobCard.

(** ** The jobs proxy *)

Module Proxy.
Import JsString.

(** The characters [encodeURIComponent] leaves as they are. *)
Definition unreserved (c : ascii) : bool :=
  let n := N_of_ascii c in
  ((65 <=? n) && (n <=? 90) || (97 <=? n) && (n <=? 122) ||
   (48 <=? n) && (n <=? 57) ||
   (n =? 45) || (n =? 95) || (n =? 46) || (n =? 33) || (n =? 126) ||
   (n =? 42) || (n =? 39) || (n =? 40) || (n =? 41))%N.

Definition hexDigit (n : N) : ascii :=
  if (n <? 10)%N then ascii_of_N (48 + n) else ascii_of_N (55 + n).

(** One octet, percent-encoded. *)
Definition percent (octet : N) : string :=
  String "%" (String (hexDigit (octet / 16))
                     (String (hexDigit (octet mod 16)) EmptyString)).

(** A code unit below U+0100 that is not left alone is written as the
    octets of its UTF-8 form: one octet below U+0080, two from there. *)
Definition encodeUnit (c : ascii) : string :=
  let n := N_of_ascii c in
  if unreserved c then String c EmptyString
  else if (n <? 128)%N then percent n
  else (percent (192 + n / 64) ++ percent (128 + n mod 64))%string.

Fixpoint encodeURIComponent (s : string) : string :=
  match s with
  | EmptyString => EmptyString
  | String c s' => (encodeUnit c ++ encodeURIComponent s')%string
  end.

(** [req.query], each parameter present or not. *)
Record Query : Type := mkQuery {
  keyword : option string;
  location : option string;
  country : option string;
  page : option string
}.

(** A destructuring default: it applies to a missing parameter only. *)
Definition withDefault (x : option string) (fallback : string) : string :=
  match x with Some s => s | None => fallback end.

(** The URL both proxies build. *)
Definition adzunaUrl (APP_ID APP_KEY : string) (q : Query) : string :=
  let keyword := withDefault (keyword q) "software developer" in
  let location := withDefault (location q) "" in
  let country := withDefault (country q) "in" in
  let page := withDefault (page q) "1" in
  let url := ("https://api.adzuna.com/v1/api/jobs/" ++ country ++
              "/search/" ++ page)%string in
  let url := (url ++ "?app_id=" ++ APP_ID)%string in
  let url := (url ++ "&app_key=" ++ APP_KEY)%string in
  let url := (url ++ "&results_per_page=12")%string in
  let url := (url ++ "&what=" ++ encodeURIComponent keyword)%string in
  if truthy location
  then (url ++ "&where=" ++ encodeURIComponent location)%string
  else url.

(** What the upstream request comes to. *)
Inductive Upstream : Type :=
| FetchFailed (message : string)
| NotOk (status : Z) (text : string)
| Ok (count : option Z) (results : option (list string)).

Inductive Body : Type :=
| NoBody
| KeysNotConfigured
| AdzunaError (status : Z) (message : string)
| FetchError (message : string)
| Jobs (count : Z) (results : list string).

Record Response : Type := mkResponse {
  status : Z;
  body : Body
}.

(** The serverless [/api/jobs] handler: the URL it requests, if any, and
    its response. [fetch] is the upstream, the environment variables may
    be unset. *)
Definition handler (method : string) (q : Query)
  (APP_ID APP_KEY : option string) (fetch : string -> Upstream)
  : option string * Response :=
  if String.eqb method "OPTIONS" then (None, {| status := 200; body := NoBody |})
  else
    match APP_ID, APP_KEY with
    | Some appId, Some appKey =>
        if truthy appId && truthy appKey then
          let url := adzunaUrl appId appKey q in
          (Some url,
           match fetch url with
           | FetchFailed message =>
               {| status := 500; body := FetchError message |}
           | NotOk code text =>
               {| status := code; body := AdzunaError code text |}
           | Ok count results =>
               {| status := 200;
                  body := Jobs (match count with
                                | Some n => if (n =? 0)%Z then 0%Z else n
                                | None => 0%Z
                                end)
                               (match results with
                                | Some l => l
                                | None => []
                                end) |}
           end)
        else (None, {| status := 500; body := KeysNotConfigured |})
    | _, _ => (None, {| status := 500; body := KeysNotConfigured |})
    end.

(** [s] holds only characters that stand for themselves in a query
    value: unreserved ones, and ['%'] with the hexadecimal digits. *)
Definition querySafeChar (c : ascii) : bool :=
  let n := N_of_ascii c in
  (unreserved c || (n =? 37) || (48 <=? n) && (n <=? 57) ||
   (65 <=? n) && (n <=? 70))%N.

Fixpoint querySafe (s : string) : bool :=
  match s with
  | EmptyString => true
  | String c s' => querySafeChar c && querySafe s'
  end.

(** [s] holds no ['&']. *)
Fixpoint ampFree (s : string) : bool :=
  match s with
  | EmptyString => true
  | String c s' => negb (Ascii.eqb c "&") && ampFree s'
  end.

End Proxy.

(** ** The stored state *)

Module Storage.
Import JsString JsNumber.

(** A value as [JSON.parse] returns it; the fields of an object are kept
    as a list, the first entry of a key being its value. *)
#[warnings="-register-all"]
Inductive JsValue : Type :=
| JNull
| JBool (b : bool)
| JNumber (x : number)
| JString (s : string)
| JArray (items : list JsValue)
| JObject (fields : list (string * JsValue)).

Definition truthyValue (v : JsValue) : bool :=
  match v with
  | JNull => false
  | JBool b => b
  | JNumber (S754_zero _) => false
  | JNumber S754_nan => false
  | JNumber _ => true
  | JString s => truthy s
  | JArray _ => true
  | JObject _ => true
  end.

Fixpoint lookup (key : string) (fields : list (string * JsValue))
  : option JsValue :=
  match fields with
  | [] => None
  | (k, v) :: rest => if String.eqb k key then Some v else lookup key rest
  end.

(** [v.key] for a key no prototype defines; [None] is [undefined]. The
    object form of a primitive and an array have no such property. *)
Definition getField (key : string) (v : JsValue) : option JsValue :=
  match v with
  | JObject fields => lookup key fields
  | _ => None
  end.

Fixpoint assign (key : string) (v : JsValue)
  (fields : list (string * JsValue)) : list (string * JsValue) :=
  match fields with
  | [] => [(key, v)]
  | (k, w) :: rest =>
      if String.eqb k key then (k, v) :: rest
      else (k, w) :: assign key v rest
  end.

(** [obj.key = v] on an object. *)
Definition setField (key : string) (v : JsValue) (obj : JsValue) : JsValue :=
  match obj with
  | JObject fields => JObject (assign key v fields)
  | other => other
  end.

Definition isArray (v : option JsValue) : bool :=
  match v with Some (JArray _) => true | _ => false end.

Definition isString (v : option JsValue) : bool :=
  match v with Some (JString _) => true | _ => false end.

(** [validateAppState], as the condition it is used as. *)
Definition validateAppState (state : option JsValue) : bool :=
  match state with
  | Some st =>
      truthyValue st &&
      (match st with JObject _ | JArray _ => true | _ => false end) &&
      isArray (getField "companies" st) &&
      isArray (getField "userSkills" st) &&
      isString (getField "currentView" st)
  | None => false
  end.

(** [initializeDefaultState]: four assignments on the state object. *)
Definition initializeDefaultState (appState : JsValue) : JsValue :=
  setField "currentCompany" JNull
    (setField "currentView" (JString "dashboard")
       (setField "userSkills" (JArray [])
          (setField "companies" (JArray []) appState))).

(** What [localStorage.getItem] and [JSON.parse] come to. *)
Inductive Stored : Type :=
| NoItem
| EmptyItem
| Unparsable
| Parsed (v : JsValue).

(** [loadFromLocalStorage]. Reading a property of [null] throws, as does
    [JSON.parse] on a text that is not JSON; both end in the defaults. *)
Definition loadFromLocalStorage (saved : Stored) (appState : JsValue)
  : JsValue :=
  match saved with
  | Parsed JNull => initializeDefaultState appState
  | Parsed parsed =>
      match getField "data" parsed with
      | Some data =>
          if truthyValue data && validateAppState (Some data) then data
          else initializeDefaultState appState
      | None => initializeDefaultState appState
      end
  | _ => initializeDefaultState appState
  end.

(** [switchView], as far as the state object goes. *)
Definition switchViewField (viewName : string) (appState : JsValue)
  : JsValue :=
  setField "currentView" (JString viewName) appState.

(** The state object [importData] leaves once the file is read, given
    the outcome of [JSON.parse] ([None]: the text is not JSON) and the
    answer of [confirm]. A file that is refused, by the parser or by the
    validation, leaves the state as it was; [switchView] writes the view
    name before it renders. *)
Definition importData (imported : option JsValue) (confirmed : bool)
  (appState : JsValue) : JsValue :=
  match imported with
  | None | Some JNull => appState
  | Some parsed =>
      match getField "data" parsed with
      | Some data =>
          if truthyValue data && validateAppState (Some data) then
            if confirmed then
              let view :=
                match getField "currentView" data with
                | Some (JString s) => orElse s "dashboard"
                | _ => "dashboard"
                end in
              switchViewField view data
            else appState
          else appState
      | None => appState
      end
  end.

(** The state object [clearAllData] leaves, given the answers of its two
    [confirm]s. *)
Definition clearAllData (confirm1 confirm2 : bool) (appState : JsValue)
  : JsValue :=
  if negb confirm1 then appState
  else if negb confirm2 then appState
  else switchViewField "dashboard" (initializeDefaultState appState).

End Storage.

(** ** The core over a store of mutable objects

    Arrays, sets and company objects live in a store and are passed by
    reference, as in the source: [filter], [map] and [Array.from] make a
    new array, [set.add] and [sort] write into the object they are called
    on. The views return what their templates read. *)

Module Mutable.
Import JsString JsNumber.

Definition ref : Type := nat.

(** A company object; [requiredSkills] refers to an array. *)
Record CompanyObject : Type := mkCompanyObject {
  objId : Z;
  objName : string;
  objRole : string;
  objRequiredSkills : ref;
  objLocation : string;
  objType : string;
  objIsFavorite : bool;
  objNotes : string;
  objDescription : option string;
  objAddedDate : string;
  objDeadline : option string
}.

(** An item of [progressItems]; [company] refers to the company object. *)
Record ItemObject : Type := mkItemObject {
  itemCompany : ref;
  itemTotalSkills : nat;
  itemAcquiredSkills : nat;
  itemPercentage : number
}.

Inductive Cell : Type :=
| StringArray (elements : list string)
| StringSet (elements : list string)
| CompanyArray (elements : list ref)
| CompanyCell (company : CompanyObject)
| ItemArray (elements : list ItemObject).

(** The store, the fields of [appState] and the variable
    [jdaExtractedSkills]. *)
Record Machine : Type := mkMachine {
  heap : list Cell;
  companiesRef : ref;
  userSkillsRef : ref;
  currentViewName : string;
  currentCompanyRef : option ref;
  jdaExtractedSkillsRef : ref
}.

(** A computation on the machine; [None] is a reference that does not
    hold what the operation expects. *)
Definition M (A : Type) : Type := Machine -> option (A * Machine).

Definition ret {A : Type} (a : A) : M A := fun s => Some (a, s).

Definition bind {A B : Type} (m : M A) (f : A -> M B) : M B :=
  fun s => match m s with
           | Some (a, s') => f a s'
           | None => None
           end.

Definition fail {A : Type} : M A := fun _ => None.

Notation "x <- m ;; k" := (bind m (fun x => k))
  (at level 61, m at next level, right associativity).

Definition setHeap (h : list Cell) (s : Machine) : Machine :=
  {| heap := h;
     companiesRef := companiesRef s;
     userSkillsRef := userSkillsRef s;
     currentViewName := currentViewName s;
     currentCompanyRef := currentCompanyRef s;
     jdaExtractedSkillsRef := jdaExtractedSkillsRef s |}.

(** *** The store *)

Definition load (r : ref) : M Cell :=
  fun s => match nth_error (heap s) r with
           | Some c => Some (c, s)
           | None => None
           end.

(** A new object, behind everything there is. *)
Definition alloc (c : Cell) : M ref :=
  fun s => Some (List.length (heap s), setHeap (heap s ++ [c]) s).

Fixpoint update (r : ref) (c : Cell) (h : list Cell) : list Cell :=
  match h, r with
  | [], _ => []
  | _ :: h', O => c :: h'
  | x :: h', S r' => x :: update r' c h'
  end.

(** Writing into the object at [r]. *)
Definition store (r : ref) (c : Cell) : M unit :=
  fun s => if (r <? List.length (heap s))%nat
           then Some (tt, setHeap (update r c (heap s)) s)
           else None.

Definition strings (r : ref) : M (list string) :=
  c <- load r ;;
  match c with StringArray l => ret l | _ => fail end.

Definition members (r : ref) : M (list string) :=
  c <- load r ;;
  match c with StringSet l => ret l | _ => fail end.

Definition companyRefs (r : ref) : M (list ref) :=
  c <- load r ;;
  match c with CompanyArray l => ret l | _ => fail end.

Definition companyObject (r : ref) : M CompanyObject :=
  c <- load r ;;
  match c with CompanyCell o => ret o | _ => fail end.

Definition items (r : ref) : M (list ItemObject) :=
  c <- load r ;;
  match c with ItemArray l => ret l | _ => fail end.

(** *** Variables *)

Definition appState_companies : M ref := fun s => Some (companiesRef s, s).
Definition appState_userSkills : M ref := fun s => Some (userSkillsRef s, s).

(** [appState.currentCompany = company]. *)
Definition set_currentCompany (company : ref) : M unit :=
  fun s => Some (tt, {| heap := heap s;
                        companiesRef := companiesRef s;
                        userSkillsRef := userSkillsRef s;
                        currentViewName := currentViewName s;
                        currentCompanyRef := Some company;
                        jdaExtractedSkillsRef := jdaExtractedSkillsRef s |}).

(** [jdaExtractedSkills = skills]. *)
Definition set_jdaExtractedSkills (skills : ref) : M unit :=
  fun s => Some (tt, {| heap := heap s;
                        companiesRef := companiesRef s;
                        userSkillsRef := userSkillsRef s;
                        currentViewName := currentViewName s;
                        currentCompanyRef := currentCompanyRef s;
                        jdaExtractedSkillsRef := skills |}).

Definition get_jdaExtractedSkills : M ref :=
  fun s => Some (jdaExtractedSkillsRef s, s).

(** *** Iteration

    The elements are those the array holds when the call begins; no
    callback of the source writes into the array it is called over. *)

Fixpoint forEach {A : Type} (f : A -> M unit) (l : list A) : M unit :=
  match l with
  | [] => ret tt
  | x :: l' => _ <- f x ;; forEach f l'
  end.

Fixpoint filterM {A : Type} (p : A -> M bool) (l : list A) : M (list A) :=
  match l with
  | [] => ret []
  | x :: l' =>
      b <- p x ;;
      rest <- filterM p l' ;;
      ret (if b then x :: rest else rest)
  end.

Fixpoint mapM {A B : Type} (f : A -> M B) (l : list A) : M (list B) :=
  match l with
  | [] => ret []
  | x :: l' =>
      y <- f x ;;
      rest <- mapM f l' ;;
      ret (y :: rest)
  end.

Fixpoint findM {A : Type} (p : A -> M bool) (l : list A) : M (option A) :=
  match l with
  | [] => ret None
  | x :: l' =>
      b <- p x ;;
      if b then ret (Some x) else findM p l'
  end.

(** *** Arrays of strings and sets *)

Definition Array_includes (arr : ref) (x : string) : M bool :=
  l <- strings arr ;; ret (JsArray.includes l x).

Definition Array_length (arr : ref) : M nat :=
  l <- strings arr ;; ret (List.length l).

(** [arr.filter(p)]: a new array. *)
Definition Array_filter (p : string -> M bool) (arr : ref) : M ref :=
  l <- strings arr ;;
  kept <- filterM p l ;;
  alloc (StringArray kept).

(** [arr.map(f)]: a new array. *)
Definition Array_map (f : string -> string) (arr : ref) : M ref :=
  l <- strings arr ;; alloc (StringArray (map f l)).

Definition Array_forEach (f : string -> M unit) (arr : ref) : M unit :=
  l <- strings arr ;; forEach f l.

(** [new Set()]. *)
Definition Set_new : M ref := alloc (StringSet []).

(** [set.add(x)] writes into the set. *)
Definition Set_add (set : ref) (x : string) : M unit :=
  l <- members set ;; store set (StringSet (JsArray.Set_add l x)).

Definition Set_size (set : ref) : M nat :=
  l <- members set ;; ret (List.length l).

(** [Array.from(set)]: a new array. *)
Definition Array_from (set : ref) : M ref :=
  l <- members set ;; alloc (StringArray l).

(** *** Arrays of companies and of items *)

Definition Companies_length (arr : ref) : M nat :=
  l <- companyRefs arr ;; ret (List.length l).

Definition Companies_filter (p : ref -> M bool) (arr : ref) : M ref :=
  l <- companyRefs arr ;;
  kept <- filterM p l ;;
  alloc (CompanyArray kept).

Definition Companies_forEach (f : ref -> M unit) (arr : ref) : M unit :=
  l <- companyRefs arr ;; forEach f l.

Definition Companies_find (p : ref -> M bool) (arr : ref) : M (option ref) :=
  l <- companyRefs arr ;; findM p l.

(** [companies.map(f)] with item objects for results: a new array. *)
Definition Companies_map (f : ref -> M ItemObject) (arr : ref) : M ref :=
  l <- companyRefs arr ;;
  made <- mapM f l ;;
  alloc (ItemArray made).

(** [arr.sort(comparefn)] sorts the array it is called on. *)
Definition Array_sort (comparefn : ItemObject -> ItemObject -> number)
  (arr : ref) : M unit :=
  l <- items arr ;; store arr (ItemArray (JsArray.sort comparefn l)).

(** *** The core *)

(** [extractSkillsFromText]: the vocabulary is a constant, the result a
    new array. *)
Definition extractSkillsFromText (text : option string) : M ref :=
  alloc (StringArray (PrepHub.extractSkillsFromText text)).

(** [companies.forEach(c => c.requiredSkills.forEach(s => set.add(s)))]. *)
Definition collectRequiredSkills (allRequiredSkills : ref) (companies : ref)
  : M unit :=
  Companies_forEach
    (fun company =>
       o <- companyObject company ;;
       Array_forEach (fun skill => Set_add allRequiredSkills skill)
                     (objRequiredSkills o))
    companies.

(** [c => c.isFavorite]. *)
Definition isFavoriteOf (c : ref) : M bool :=
  o <- companyObject c ;; ret (objIsFavorite o).

(** [renderDashboard]: the four figures. The cards of the favourites,
    which only read the companies, are left out. *)
Definition renderDashboard : M PrepHub.DashboardStats :=
  companies <- appState_companies ;;
  totalCompanies <- Companies_length companies ;;
  companies <- appState_companies ;;
  favorite <- Companies_filter isFavoriteOf companies ;;
  favoriteCount <- Companies_length favorite ;;
  allRequiredSkills <- Set_new ;;
  companies <- appState_companies ;;
  _ <- collectRequiredSkills allRequiredSkills companies ;;
  all <- Array_from allRequiredSkills ;;
  needed <- Array_filter
              (fun skill =>
                 userSkills <- appState_userSkills ;;
                 b <- Array_includes userSkills skill ;;
                 ret (negb b))
              all ;;
  skillsNeeded <- Array_length needed ;;
  totalSkillsNeeded <- Set_size allRequiredSkills ;;
  all <- Array_from allRequiredSkills ;;
  acquired <- Array_filter
                (fun skill =>
                   userSkills <- appState_userSkills ;;
                   Array_includes userSkills skill)
                all ;;
  skillsAcquired <- Array_length acquired ;;
  companies <- appState_companies ;;
  favorites <- Companies_filter isFavoriteOf companies ;;
  ret (PrepHub.mkDashboardStats
         totalCompanies favoriteCount skillsNeeded
         (if (0 <? totalSkillsNeeded)%nat
          then PrepHub.percentOf skillsAcquired totalSkillsNeeded
          else ofZ 0)).

(** What the detail view reads: the company and the two lists. *)
Record DetailRead : Type := mkDetailRead {
  readCompany : ref;
  readProficient : list string;
  readNeeded : list string
}.

(** [viewCompanyDetail]; [None] is an id no company carries. *)
Definition viewCompanyDetail (companyId : Z) : M (option DetailRead) :=
  companies <- appState_companies ;;
  found <- Companies_find
             (fun c => o <- companyObject c ;; ret (objId o =? companyId)%Z)
             companies ;;
  match found with
  | None => ret None
  | Some company =>
      _ <- set_currentCompany company ;;
      o <- companyObject company ;;
      proficientSkills <-
        Array_filter
          (fun skill =>
             userSkills <- appState_userSkills ;;
             Array_includes userSkills skill)
          (objRequiredSkills o) ;;
      o <- companyObject company ;;
      neededSkills <-
        Array_filter
          (fun skill =>
             userSkills <- appState_userSkills ;;
             b <- Array_includes userSkills skill ;;
             ret (negb b))
          (objRequiredSkills o) ;;
      proficient <- strings proficientSkills ;;
      needed <- strings neededSkills ;;
      ret (Some (mkDetailRead company proficient needed))
  end.

(** The count beside a skill of the skill gap view. *)
Definition demandCount (skill : string) : M nat :=
  companies <- appState_companies ;;
  demanding <-
    Companies_filter
      (fun c =>
         o <- companyObject c ;;
         lowered <- Array_map toLowerCase (objRequiredSkills o) ;;
         Array_includes lowered (toLowerCase skill))
      companies ;;
  Companies_length demanding.

(** The chips of one category: [arr.length > 0 ? arr.map(...) : ''],
    each skill with its count. *)
Definition skillChips (arr : ref) : M (list (string * nat)) :=
  n <- Array_length arr ;;
  if (0 <? n)%nat
  then l <- strings arr ;;
       mapM (fun skill => count <- demandCount skill ;; ret (skill, count)) l
  else ret [].

(** [renderSkillGapAnalysis]. *)
Definition renderSkillGapAnalysis : M PrepHub.SkillGapView :=
  companies <- appState_companies ;;
  n <- Companies_length companies ;;
  if (n =? 0)%nat then ret PrepHub.EmptySkills
  else
    allRequiredSkills <- Set_new ;;
    companies <- appState_companies ;;
    _ <- collectRequiredSkills allRequiredSkills companies ;;
    userSkills <- appState_userSkills ;;
    userSkillsLower <- Array_map toLowerCase userSkills ;;
    all <- Array_from allRequiredSkills ;;
    proficientSkills <-
      Array_filter
        (fun skill => Array_includes userSkillsLower (toLowerCase skill))
        all ;;
    all <- Array_from allRequiredSkills ;;
    neededSkills <-
      Array_filter
        (fun skill =>
           b <- Array_includes userSkillsLower (toLowerCase skill) ;;
           ret (negb b))
        all ;;
    size <- Set_size allRequiredSkills ;;
    if (size =? 0)%nat then ret PrepHub.NoRequiredSkills
    else
      needed <- skillChips neededSkills ;;
      proficient <- skillChips proficientSkills ;;
      proficientLength <- Array_length proficientSkills ;;
      neededLength <- Array_length neededSkills ;;
      let total := (proficientLength + neededLength)%nat in
      ret (PrepHub.GapShown
             (PrepHub.mkGapAnalysis needed proficient
                (if (0 <? total)%nat
                 then PrepHub.percentOf proficientLength total
                 else ofZ 0))).

(** The callback of [appState.companies.map] in [renderProgress]. *)
Definition progressItem (company : ref) : M ItemObject :=
  o <- companyObject company ;;
  totalSkills <- Array_length (objRequiredSkills o) ;;
  o <- companyObject company ;;
  acquired <-
    Array_filter
      (fun skill =>
         userSkills <- appState_userSkills ;;
         Array_includes userSkills skill)
      (objRequiredSkills o) ;;
  acquiredSkills <- Array_length acquired ;;
  ret (mkItemObject company totalSkills acquiredSkills
         (PrepHub.percentOf acquiredSkills totalSkills)).

(** [renderProgress]: [None] is the empty view. The new array [map]
    returns is the one that is sorted. *)
Definition renderProgress : M (option (list ItemObject)) :=
  companies <- appState_companies ;;
  n <- Companies_length companies ;;
  if (n =? 0)%nat then ret None
  else
    companies <- appState_companies ;;
    progressItems <- Companies_map progressItem companies ;;
    _ <- Array_sort
           (fun a b => sub (itemPercentage a) (itemPercentage b))
           progressItems ;;
    shown <- items progressItems ;;
    ret (Some shown).

(** [analyzeJD], given the value of the [jdaText] field. *)
Definition analyzeJD (jdaText : string) : M PrepHub.JDAOutcome :=
  let text := trim jdaText in
  if negb (truthy text)
  then ret (PrepHub.JDANotification "Please paste a job description first")
  else
    extracted <- extractSkillsFromText (Some text) ;;
    _ <- set_jdaExtractedSkills extracted ;;
    jdaExtractedSkills <- get_jdaExtractedSkills ;;
    n <- Array_length jdaExtractedSkills ;;
    if (n =? 0)%nat
    then ret (PrepHub.JDAShown
                (PrepHub.mkJDAResults true PrepHub.low (ofZ 0) [] []))
    else
      userSkills <- appState_userSkills ;;
      userSkillsLower <- Array_map toLowerCase userSkills ;;
      jdaExtractedSkills <- get_jdaExtractedSkills ;;
      haveSkills <-
        Array_filter
          (fun s => Array_includes userSkillsLower (toLowerCase s))
          jdaExtractedSkills ;;
      jdaExtractedSkills <- get_jdaExtractedSkills ;;
      needSkills <-
        Array_filter
          (fun s =>
             b <- Array_includes userSkillsLower (toLowerCase s) ;;
             ret (negb b))
          jdaExtractedSkills ;;
      haveLength <- Array_length haveSkills ;;
      jdaExtractedSkills <- get_jdaExtractedSkills ;;
      extractedLength <- Array_length jdaExtractedSkills ;;
      let score := PrepHub.percentOf haveLength extractedLength in
      have <- strings haveSkills ;;
      need <- strings needSkills ;;
      ret (PrepHub.JDAShown
             (PrepHub.mkJDAResults false (PrepHub.scoreTier score) score
                                   have need)).

(** *** What the store holds

    The companies and the skills a machine holds, read through the
    references. *)

Definition companyAt (h : list Cell) (r : ref) : option PrepHub.Company :=
  match nth_error h r with
  | Some (CompanyCell o) =>
      match nth_error h (objRequiredSkills o) with
      | Some (StringArray skills) =>
          Some (PrepHub.mkCompany
                  (objId o) (objName o) (objRole o) skills (objLocation o)
                  (objType o) (objIsFavorite o) (objNotes o)
                  (objDescription o) (objAddedDate o) (objDeadline o))
      | _ => None
      end
  | _ => None
  end.

Fixpoint companiesAt (h : list Cell) (rs : list ref)
  : option (list PrepHub.Company) :=
  match rs with
  | [] => Some []
  | r :: rs' =>
      match companyAt h r, companiesAt h rs' with
      | Some c, Some cs => Some (c :: cs)
      | _, _ => None
      end
  end.

(** [appState.companies] and [appState.userSkills], as values. *)
Definition inputsOf (s : Machine)
  : option (list PrepHub.Company * list string) :=
  match nth_error (heap s) (companiesRef s),
        nth_error (heap s) (userSkillsRef s) with
  | Some (CompanyArray rs), Some (StringArray skills) =>
      match companiesAt (heap s) rs with
      | Some cs => Some (cs, skills)
      | None => None
      end
  | _, _ => None
  end.

(** The state the views of the value model are given. *)
Definition stateOf (cs : list PrepHub.Company) (skills : list string)
  : PrepHub.AppState :=
  PrepHub.mkAppState cs "dashboard" None skills.

Definition itemAt (h : list Cell) (i : ItemObject)
  : option PrepHub.ProgressItem :=
  match companyAt h (itemCompany i) with
  | Some c =>
      Some (PrepHub.mkProgressItem c (itemTotalSkills i)
              (itemAcquiredSkills i) (itemPercentage i))
  | None => None
  end.

Fixpoint itemsAt (h : list Cell) (l : list ItemObject)
  : option (list PrepHub.ProgressItem) :=
  match l with
  | [] => Some []
  | i :: l' =>
      match itemAt h i, itemsAt h l' with
      | Some x, Some xs => Some (x :: xs)
      | _, _ => None
      end
  end.

(** Every object of [s] is in [s'] as it was, and [appState.companies]
    and [appState.userSkills] refer to the objects they referred to. *)
Definition Unchanged (s s' : Machine) : Prop :=
  companiesRef s' = companiesRef s /\
  userSkillsRef s' = userSkillsRef s /\
  forall r : ref,
    (r < List.length (heap s))%nat ->
    nth_error (heap s') r = nth_error (heap s) r.

(** [r] is an object made since [s]. *)
Definition Fresh (s : Machine) (r : ref) : Prop :=
  (List.length (heap s) <= r)%nat.

(** [s'] is [s] with objects added behind those of [s]. *)
Definition Extends (s s' : Machine) : Prop :=
  companiesRef s' = companiesRef s /\
  userSkillsRef s' = userSkillsRef s /\
  exists e, heap s' = heap s ++ e.

(** [appState.companies] holds the references [rs] to the companies
    [cs], and [appState.userSkills] holds [skills]. *)
Definition Holds (s : Machine) (rs : list ref) (cs : list PrepHub.Company)
  (skills : list string) : Prop :=
  nth_error (heap s) (companiesRef s) = Some (CompanyArray rs) /\
  companiesAt (heap s) rs = Some cs /\
  nth_error (heap s) (userSkillsRef s) = Some (StringArray skills).

(** Run from [s], [m] returns [out] and changes no object of [s]; run
    again on what it left, it returns [out] again and changes no
    object. *)
Definition Repeatable {A : Type} (m : M A) (s : Machine) (out : A) : Prop :=
  exists s' s'',
    m s = Some (out, s') /\ Unchanged s s' /\ inputsOf s' = inputsOf s /\
    m s' = Some (out, s'') /\ Unchanged s' s''.

(** The item [progressItem] makes for the company [snd rc] at [fst rc]. *)
Definition madeItem (skills : list string) (rc : ref * PrepHub.Company)
  : ItemObject :=
  let required := PrepHub.requiredSkills (snd rc) in
  let acquired :=
    List.length (filter (fun skill => JsArray.includes skills skill) required) in
  mkItemObject (fst rc) (List.length required) acquired
    (PrepHub.percentOf acquired (List.length required)).

(** What [viewCompanyDetail] reads when the companies [cs] are at [rs]. *)
Definition detailRead (companyId : Z) (skills : list string)
  (rs : list ref) (cs : list PrepHub.Company) : option DetailRead :=
  match find (fun rc => (PrepHub.id (snd rc) =? companyId)%Z)
             (combine rs cs) with
  | Some rc =>
      Some (mkDetailRead (fst rc)
              (filter (fun skill => JsArray.includes skills skill)
                      (PrepHub.requiredSkills (snd rc)))
              (filter (fun skill => negb (JsArray.includes skills skill))
                      (PrepHub.requiredSkills (snd rc))))
  | None => None
  end.

End Mutable.

(** * Properties *)

(** ** Strings *)

Module StringFacts.
Import JsString Spec.
Local Open Scope string_scope.

Lemma append_empty_r (s : string) : s ++ "" = s.
Proof. induction s as [|c s IH]; simpl; [reflexivity | now rewrite IH]. Qed.

Lemma append_assoc (a b c : string) : (a ++ b) ++ c = a ++ (b ++ c).
Proof. induction a as [|x a IH]; simpl; [reflexivity | now rewrite IH]. Qed.

Lemma toLowerCase_append (a b : string) :
  toLowerCase (a ++ b) = toLowerCase a ++ toLowerCase b.
Proof. induction a as [|x a IH]; simpl; [reflexivity | now rewrite IH]. Qed.

Lemma startsWith_iff (s p : string) :
  startsWith s p = true <-> exists r, s = p ++ r.
Proof.
  revert s; induction p as [|a p IH]; intros s.
  - destruct s; simpl; split; eauto.
  - destruct s as [|b s]; simpl.
    + split; [discriminate | intros [r H]; discriminate].
    + rewrite andb_true_iff, Ascii.eqb_eq, IH. split.
      * intros [-> [r ->]]. now exists r.
      * intros [r H]. injection H as -> ->. split; eauto.
Qed.

Lemma includes_iff (s sub : string) :
  includes s sub = true <-> Substring sub s.
Proof.
  unfold Substring. induction s as [|c s IH].
  - cbn [includes]. rewrite orb_false_r, startsWith_iff. split.
    + intros [r H]. now exists "", r.
    + intros [l [r H]]. destruct l; [now exists r | discriminate].
  - cbn [includes]. rewrite orb_true_iff, startsWith_iff, IH. split.
    + intros [[r H] | [l [r H]]].
      * now exists "", r.
      * exists (String c l), r. simpl. now rewrite H.
    + intros [l [r H]]. destruct l as [|x l].
      * left. now exists r.
      * right. simpl in H. injection H as _ H. now exists l, r.
Qed.

Lemma Substring_toLowerCase (sub s : string) :
  Substring sub s -> Substring (toLowerCase sub) (toLowerCase s).
Proof.
  intros [l [r ->]]. exists (toLowerCase l), (toLowerCase r).
  now rewrite !toLowerCase_append.
Qed.

Lemma Substring_trans (a b c : string) :
  Substring a b -> Substring b c -> Substring a c.
Proof.
  intros [l1 [r1 ->]] [l2 [r2 ->]]. exists (l2 ++ l1), (r1 ++ r2).
  now rewrite !append_assoc.
Qed.

Lemma Substring_truthy (sub s : string) :
  Substring sub s -> truthy sub = true -> truthy s = true.
Proof.
  intros [l [r ->]] H. destruct l; [destruct sub|]; simpl in *; congruence.
Qed.

End StringFacts.

(** ** Arrays *)

Module ArrayFacts.
Import Spec Tables.

Lemma includes_In (arr : list string) (x : string) :
  JsArray.includes arr x = true <-> In x arr.
Proof.
  unfold JsArray.includes. rewrite existsb_exists. split.
  - intros [y [Hy E]]. apply String.eqb_eq in E. now subst.
  - intros H. exists x. split; [assumption | apply String.eqb_refl].
Qed.

Lemma includes_false (arr : list string) (x : string) :
  JsArray.includes arr x = false <-> ~ In x arr.
Proof.
  rewrite <- includes_In. destruct (JsArray.includes arr x); split;
    congruence.
Qed.

Lemma nodupb_NoDup (l : list string) : nodupb l = true -> NoDup l.
Proof.
  induction l as [|x l IH]; simpl; intros H; constructor.
  - apply andb_true_iff in H as [H _]. apply negb_true_iff in H.
    now apply includes_false.
  - apply andb_true_iff in H as [_ H]. auto.
Qed.

Lemma filter_Subsequence {A : Type} (p : A -> bool) (l : list A) :
  Subsequence (filter p l) l.
Proof.
  induction l as [|x l IH]; simpl.
  - constructor.
  - destruct (p x); now constructor.
Qed.

Lemma Subsequence_In {A : Type} (l1 l2 : list A) (x : A) :
  Subsequence l1 l2 -> In x l1 -> In x l2.
Proof. induction 1; simpl; intuition. Qed.

Lemma Subsequence_length {A : Type} (l1 l2 : list A) :
  Subsequence l1 l2 -> (List.length l1 <= List.length l2)%nat.
Proof. induction 1; simpl; lia. Qed.

(** A list and its complement under a test: no entry on both sides,
    every entry on one, and the sizes add up. *)
Lemma filter_split_disjoint {A : Type} (p : A -> bool) (l : list A) (x : A) :
  In x (filter p l) -> ~ In x (filter (fun y => negb (p y)) l).
Proof.
  rewrite !filter_In. intros [_ H] [_ H']. rewrite H in H'. discriminate.
Qed.

Lemma filter_split_cover {A : Type} (p : A -> bool) (l : list A) (x : A) :
  In x (filter p l) \/ In x (filter (fun y => negb (p y)) l) <-> In x l.
Proof.
  rewrite !filter_In. destruct (p x); simpl; intuition congruence.
Qed.

Lemma filter_split_length {A : Type} (p : A -> bool) (l : list A) :
  (List.length (filter p l) + List.length (filter (fun y => negb (p y)) l)
   = List.length l)%nat.
Proof.
  induction l as [|x l IH]; simpl; [reflexivity|].
  destruct (p x); simpl; lia.
Qed.

Lemma filter_split_Permutation {A : Type} (p : A -> bool) (l : list A) :
  Permutation (filter p l ++ filter (fun y => negb (p y)) l) l.
Proof.
  induction l as [|x l IH]; simpl; [constructor|].
  destruct (p x); simpl.
  - now constructor.
  - symmetry. apply Permutation_cons_app. now symmetry.
Qed.

End ArrayFacts.

(** ** The skill extractor *)

Module Extractor.
Import JsString PrepHub Spec Tables StringFacts ArrayFacts.
Local Open Scope string_scope.

Lemma KNOWN_SKILLS_NoDup : NoDup KNOWN_SKILLS.
Proof. apply nodupb_NoDup. vm_compute. reflexivity. Qed.

(** No two entries of the vocabulary differ by case alone. *)
Lemma KNOWN_SKILLS_distinct_lower : NoDup (map toLowerCase KNOWN_SKILLS).
Proof. apply nodupb_NoDup. vm_compute. reflexivity. Qed.

Lemma KNOWN_SKILLS_truthy (skill : string) :
  In skill KNOWN_SKILLS -> truthy skill = true.
Proof.
  assert (H : forallb truthy KNOWN_SKILLS = true) by (vm_compute; reflexivity).
  rewrite forallb_forall in H. apply H.
Qed.

Lemma toLowerCase_truthy (s : string) : truthy (toLowerCase s) = truthy s.
Proof. now destruct s. Qed.

Lemma extractSkills_In (text skill : string) :
  In skill (extractSkillsFromText (Some text)) <->
  In skill KNOWN_SKILLS /\ Substring (toLowerCase skill) (toLowerCase text).
Proof.
  unfold extractSkillsFromText. destruct (truthy text) eqn:T; cbn [negb].
  - rewrite filter_In, includes_iff. reflexivity.
  - split; [contradiction|]. intros [HK HS].
    apply Substring_truthy in HS.
    + rewrite toLowerCase_truthy in HS. congruence.
    + rewrite toLowerCase_truthy. now apply KNOWN_SKILLS_truthy.
Qed.

Lemma extractSkills_Subsequence (text : option string) :
  Subsequence (extractSkillsFromText text) KNOWN_SKILLS.
Proof.
  assert (N : forall l : list string, Subsequence [] l)
    by (induction l; now constructor).
  unfold extractSkillsFromText. destruct text as [text|]; [|apply N].
  destruct (truthy text); cbn [negb]; [apply filter_Subsequence | apply N].
Qed.

Lemma extractSkills_NoDup (text : option string) :
  NoDup (extractSkillsFromText text).
Proof.
  unfold extractSkillsFromText. destruct text as [text|]; [|constructor].
  destruct (truthy text); cbn [negb]; [|constructor].
  apply NoDup_filter, KNOWN_SKILLS_NoDup.
Qed.

(** C5. For every text, [extractSkillsFromText] returns exactly the
    vocabulary entries whose lower-cased form occurs in the lower-cased
    text, spelled as in the vocabulary, in vocabulary order and each at
    most once; [null] and the empty string give the empty array. *)
Theorem extractSkills_characterisation :
  extractSkillsFromText None = [] /\
  extractSkillsFromText (Some "") = [] /\
  forall text : string,
    (forall skill,
        In skill (extractSkillsFromText (Some text)) <->
        In skill KNOWN_SKILLS /\
        Substring (toLowerCase skill) (toLowerCase text)) /\
    Subsequence (extractSkillsFromText (Some text)) KNOWN_SKILLS /\
    NoDup (extractSkillsFromText (Some text)).
Proof.
  split; [reflexivity|]. split; [reflexivity|]. intros text.
  split; [|split].
  - intros skill. apply extractSkills_In.
  - apply extractSkills_Subsequence.
  - apply extractSkills_NoDup.
Qed.

(** C8. When a vocabulary entry [A] occurs in a vocabulary entry [B] and
    [B] occurs in the text, the extractor returns both: the shorter match
    is not suppressed. *)
Theorem extractSkills_keeps_nested_matches (text A B : string) :
  In A KNOWN_SKILLS -> In B KNOWN_SKILLS ->
  Substring A B -> Substring B text ->
  In A (extractSkillsFromText (Some text)) /\
  In B (extractSkillsFromText (Some text)).
Proof.
  intros HA HB HAB HBt. rewrite !extractSkills_In.
  repeat split; try assumption; apply Substring_toLowerCase.
  - now apply Substring_trans with B.
  - assumption.
Qed.

Lemma extractSkills_keeps_nested_matches_witness :
  In "React" (extractSkillsFromText (Some "Senior React Native engineer")) /\
  In "React Native"
     (extractSkillsFromText (Some "Senior React Native engineer")).
Proof.
  apply (extractSkills_keeps_nested_matches
           "Senior React Native engineer" "React" "React Native").
  - apply includes_In. vm_compute. reflexivity.
  - apply includes_In. vm_compute. reflexivity.
  - exists "", " Native". reflexivity.
  - exists "Senior ", " engineer". reflexivity.
Defined.

(** The same up to case: "Go" is extracted from a text that mentions
    "Django". *)
Lemma extractSkills_nested_up_to_case (text A B : string) :
  In A KNOWN_SKILLS -> In B KNOWN_SKILLS ->
  Substring (toLowerCase A) (toLowerCase B) ->
  Substring (toLowerCase B) (toLowerCase text) ->
  In A (extractSkillsFromText (Some text)) /\
  In B (extractSkillsFromText (Some text)).
Proof.
  intros HA HB HAB HBt. rewrite !extractSkills_In.
  repeat split; try assumption. now apply Substring_trans with (toLowerCase B).
Qed.

Example extractSkills_django :
  extractSkillsFromText (Some "Django developer") = ["Go"; "R"; "Django"].
Proof. vm_compute. reflexivity. Qed.

End Extractor.

(** ** Readiness arithmetic *)

Module Percent.
Import JsNumber PrepHub Spec Tables.

Lemma eqbNumber_eq (x y : number) : eqbNumber x y = true -> x = y.
Proof.
  destruct x, y; simpl; try discriminate; try reflexivity.
  - intros H. apply Bool.eqb_prop in H. now subst.
  - intros H. apply Bool.eqb_prop in H. now subst.
  - rewrite !andb_true_iff. intros [[H1 H2] H3].
    apply Bool.eqb_prop in H1. apply Pos.eqb_eq in H2. apply Z.eqb_eq in H3.
    now subst.
Qed.

Lemma percentTable :
  forallb percentRowOk (seq 1 (List.length KNOWN_SKILLS)) = true.
Proof. vm_compute. reflexivity. Qed.

Lemma tierTable : forallb tierRowOk (seq 0 101) = true.
Proof. vm_compute. reflexivity. Qed.

(** On the sizes a JD can reach, the double computation is the exact
    rounding but at the two slips. *)
Lemma percentOf_vocabulary_sizes (part whole : nat) :
  (1 <= whole <= List.length KNOWN_SKILLS)%nat -> (part <= whole)%nat ->
  percentOf part whole = ofZ (expectedPercent part whole).
Proof.
  intros Hw Hp.
  pose proof (proj1 (forallb_forall _ _) percentTable whole) as T.
  unfold percentRowOk in T. rewrite forallb_forall in T.
  apply eqbNumber_eq. apply T.
  - apply in_seq. lia.
  - apply in_seq. lia.
Qed.

Lemma roundHalfUp_range (part whole : nat) :
  (0 < whole)%nat -> (part <= whole)%nat ->
  (0 <= roundHalfUp part whole <= 100)%Z.
Proof.
  intros Hw Hp. unfold roundHalfUp. split.
  - apply Z.div_pos; lia.
  - apply Z.lt_succ_r. apply Z.div_lt_upper_bound; lia.
Qed.

Lemma expectedPercent_range (part whole : nat) :
  (0 < whole)%nat -> (part <= whole)%nat ->
  (0 <= expectedPercent part whole <= 100)%Z.
Proof.
  intros Hw Hp. unfold expectedPercent.
  destruct (floatSlip part whole) eqn:S.
  - unfold floatSlip in S.
    apply orb_true_iff in S as [S|S]; apply andb_true_iff in S as [S1 S2];
      apply Nat.eqb_eq in S1, S2; subst; vm_compute; split; discriminate.
  - pose proof (roundHalfUp_range part whole Hw Hp). lia.
Qed.

Lemma scoreTier_ofZ (z : Z) :
  (0 <= z <= 100)%Z -> scoreTier (ofZ z) = tierOfZ z.
Proof.
  intros Hz.
  pose proof (proj1 (forallb_forall _ _) tierTable (Z.to_nat z)) as T.
  unfold tierRowOk, ofNat in T. rewrite Z2Nat.id in T by lia.
  assert (E : eqbTier (scoreTier (ofZ z)) (tierOfZ z) = true)
    by (apply T, in_seq; lia).
  destruct (scoreTier (ofZ z)), (tierOfZ z); simpl in E;
    congruence.
Qed.

Lemma tierOfZ_thresholds (z : Z) :
  (tierOfZ z = high <-> (70 <= z)%Z) /\
  (tierOfZ z = mid <-> (40 <= z < 70)%Z) /\
  (tierOfZ z = low <-> (z < 40)%Z).
Proof.
  unfold tierOfZ.
  destruct (Z.leb_spec 70 z); [|destruct (Z.leb_spec 40 z)];
    repeat split; intros; try lia; try discriminate; reflexivity.
Qed.

(** [Math.round] and the percentage on a few values: 2.5 goes up to 3,
    -0.5 goes up to -0, 1 of 8 is 12.5 and shows as 13, 0 of 0 is [NaN],
    and 23 of 40 shows as 57 although the exact ratio rounds to 58. *)
Example Math_round_values :
  Math_round (div (ofZ 5) (ofZ 2)) = ofZ 3 /\
  Math_round (div (ofZ (-1)) (ofZ 2)) = S754_zero true /\
  Math_round NaN = NaN /\
  percentOf 1 8 = ofZ 13 /\
  percentOf 0 0 = NaN /\
  percentOf 23 40 = ofZ 57 /\ roundHalfUp 23 40 = 58%Z.
Proof. repeat split; vm_compute; reflexivity. Qed.

End Percent.

(** ** Trimming and splitting *)

Module TrimFacts.
Import JsString Spec StringFacts.
Local Open Scope string_scope.

Lemma trimStart_spec (s : string) :
  exists l, s = l ++ trimStart s /\ allWhite l = true /\
            startsWhite (trimStart s) = false.
Proof.
  induction s as [|c s [l [E [W N]]]]; simpl.
  - now exists "".
  - destruct (isWhiteSpace c) eqn:C.
    + exists (String c l). simpl. rewrite C, W, <- E.
      repeat split. exact N.
    + exists "". simpl. repeat split. exact C.
Qed.

Lemma trimEnd_spec (s : string) :
  exists r, s = trimEnd s ++ r /\ allWhite r = true /\
            endsWhite (trimEnd s) = false.
Proof.
  induction s as [|c s [r [E [W N]]]]; simpl.
  - now exists "".
  - destruct (trimEnd s) as [|d t] eqn:T.
    + simpl in E. subst r. destruct (isWhiteSpace c) eqn:C.
      * exists (String c s). simpl. rewrite C, W. repeat split.
      * exists s. simpl. rewrite C. repeat split. exact W.
    + exists r. simpl in *. rewrite <- E. repeat split; assumption.
Qed.

Lemma trimEnd_startsWhite (s : string) :
  startsWhite s = false -> startsWhite (trimEnd s) = false.
Proof.
  destruct s as [|c s]; simpl; [reflexivity|]. intros C.
  destruct (trimEnd s); [rewrite C|]; simpl; auto.
Qed.

(** [trim] takes off the white space around a token and nothing else. *)
Lemma trim_Trimmed (s : string) : Trimmed s (trim s).
Proof.
  unfold trim.
  destruct (trimStart_spec s) as [l [El [Wl Nl]]].
  destruct (trimEnd_spec (trimStart s)) as [r [Er [Wr Nr]]].
  split; [|split].
  - exists l, r. repeat split; try assumption.
    rewrite El at 1. now rewrite Er at 1.
  - now apply trimEnd_startsWhite.
  - exact Nr.
Qed.

Lemma lowerChar_isWhiteSpace (c : ascii) :
  isWhiteSpace (lowerChar c) = isWhiteSpace c.
Proof.
  destruct c as [[] [] [] [] [] [] [] []]; vm_compute; reflexivity.
Qed.

Lemma toLowerCase_allWhite (s : string) :
  allWhite (toLowerCase s) = allWhite s.
Proof.
  induction s as [|c s IH]; simpl; [reflexivity|].
  now rewrite lowerChar_isWhiteSpace, IH.
Qed.

Lemma allWhite_endsWhite (s : string) :
  allWhite s = true -> truthy s = true -> endsWhite s = true.
Proof.
  induction s as [|c s IH]; simpl; [discriminate|].
  intros H _. apply andb_true_iff in H as [C W].
  destruct s; [assumption|]. now apply IH.
Qed.

Lemma startsWith_allWhite (r v : string) :
  startsWith r v = true -> allWhite r = true -> allWhite v = true.
Proof.
  revert r; induction v as [|a v IH]; intros r; [reflexivity|].
  destruct r as [|b r]; simpl; [discriminate|].
  intros H W. apply andb_true_iff in H as [E H].
  apply andb_true_iff in W as [C W]. apply Ascii.eqb_eq in E. subst.
  rewrite C. simpl. now apply IH with r.
Qed.

(** A string that does not end in white space does not start inside
    trailing white space. *)
Lemma startsWith_white_false (r v : string) :
  allWhite r = true -> truthy v = true -> endsWhite v = false ->
  startsWith r v = false.
Proof.
  intros W T N. destruct (startsWith r v) eqn:S; [|reflexivity].
  apply startsWith_allWhite in S; [|assumption].
  apply allWhite_endsWhite in S; congruence.
Qed.

Lemma startsWith_strip_right (s r v : string) :
  allWhite r = true -> truthy v = true -> endsWhite v = false ->
  startsWith (s ++ r) v = startsWith s v.
Proof.
  intros W. revert s; induction v as [|a v IH]; intros s T N;
    [discriminate|].
  destruct s as [|b s].
  - simpl append. rewrite startsWith_white_false by assumption.
    reflexivity.
  - simpl. destruct v as [|a' v]; [reflexivity|].
    rewrite IH; auto.
Qed.

Lemma includes_white_false (r v : string) :
  allWhite r = true -> truthy v = true -> endsWhite v = false ->
  includes r v = false.
Proof.
  intros W T N. induction r as [|c r IH]; cbn [includes].
  - now rewrite startsWith_white_false.
  - rewrite startsWith_white_false by assumption.
    simpl in W. apply andb_true_iff in W as [_ W]. now apply IH.
Qed.

Lemma includes_strip_right (s r v : string) :
  allWhite r = true -> truthy v = true -> endsWhite v = false ->
  includes (s ++ r) v = includes s v.
Proof.
  intros W T N. induction s as [|c s IH].
  - simpl append. rewrite includes_white_false by assumption.
    destruct v; [discriminate | reflexivity].
  - simpl append. cbn [includes].
    rewrite IH. f_equal.
    change (String c (s ++ r)) with (String c s ++ r).
    now apply startsWith_strip_right.
Qed.

Lemma includes_strip_left (l s v : string) :
  allWhite l = true -> startsWhite v = false -> truthy v = true ->
  includes (l ++ s) v = includes s v.
Proof.
  intros W N T. induction l as [|c l IH]; [reflexivity|].
  simpl in W. apply andb_true_iff in W as [C W].
  simpl append. cbn [includes]. rewrite IH by assumption.
  destruct v as [|a v]; [discriminate|]. simpl in N. simpl startsWith.
  destruct (Ascii.eqb_spec a c) as [->|_]; [congruence | reflexivity].
Qed.

(** Lower-casing and trimming do not change whether a string with no
    white space at its ends occurs. *)
Lemma includes_trim (text v : string) :
  truthy v = true -> startsWhite v = false -> endsWhite v = false ->
  includes (toLowerCase (trim text)) v = includes (toLowerCase text) v.
Proof.
  intros T S E.
  destruct (trim_Trimmed text) as [[l [r [H [Wl Wr]]]] _].
  rewrite H at 2. rewrite !toLowerCase_append.
  rewrite includes_strip_left; try assumption.
  - rewrite includes_strip_right; try assumption; try reflexivity.
    now rewrite toLowerCase_allWhite.
  - now rewrite toLowerCase_allWhite.
Qed.

Lemma trim_truthy (text : string) :
  truthy (trim text) = true -> truthy text = true.
Proof.
  destruct (trim_Trimmed text) as [[l [r [H _]]] _]. intros T.
  rewrite H. destruct l; [|reflexivity]. simpl.
  destruct (trim text); [discriminate | reflexivity].
Qed.

End TrimFacts.

(** ** The JD analyzer *)

Module Analyzer.
Import JsString JsNumber PrepHub Spec Tables.
Import StringFacts ArrayFacts Extractor Percent TrimFacts.
Local Open Scope string_scope.

Lemma KNOWN_SKILLS_lower_ends (skill : string) :
  In skill KNOWN_SKILLS ->
  truthy (toLowerCase skill) = true /\
  startsWhite (toLowerCase skill) = false /\
  endsWhite (toLowerCase skill) = false.
Proof.
  assert (H : forallb (fun s => truthy (toLowerCase s) &&
                                negb (startsWhite (toLowerCase s)) &&
                                negb (endsWhite (toLowerCase s)))
                      KNOWN_SKILLS = true) by (vm_compute; reflexivity).
  rewrite forallb_forall in H. intros I. specialize (H skill I).
  rewrite !andb_true_iff, !negb_true_iff in H. tauto.
Qed.

(** The analyzer extracts from the trimmed text; that changes nothing. *)
Lemma extractSkills_trim (text : string) :
  truthy (trim text) = true ->
  extractSkillsFromText (Some (trim text)) = extractSkillsFromText (Some text).
Proof.
  intros T. unfold extractSkillsFromText.
  rewrite T, (trim_truthy text T). cbn [negb].
  apply filter_ext_in. intros skill I.
  destruct (KNOWN_SKILLS_lower_ends skill I) as [A [B C]].
  now apply includes_trim.
Qed.

Lemma JDAShown_inj (a b : JDAResults) : JDAShown a = JDAShown b -> a = b.
Proof. intros H. now injection H. Qed.

Lemma analyzeJD_blank (jdaText : string) (g : Globals) :
  truthy (trim jdaText) = false ->
  analyzeJD jdaText g =
  (g, JDANotification "Please paste a job description first").
Proof. intros T. unfold analyzeJD. now rewrite T. Qed.

Lemma analyzeJD_no_skills (jdaText : string) (g : Globals) :
  truthy (trim jdaText) = true ->
  extractSkillsFromText (Some jdaText) = [] ->
  analyzeJD jdaText g =
  ({| appState := appState g; jdaExtractedSkills := [] |},
   JDAShown {| jdaNoSkills := true;
               jdaScoreCircle := low;
               jdaScoreValue := ofZ 0;
               jdaHaveSkills := [];
               jdaNeedSkills := [] |}).
Proof.
  intros T E. unfold analyzeJD.
  rewrite T, (extractSkills_trim _ T), E. reflexivity.
Qed.

Lemma analyzeJD_scored (jdaText : string) (g : Globals) :
  truthy (trim jdaText) = true ->
  extractSkillsFromText (Some jdaText) <> [] ->
  let extracted := extractSkillsFromText (Some jdaText) in
  let lowered := map toLowerCase (userSkills (appState g)) in
  let have :=
    filter (fun s => JsArray.includes lowered (toLowerCase s)) extracted in
  let need :=
    filter (fun s => negb (JsArray.includes lowered (toLowerCase s)))
           extracted in
  let score := percentOf (List.length have) (List.length extracted) in
  analyzeJD jdaText g =
  ({| appState := appState g; jdaExtractedSkills := extracted |},
   JDAShown {| jdaNoSkills := false;
               jdaScoreCircle := scoreTier score;
               jdaScoreValue := score;
               jdaHaveSkills := have;
               jdaNeedSkills := need |}).
Proof.
  intros T E. unfold analyzeJD.
  rewrite T, (extractSkills_trim _ T). cbn [negb].
  destruct (extractSkillsFromText (Some jdaText)) as [|x l] eqn:X;
    [congruence | reflexivity].
Qed.

(** The score of a JD with recognised skills: an integer from 0 to 100,
    the exact rounding but at the two slips. *)
Lemma jd_score_integer (lowered extracted : list string) :
  Subsequence extracted KNOWN_SKILLS -> extracted <> [] ->
  let have :=
    filter (fun s => JsArray.includes lowered (toLowerCase s)) extracted in
  percentOf (List.length have) (List.length extracted) =
    ofZ (expectedPercent (List.length have) (List.length extracted)) /\
  (0 <= expectedPercent (List.length have) (List.length extracted) <= 100)%Z.
Proof.
  intros S N have.
  pose proof (Subsequence_length _ _ S) as L.
  pose proof (filter_length_le
                (fun s => JsArray.includes lowered (toLowerCase s)) extracted)
    as F.
  assert (P : (0 < List.length extracted)%nat)
    by (destruct extracted; [congruence | simpl; lia]).
  split.
  - apply percentOf_vocabulary_sizes; [lia | exact F].
  - apply expectedPercent_range; [exact P | exact F].
Qed.

(** C6. Whenever [analyzeJD] shows a score, the score is an integer from
    0 to 100 and the tier is 'high' exactly when the score is at least 70,
    'mid' exactly when it is at least 40 and below 70, and 'low' exactly
    when it is below 40. *)
Theorem analyzeJD_tier_boundaries
  (jdaText : string) (g : Globals) (r : JDAResults) :
  snd (analyzeJD jdaText g) = JDAShown r ->
  exists score : Z,
    jdaScoreValue r = ofZ score /\ (0 <= score <= 100)%Z /\
    (jdaScoreCircle r = high <-> (70 <= score)%Z) /\
    (jdaScoreCircle r = mid <-> (40 <= score < 70)%Z) /\
    (jdaScoreCircle r = low <-> (score < 40)%Z).
Proof.
  intros H. destruct (truthy (trim jdaText)) eqn:T.
  2:{ rewrite (analyzeJD_blank _ _ T) in H. discriminate. }
  destruct (extractSkillsFromText (Some jdaText)) as [|x l] eqn:X.
  - rewrite (analyzeJD_no_skills _ _ T X) in H.
    apply JDAShown_inj in H. subst r.
    exists 0%Z. cbn [jdaScoreValue jdaScoreCircle].
    split; [reflexivity|]. split; [lia|].
    repeat split; intros; try lia; try discriminate.
  - assert (N : extractSkillsFromText (Some jdaText) <> [])
      by (rewrite X; discriminate).
    rewrite (analyzeJD_scored _ _ T N) in H.
    apply JDAShown_inj in H. subst r.
    cbn [jdaScoreValue jdaScoreCircle].
    destruct (jd_score_integer
                (map toLowerCase (userSkills (appState g)))
                (extractSkillsFromText (Some jdaText))
                (extractSkills_Subsequence _) N) as [E R].
    rewrite E. eexists. split; [reflexivity|]. split; [exact R|].
    rewrite (scoreTier_ofZ _ R). apply tierOfZ_thresholds.
Qed.

(** A JD of ten recognised skills of which seven are possessed scores
    exactly 70 and is 'high'. *)
Lemma analyzeJD_tier_boundaries_witness :
  exists score : Z,
    ofZ 70 = ofZ score /\ (0 <= score <= 100)%Z /\
    (high = high <-> (70 <= score)%Z) /\
    (high = mid <-> (40 <= score < 70)%Z) /\
    (high = low <-> (score < 40)%Z).
Proof.
  apply (analyzeJD_tier_boundaries
           "Java, SQLite, AWS, Linux, jQuery, HTML, Figma, Jest, Vue"
           {| appState :=
                {| companies := []; currentView := "jdanalyzer";
                   currentCompany := None;
                   userSkills := ["java"; "html"; "aws"; "linux"; "figma";
                                  "jest"; "vue"] |};
              jdaExtractedSkills := [] |}
           {| jdaNoSkills := false;
              jdaScoreCircle := high;
              jdaScoreValue := ofZ 70;
              jdaHaveSkills := ["Java"; "Vue"; "HTML"; "AWS"; "Linux";
                                "Figma"; "Jest"];
              jdaNeedSkills := ["R"; "jQuery"; "SQLite"] |}).
  vm_compute. reflexivity.
Defined.

(** The scores at the boundaries are reached: 2 of 5 is 40 and 'mid',
    7 of 18 is 39 and 'low'. *)
Example analyzeJD_score_40_is_mid :
  snd (analyzeJD "Java, AWS, Linux, HTML, Jest"
         {| appState :=
              {| companies := []; currentView := "jdanalyzer";
                 currentCompany := None; userSkills := ["java"; "aws"] |};
            jdaExtractedSkills := [] |}) =
  JDAShown {| jdaNoSkills := false;
              jdaScoreCircle := mid;
              jdaScoreValue := ofZ 40;
              jdaHaveSkills := ["Java"; "AWS"];
              jdaNeedSkills := ["HTML"; "Linux"; "Jest"] |}.
Proof. vm_compute. reflexivity. Qed.

Example analyzeJD_score_39_is_low :
  snd (analyzeJD
         "Java, SQLite, AWS, Linux, jQuery, HTML, Figma, Jest, Vue, Flask, Swift, Kotlin, MySQL, Tableau, Symfony, Nginx, Xamarin"
         {| appState :=
              {| companies := []; currentView := "jdanalyzer";
                 currentCompany := None;
                 userSkills := ["java"; "html"; "aws"; "linux"; "figma";
                                "jest"; "vue"] |};
            jdaExtractedSkills := [] |}) =
  JDAShown {| jdaNoSkills := false;
              jdaScoreCircle := low;
              jdaScoreValue := ofZ 39;
              jdaHaveSkills := ["Java"; "Vue"; "HTML"; "AWS"; "Linux";
                                "Figma"; "Jest"];
              jdaNeedSkills := ["Swift"; "Kotlin"; "R"; "jQuery"; "Flask";
                                "Symfony"; "MySQL"; "SQLite"; "Nginx";
                                "Xamarin"; "Tableau"] |}.
Proof. vm_compute. reflexivity. Qed.

(** C7 (amended). For every text that is not blank and from which the
    extractor returns nothing, [analyzeJD] shows the no-skills panel: score
    0, tier 'low', no matched and no missing skill, whatever the user's
    skills are; nothing is stored as extracted. *)
Theorem analyzeJD_no_skills_is_terminal (jdaText : string) (g : Globals) :
  truthy (trim jdaText) = true ->
  extractSkillsFromText (Some jdaText) = [] ->
  analyzeJD jdaText g =
  ({| appState := appState g; jdaExtractedSkills := [] |},
   JDAShown {| jdaNoSkills := true;
               jdaScoreCircle := low;
               jdaScoreValue := ofZ 0;
               jdaHaveSkills := [];
               jdaNeedSkills := [] |}).
Proof. exact (analyzeJD_no_skills jdaText g). Qed.

Lemma analyzeJD_no_skills_is_terminal_witness :
  analyzeJD "  hello  "
    {| appState :=
         {| companies := []; currentView := "jdanalyzer";
            currentCompany := None; userSkills := ["Python"] |};
       jdaExtractedSkills := ["Python"; "Django"] |} =
  ({| appState :=
        {| companies := []; currentView := "jdanalyzer";
           currentCompany := None; userSkills := ["Python"] |};
      jdaExtractedSkills := [] |},
   JDAShown {| jdaNoSkills := true;
               jdaScoreCircle := low;
               jdaScoreValue := ofZ 0;
               jdaHaveSkills := [];
               jdaNeedSkills := [] |}).
Proof.
  apply (analyzeJD_no_skills_is_terminal "  hello  "
           {| appState :=
                {| companies := []; currentView := "jdanalyzer";
                   currentCompany := None; userSkills := ["Python"] |};
              jdaExtractedSkills := ["Python"; "Django"] |}).
  - vm_compute. reflexivity.
  - vm_compute. reflexivity.
Defined.

(** C7 as stated fails on a blank text: the extractor returns nothing
    from it, and [analyzeJD] shows a notification and no score, leaving the
    skills of the previous analysis in place. *)
Lemma analyzeJD_blank_text_shows_no_score :
  extractSkillsFromText (Some "   ") = [] /\
  extractSkillsFromText (Some "") = [] /\
  analyzeJD "   "
    {| appState :=
         {| companies := []; currentView := "jdanalyzer";
            currentCompany := None; userSkills := ["Python"] |};
       jdaExtractedSkills := ["Python"; "Django"] |} =
  ({| appState :=
        {| companies := []; currentView := "jdanalyzer";
           currentCompany := None; userSkills := ["Python"] |};
      jdaExtractedSkills := ["Python"; "Django"] |},
   JDANotification "Please paste a job description first").
Proof. repeat split; vm_compute; reflexivity. Qed.

(** What the analyzer counts as possessed: a skill some entry of the
    user's list equals up to case. *)
Lemma includes_lower_iff (skills : list string) (s : string) :
  JsArray.includes (map toLowerCase skills) (toLowerCase s) = true <->
  exists p, In p skills /\ toLowerCase p = toLowerCase s.
Proof.
  rewrite includes_In, in_map_iff. split; intros [p [A B]]; exists p; auto.
Qed.

End Analyzer.

(** ** Matched and missing skills *)

Module Gap.
Import JsString JsNumber PrepHub Spec Tables.
Import StringFacts ArrayFacts Extractor Percent TrimFacts Analyzer.
Local Open Scope string_scope.

(** *** The set of all required skills *)

Lemma Set_add_In (s : list string) (x y : string) :
  In y (JsArray.Set_add s x) <-> In y s \/ y = x.
Proof.
  unfold JsArray.Set_add. destruct (JsArray.includes s x) eqn:I.
  - apply includes_In in I. split; [auto | intros [H | ->]; assumption].
  - rewrite in_app_iff. simpl. intuition.
Qed.

Lemma Set_add_NoDup (s : list string) (x : string) :
  NoDup s -> NoDup (JsArray.Set_add s x).
Proof.
  intros N. unfold JsArray.Set_add. destruct (JsArray.includes s x) eqn:I.
  - exact N.
  - apply includes_false in I. apply NoDup_app; [exact N | | ].
    + constructor; [intros [] | constructor].
    + intros y Hy [<- | []]. contradiction.
Qed.

Lemma fold_Set_add_In (l s : list string) (y : string) :
  In y (fold_left JsArray.Set_add l s) <-> In y s \/ In y l.
Proof.
  revert s; induction l as [|x l IH]; intros s; simpl.
  - tauto.
  - rewrite IH, Set_add_In. intuition.
Qed.

Lemma fold_Set_add_NoDup (l s : list string) :
  NoDup s -> NoDup (fold_left JsArray.Set_add l s).
Proof.
  revert s; induction l as [|x l IH]; intros s N; simpl; [exact N|].
  apply IH. now apply Set_add_NoDup.
Qed.

Lemma collect_In (cs : list Company) (s : list string) (y : string) :
  In y (fold_left
          (fun set company =>
             fold_left JsArray.Set_add (requiredSkills company) set) cs s) <->
  In y s \/ exists c, In c cs /\ In y (requiredSkills c).
Proof.
  revert s; induction cs as [|c cs IH]; intros s; simpl.
  - split; [auto | intros [H | [c [[] _]]]; exact H].
  - rewrite IH, fold_Set_add_In. split.
    + intros [[H | H] | [d [D H]]]; eauto.
    + intros [H | [d [[<- | D] H]]]; eauto.
Qed.

Lemma collect_NoDup (cs : list Company) (s : list string) :
  NoDup s ->
  NoDup (fold_left
           (fun set company =>
              fold_left JsArray.Set_add (requiredSkills company) set) cs s).
Proof.
  revert s; induction cs as [|c cs IH]; intros s N; simpl; [exact N|].
  apply IH. now apply fold_Set_add_NoDup.
Qed.

(** The set holds every spelling some company requires, each once: two
    spellings that differ in case are two members. *)
Lemma allRequiredSkills_In (cs : list Company) (y : string) :
  In y (allRequiredSkills cs) <->
  exists c, In c cs /\ In y (requiredSkills c).
Proof.
  unfold allRequiredSkills. rewrite collect_In. simpl. tauto.
Qed.

Lemma allRequiredSkills_NoDup (cs : list Company) :
  NoDup (allRequiredSkills cs).
Proof. apply collect_NoDup. constructor. Qed.

(** The demand count of a skill counts the companies that require it up
    to case. *)
Lemma demandCount_cons (c : Company) (cs : list Company) (skill : string) :
  (exists s, In s (requiredSkills c) /\ toLowerCase s = toLowerCase skill) ->
  demandCount (c :: cs) skill = S (demandCount cs skill).
Proof.
  intros H. apply includes_lower_iff in H. unfold demandCount. simpl.
  now rewrite H.
Qed.

Lemma demandCount_cons_other
  (c : Company) (cs : list Company) (skill : string) :
  ~ (exists s, In s (requiredSkills c) /\ toLowerCase s = toLowerCase skill) ->
  demandCount (c :: cs) skill = demandCount cs skill.
Proof.
  intros H. unfold demandCount. simpl.
  destruct (JsArray.includes (map toLowerCase (requiredSkills c))
                             (toLowerCase skill)) eqn:I; [|reflexivity].
  apply includes_lower_iff in I. contradiction.
Qed.

(** *** Deduplication up to case *)

Lemma dedupFrom_distinct (seen l : list string) :
  NoDup (map toLowerCase l) ->
  (forall x, In x l -> ~ In (toLowerCase x) seen) ->
  dedupFrom seen l = l.
Proof.
  revert seen; induction l as [|x l IH]; intros seen N D; simpl;
    [reflexivity|].
  simpl in N. apply NoDup_cons_iff in N as [Nx N].
  assert (I : JsArray.includes seen (toLowerCase x) = false)
    by (apply includes_false, D; now left).
  rewrite I. f_equal. apply IH; [exact N|].
  intros y Hy [E | S].
  - apply Nx. rewrite E. now apply in_map.
  - apply (D y); [now right | exact S].
Qed.

Lemma Subsequence_NoDup_map {A B : Type} (f : A -> B) (l1 l2 : list A) :
  Subsequence l1 l2 -> NoDup (map f l2) -> NoDup (map f l1).
Proof.
  induction 1 as [|x l1 l2 S IH|x l1 l2 S IH]; simpl; intros N.
  - constructor.
  - apply NoDup_cons_iff in N as [_ N]. auto.
  - apply NoDup_cons_iff in N as [Nx N]. constructor; [|auto].
    intros I. apply Nx. apply in_map_iff in I as [y [E Hy]].
    rewrite <- E. apply in_map. now apply Subsequence_In with l1.
Qed.

(** What the extractor returns needs no deduplication. *)
Lemma extractSkills_dedupCI (text : option string) :
  dedupCI (extractSkillsFromText text) = extractSkillsFromText text.
Proof.
  apply dedupFrom_distinct; [|intros x _ []].
  apply Subsequence_NoDup_map with KNOWN_SKILLS.
  - apply extractSkills_Subsequence.
  - apply KNOWN_SKILLS_distinct_lower.
Qed.

(** *** One company, one JD *)

Lemma companyGap_percentage (skills : list string) (c : Company) :
  let gap := companyGap skills c in
  acquiredSkills (progressItem skills c) = List.length (matched gap) /\
  totalSkills (progressItem skills c) =
    (List.length (matched gap) + List.length (missing gap))%nat /\
  readinessPercent gap =
    percentOf (List.length (matched gap))
              (List.length (matched gap) + List.length (missing gap)).
Proof.
  cbn [companyGap progressItem matched missing readinessPercent
       acquiredSkills totalSkills percentage].
  rewrite filter_split_length. repeat split.
Qed.

(** The lists of the company detail view are the two sides of
    [companyGap]. *)
Lemma viewCompanyDetail_companyGap
  (companyId : Z) (st : AppState) (d : CompanyDetail) :
  snd (viewCompanyDetail companyId st) = Some d ->
  In (detailCompany d) (companies st) /\
  proficientSkills d = matched (companyGap (userSkills st) (detailCompany d)) /\
  neededSkills d = missing (companyGap (userSkills st) (detailCompany d)).
Proof.
  unfold viewCompanyDetail.
  destruct (find (fun c => (id c =? companyId)%Z) (companies st)) as [c|] eqn:F;
    [|discriminate].
  cbn [snd]. intros H. injection H as <-. apply find_some in F as [F _].
  repeat split. exact F.
Qed.


(** C1 (amended). For one company the detail and progress views, and for
    one JD the analyzer, split the required sequence as it is given into
    matched and missing: no skill is on both sides, and the two sides
    together are a rearrangement of the sequence, each in the order of the
    sequence; nothing is deduplicated. The percentage is
    [Math.round((matched / (matched + missing)) * 100)] in double
    arithmetic. In the analyzer, whose required sequence has no two
    entries equal up to case, that is the integer nearest to the exact
    ratio, a half going up, one less at 23 of 40 and 46 of 80, and 0 when
    nothing is extracted. (The percentage of a company with no required
    skill is not part of this statement.) *)
Theorem gap_partition_and_percent
  (skills : list string) (c : Company) (jdaText : string) (g : Globals) :
  let gap := companyGap skills c in
  ((forall s, In s (matched gap) -> ~ In s (missing gap)) /\
   Permutation (matched gap ++ missing gap) (requiredSkills c) /\
   Subsequence (matched gap) (requiredSkills c) /\
   Subsequence (missing gap) (requiredSkills c) /\
   acquiredSkills (progressItem skills c) = List.length (matched gap) /\
   totalSkills (progressItem skills c) =
     (List.length (matched gap) + List.length (missing gap))%nat /\
   readinessPercent gap =
     percentOf (List.length (matched gap))
               (List.length (matched gap) + List.length (missing gap))) /\
  match snd (analyzeJD jdaText g) with
  | JDANotification _ => truthy (trim jdaText) = false
  | JDAShown r =>
      let extracted := extractSkillsFromText (Some jdaText) in
      let total :=
        (List.length (jdaHaveSkills r) + List.length (jdaNeedSkills r))%nat in
      jdaExtractedSkills (fst (analyzeJD jdaText g)) = extracted /\
      (forall s, In s (jdaHaveSkills r) -> ~ In s (jdaNeedSkills r)) /\
      Permutation (jdaHaveSkills r ++ jdaNeedSkills r) extracted /\
      (forall s, In s (jdaHaveSkills r) \/ In s (jdaNeedSkills r) <->
                 In s (dedupCI extracted)) /\
      jdaScoreValue r =
        (if (0 <? total)%nat
         then ofZ (expectedPercent (List.length (jdaHaveSkills r)) total)
         else ofZ 0)
  end.
Proof.
  intros gap. split.
  - split; [|split; [|split; [|split]]].
    + intros s. apply filter_split_disjoint.
    + apply filter_split_Permutation.
    + apply filter_Subsequence.
    + apply filter_Subsequence.
    + apply companyGap_percentage.
  - destruct (truthy (trim jdaText)) eqn:T.
    2:{ rewrite (analyzeJD_blank _ _ T). reflexivity. }
    destruct (extractSkillsFromText (Some jdaText)) as [|x l] eqn:X.
    + rewrite (analyzeJD_no_skills _ _ T X).
      cbn [snd fst jdaExtractedSkills jdaHaveSkills jdaNeedSkills
           jdaScoreValue].
      repeat split; simpl; auto; tauto.
    + assert (N : extractSkillsFromText (Some jdaText) <> [])
        by (rewrite X; discriminate).
      rewrite (analyzeJD_scored _ _ T N).
      cbn [snd fst jdaExtractedSkills jdaHaveSkills jdaNeedSkills
           jdaScoreValue].
      rewrite <- X. rewrite extractSkills_dedupCI.
      rewrite filter_split_length.
      split; [reflexivity|].
      split; [intros s; apply filter_split_disjoint|].
      split; [apply filter_split_Permutation|].
      split; [intros s; apply filter_split_cover|].
      destruct (jd_score_integer
                  (map toLowerCase (userSkills (appState g)))
                  (extractSkillsFromText (Some jdaText))
                  (extractSkills_Subsequence _) N) as [E _].
      rewrite E.
      destruct (Nat.ltb_spec 0 (List.length
                                  (extractSkillsFromText (Some jdaText))))
        as [|Hle]; [reflexivity|].
      rewrite X in Hle. cbn [List.length] in Hle. lia.
Qed.

(** C1 as stated fails where a company lists a skill in two spellings:
    both are classified, and the percentage counts both. *)
Lemma company_gap_not_deduplicated :
  ~ GapInvariant ["Python"; "python"]
      (companyGap ["Python"]
         {| id := 1; name := "A"; role := "Engineer";
            requiredSkills := ["Python"; "python"];
            location := "Not specified"; type := "Full-time";
            isFavorite := false; notes := ""; description := None;
            addedDate := ""; deadline := None |}).
Proof.
  intros [_ [U _]]. specialize (U "python").
  assert (M : In "python" (dedupCI ["Python"; "python"])).
  { apply U. right. vm_compute. left. reflexivity. }
  vm_compute in M. destruct M as [M | []]. discriminate.
Qed.

(** *** How each site compares *)

(** The skill gap view and the JD analyzer compare up to case. *)
Lemma skillGap_matches_up_to_case (st : AppState) (a : GapAnalysis) :
  renderSkillGapAnalysis st = GapShown a ->
  forall s,
    In s (map fst (gapProficient a)) <->
    In s (allRequiredSkills (companies st)) /\
    exists p, In p (userSkills st) /\ toLowerCase p = toLowerCase s.
Proof.
  unfold renderSkillGapAnalysis.
  destruct (List.length (companies st) =? 0)%nat; [discriminate|].
  destruct (List.length (allRequiredSkills (companies st)) =? 0)%nat;
    [discriminate|].
  intros H s. assert (E : gapProficient a =
    map (fun skill => (skill, demandCount (companies st) skill))
        (filter (fun skill =>
                   JsArray.includes (map toLowerCase (userSkills st))
                                    (toLowerCase skill))
                (allRequiredSkills (companies st)))).
  { change a with (match GapShown a with
                   | GapShown b => b | _ => a end).
    rewrite <- H. reflexivity. }
  rewrite E, map_map. cbn [fst]. rewrite map_id, filter_In.
  now rewrite includes_lower_iff.
Qed.

Lemma analyzeJD_matches_up_to_case
  (jdaText : string) (g : Globals) (r : JDAResults) :
  snd (analyzeJD jdaText g) = JDAShown r ->
  forall s,
    In s (jdaHaveSkills r) <->
    In s (extractSkillsFromText (Some jdaText)) /\
    exists p, In p (userSkills (appState g)) /\
              toLowerCase p = toLowerCase s.
Proof.
  intros H s. destruct (truthy (trim jdaText)) eqn:T.
  2:{ rewrite (analyzeJD_blank _ _ T) in H. discriminate. }
  destruct (extractSkillsFromText (Some jdaText)) as [|x l] eqn:X.
  - rewrite (analyzeJD_no_skills _ _ T X) in H.
    apply JDAShown_inj in H. subst r. simpl. tauto.
  - assert (N : extractSkillsFromText (Some jdaText) <> [])
      by (rewrite X; discriminate).
    rewrite (analyzeJD_scored _ _ T N) in H.
    apply JDAShown_inj in H. subst r. cbn [jdaHaveSkills].
    rewrite <- X, filter_In. now rewrite includes_lower_iff.
Qed.

(** The company detail view and the progress view compare exactly. *)
Lemma viewCompanyDetail_matches_exactly
  (companyId : Z) (st : AppState) (d : CompanyDetail) :
  snd (viewCompanyDetail companyId st) = Some d ->
  forall s,
    In s (proficientSkills d) <->
    In s (requiredSkills (detailCompany d)) /\ In s (userSkills st).
Proof.
  unfold viewCompanyDetail.
  destruct (find (fun c => (id c =? companyId)%Z) (companies st)) as [c|];
    [|discriminate].
  cbn [snd]. intros H s. injection H as <-.
  cbn [proficientSkills detailCompany].
  now rewrite filter_In, includes_In.
Qed.

(** C3, at the failing input. A company requires "Python" and the user
    lists "python": the company detail view classifies "Python" as needed
    and the progress view counts 0 of 1, while the skill gap view lists it
    as possessed. *)
Theorem company_detail_misses_case_variant :
  let c := {| id := 1; name := "A"; role := "Engineer";
              requiredSkills := ["Python"];
              location := "Not specified"; type := "Full-time";
              isFavorite := false; notes := ""; description := None;
              addedDate := ""; deadline := None |} in
  let st := {| companies := [c]; currentView := "companies";
               currentCompany := None; userSkills := ["python"] |} in
  snd (viewCompanyDetail 1 st) =
    Some {| detailCompany := c;
            proficientSkills := [];
            neededSkills := ["Python"] |} /\
  renderProgress st =
    [{| company := c; totalSkills := 1; acquiredSkills := 0;
        percentage := ofZ 0 |}] /\
  renderSkillGapAnalysis st =
    GapShown {| gapNeeded := [];
                gapProficient := [("Python", 1%nat)];
                gapReadiness := ofZ 100 |}.
Proof. repeat split; vm_compute; reflexivity. Qed.

(** C4, at the failing input. Two companies require "Python" and
    "python": the set of required skills holds both spellings, the skill
    gap view lists both (each with demand count 2), and the dashboard
    counts two skills needed. *)
Theorem required_skill_set_keeps_case_variants :
  let c1 := {| id := 1; name := "A"; role := "Engineer";
               requiredSkills := ["Python"];
               location := "Not specified"; type := "Full-time";
               isFavorite := false; notes := ""; description := None;
               addedDate := ""; deadline := None |} in
  let c2 := {| id := 2; name := "B"; role := "Engineer";
               requiredSkills := ["python"];
               location := "Not specified"; type := "Full-time";
               isFavorite := false; notes := ""; description := None;
               addedDate := ""; deadline := None |} in
  let st := {| companies := [c1; c2]; currentView := "skills";
               currentCompany := None; userSkills := [] |} in
  allRequiredSkills (companies st) = ["Python"; "python"] /\
  renderSkillGapAnalysis st =
    GapShown {| gapNeeded := [("Python", 2%nat); ("python", 2%nat)];
                gapProficient := [];
                gapReadiness := ofZ 0 |} /\
  skillsNeeded (renderDashboard st) = 2%nat.
Proof. repeat split; vm_compute; reflexivity. Qed.

End Gap.

(** ** The progress ranking *)

Module Ranking.
Import JsString JsNumber PrepHub Tables Percent.
Local Open Scope string_scope.

(** C2, at the failing input. Companies A (requires Python and SQL),
    B (requires nothing) and C (requires Go), tracked in that order, and a
    user who lists Python: B's percentage is [0 / 0 * 100], that is [NaN],
    and not 0; a comparator result that is [NaN] counts as equal, so B
    neither moves before A nor lets C pass, and the order shown is A, B, C
    and not B, C, A. *)
Theorem progress_ranking_example :
  let mk := fun n label skills =>
    {| id := n; name := label; role := "Engineer";
       requiredSkills := skills;
       location := "Not specified"; type := "Full-time";
       isFavorite := false; notes := ""; description := None;
       addedDate := ""; deadline := None |} in
  let A := mk 1%Z "A" ["Python"; "SQL"] in
  let B := mk 2%Z "B" [] in
  let C := mk 3%Z "C" ["Go"] in
  let st := {| companies := [A; B; C]; currentView := "progress";
               currentCompany := None; userSkills := ["Python"] |} in
  renderProgress st =
    [{| company := A; totalSkills := 2; acquiredSkills := 1;
        percentage := ofZ 50 |};
     {| company := B; totalSkills := 0; acquiredSkills := 0;
        percentage := NaN |};
     {| company := C; totalSkills := 1; acquiredSkills := 0;
        percentage := ofZ 0 |}].
Proof. vm_compute. reflexivity. Qed.

(** A company with no required skill has the percentage [NaN], whatever
    the user's skills are. *)
Lemma progressItem_no_required_skills (skills : list string) (c : Company) :
  requiredSkills c = [] -> percentage (progressItem skills c) = NaN.
Proof.
  intros E. unfold progressItem. cbn [percentage]. rewrite E. reflexivity.
Qed.

(** *** The sort *)

Section SortFacts.
Variable A : Type.
Variable comparefn : A -> A -> number.
Variable key : A -> Z.

Lemma insert_Permutation (x : A) (l : list A) :
  Permutation (JsArray.insert comparefn x l) (x :: l).
Proof.
  induction l as [|y l IH]; cbn [JsArray.insert]; [reflexivity|].
  destruct (gt (JsArray.SortCompare comparefn x y) (ofZ 0)).
  - apply perm_trans with (y :: x :: l);
      [apply perm_skip, IH | apply perm_swap].
  - reflexivity.
Qed.

Lemma sort_Permutation (l : list A) :
  Permutation (JsArray.sort comparefn l) l.
Proof.
  induction l as [|x l IH]; cbn [JsArray.sort fold_right];
    [reflexivity|].
  apply perm_trans with (x :: JsArray.sort comparefn l).
  - apply insert_Permutation.
  - apply perm_skip, IH.
Qed.

Lemma insert_HdRel (x y : A) (l : list A) :
  (key y <= key x)%Z ->
  HdRel (fun a b => (key a <= key b)%Z) y l ->
  HdRel (fun a b => (key a <= key b)%Z) y (JsArray.insert comparefn x l).
Proof.
  intros L H. destruct l as [|z l]; cbn [JsArray.insert].
  - now constructor.
  - destruct (gt (JsArray.SortCompare comparefn x z) (ofZ 0)).
    + inversion H; subst. now constructor.
    + now constructor.
Qed.

Lemma insert_Sorted (x : A) (l : list A) :
  (forall y, In y l ->
             gt (JsArray.SortCompare comparefn x y) (ofZ 0) =
             (key y <? key x)%Z) ->
  Sorted (fun a b => (key a <= key b)%Z) l ->
  Sorted (fun a b => (key a <= key b)%Z) (JsArray.insert comparefn x l).
Proof.
  induction l as [|y l IH]; intros C S; cbn [JsArray.insert].
  - repeat constructor.
  - rewrite (C y) by now left. inversion S as [|? ? S' H]; subst.
    destruct (Z.ltb_spec (key y) (key x)).
    + constructor.
      * apply IH; [|exact S']. intros z Hz. apply C. now right.
      * apply insert_HdRel; [lia | exact H].
    + constructor; [exact S | now constructor].
Qed.

Lemma sort_Sorted (l : list A) :
  (forall x y, In x l -> In y l ->
               gt (JsArray.SortCompare comparefn x y) (ofZ 0) =
               (key y <? key x)%Z) ->
  Sorted (fun a b => (key a <= key b)%Z) (JsArray.sort comparefn l).
Proof.
  induction l as [|x l IH]; intros C; cbn [JsArray.sort fold_right];
    [constructor|].
  apply insert_Sorted.
  - intros y Hy. apply C; [now left|]. right.
    apply (Permutation_in _ (sort_Permutation l)). exact Hy.
  - apply IH. intros a b Ha Hb. apply C; now right.
Qed.

(** Entries of equal key keep the order they came in. *)
Lemma insert_stable (k : Z) (x : A) (l : list A) :
  (forall y, In y l ->
             gt (JsArray.SortCompare comparefn x y) (ofZ 0) =
             (key y <? key x)%Z) ->
  filter (fun a => (key a =? k)%Z) (JsArray.insert comparefn x l) =
  filter (fun a => (key a =? k)%Z) (x :: l).
Proof.
  induction l as [|y l IH]; intros C; [reflexivity|].
  cbn [JsArray.insert]. rewrite (C y) by now left.
  destruct (Z.ltb_spec (key y) (key x)) as [L|L]; [|reflexivity].
  cbn [filter] in *. rewrite IH by (intros z Hz; apply C; now right).
  destruct (Z.eqb_spec (key x) k), (Z.eqb_spec (key y) k);
    try reflexivity; lia.
Qed.

Lemma sort_stable (k : Z) (l : list A) :
  (forall x y, In x l -> In y l ->
               gt (JsArray.SortCompare comparefn x y) (ofZ 0) =
               (key y <? key x)%Z) ->
  filter (fun a => (key a =? k)%Z) (JsArray.sort comparefn l) =
  filter (fun a => (key a =? k)%Z) l.
Proof.
  induction l as [|x l IH]; intros C; [reflexivity|].
  cbn [JsArray.sort fold_right].
  rewrite insert_stable.
  - cbn [filter]. unfold JsArray.sort in IH.
    rewrite IH by (intros a b Ha Hb; apply C; now right). reflexivity.
  - intros y Hy. apply C; [now left|]. right.
    apply (Permutation_in _ (sort_Permutation l)). exact Hy.
Qed.

(** An array in which no entry compares greater than its successor is
    left as it is. With [NaN] among the percentages that is all the sort
    can see of A, B, C: both comparisons that involve B come out [NaN]. *)
Lemma sort_adjacent_fixed (l : list A) :
  (forall x y l1 l2, l = (l1 ++ x :: y :: l2)%list ->
     gt (JsArray.SortCompare comparefn x y) (ofZ 0) = false) ->
  JsArray.sort comparefn l = l.
Proof.
  induction l as [|x l IH]; intros H; [reflexivity|].
  cbn [JsArray.sort fold_right]. unfold JsArray.sort in IH. rewrite IH.
  - destruct l as [|y l]; [reflexivity|]. cbn [JsArray.insert].
    now rewrite (H x y [] l eq_refl).
  - intros a b l1 l2 E. apply (H a b (x :: l1) l2). now rewrite E.
Qed.

End SortFacts.

(** *** Companies that require something *)

Lemma compareTable : forallb compareRowOk (seq 0 101) = true.
Proof. vm_compute. reflexivity. Qed.

Lemma compare_percentages (a b : Z) :
  (0 <= a <= 100)%Z -> (0 <= b <= 100)%Z ->
  gt (JsArray.SortCompare sub (ofZ a) (ofZ b)) (ofZ 0) = (b <? a)%Z.
Proof.
  intros Ha Hb.
  pose proof (proj1 (forallb_forall _ _) compareTable (Z.to_nat a)) as T.
  unfold compareRowOk in T. rewrite forallb_forall in T.
  specialize (T ltac:(apply in_seq; lia) (Z.to_nat b)
                ltac:(apply in_seq; lia)).
  unfold ofNat in T. rewrite !Z2Nat.id in T by lia.
  now apply Bool.eqb_prop in T.
Qed.

Lemma progressItem_readiness (skills : list string) (c : Company) :
  (1 <= List.length (requiredSkills c) <= List.length KNOWN_SKILLS)%nat ->
  percentage (progressItem skills c) = ofZ (readiness (progressItem skills c)) /\
  (0 <= readiness (progressItem skills c) <= 100)%Z.
Proof.
  intros H. unfold readiness, progressItem.
  cbn [percentage acquiredSkills totalSkills].
  pose proof (filter_length_le
                (fun skill => JsArray.includes skills skill)
                (requiredSkills c)) as F.
  split.
  - now apply percentOf_vocabulary_sizes.
  - apply expectedPercent_range; [lia | exact F].
Qed.

(** X16. When every company requires at least one skill (and no more than the
    vocabulary holds), the ranking is what the stable ascending sort
    gives: a rearrangement of the items, ascending in the percentage,
    items of equal percentage in the order of the companies. *)
Lemma renderProgress_ascending_stable (st : AppState) :
  (forall c, In c (companies st) ->
     (1 <= List.length (requiredSkills c) <= List.length KNOWN_SKILLS)%nat) ->
  Permutation (renderProgress st)
              (map (progressItem (userSkills st)) (companies st)) /\
  Sorted (fun a b => (readiness a <= readiness b)%Z) (renderProgress st) /\
  forall k,
    filter (fun i => (readiness i =? k)%Z) (renderProgress st) =
    filter (fun i => (readiness i =? k)%Z)
           (map (progressItem (userSkills st)) (companies st)).
Proof.
  intros H. unfold renderProgress.
  assert (C : forall x y,
             In x (map (progressItem (userSkills st)) (companies st)) ->
             In y (map (progressItem (userSkills st)) (companies st)) ->
             gt (JsArray.SortCompare
                   (fun a b => sub (percentage a) (percentage b)) x y)
                (ofZ 0) = (readiness y <? readiness x)%Z).
  { intros x y Hx Hy.
    apply in_map_iff in Hx as [cx [<- Hx]].
    apply in_map_iff in Hy as [cy [<- Hy]].
    destruct (progressItem_readiness (userSkills st) cx (H cx Hx)) as [Ex Rx].
    destruct (progressItem_readiness (userSkills st) cy (H cy Hy)) as [Ey Ry].
    unfold JsArray.SortCompare. rewrite Ex, Ey.
    now apply compare_percentages. }
  split; [apply sort_Permutation|].
  split; [now apply sort_Sorted | intros k; now apply sort_stable].
Qed.

Lemma renderProgress_ascending_stable_witness :
  let mk := fun n label skills =>
    {| id := n; name := label; role := "Engineer";
       requiredSkills := skills;
       location := "Not specified"; type := "Full-time";
       isFavorite := false; notes := ""; description := None;
       addedDate := ""; deadline := None |} in
  let st := {| companies := [mk 1%Z "A" ["Python"; "SQL"];
                             mk 2%Z "B" ["Go"]; mk 3%Z "C" ["Rust"]];
               currentView := "progress"; currentCompany := None;
               userSkills := ["Python"] |} in
  Permutation (renderProgress st)
              (map (progressItem (userSkills st)) (companies st)) /\
  Sorted (fun a b => (readiness a <= readiness b)%Z) (renderProgress st) /\
  forall k,
    filter (fun i => (readiness i =? k)%Z) (renderProgress st) =
    filter (fun i => (readiness i =? k)%Z)
           (map (progressItem (userSkills st)) (companies st)).
Proof.
  intros mk st. apply (renderProgress_ascending_stable st).
  intros c [<- | [<- | [<- | []]]];
    cbn [requiredSkills mk List.length];
    change (List.length KNOWN_SKILLS) with 106%nat; lia.
Defined.


End Ranking.

(** ** What the core reads and writes *)

Module Effects.
Import JsString JsNumber Mutable.
Local Open Scope string_scope.
Local Open Scope list_scope.

(** *** Running a computation *)

Lemma bind_run {A B : Type} (m : M A) (f : A -> M B) (s s1 : Machine) (a : A) :
  m s = Some (a, s1) -> bind m f s = f a s1.
Proof. intros H. unfold bind. now rewrite H. Qed.

Lemma setHeap_id (s : Machine) : setHeap (heap s) s = s.
Proof. now destruct s. Qed.

Lemma nth_error_left (h e : list Cell) (r : ref) (c : Cell) :
  nth_error h r = Some c -> nth_error (h ++ e) r = Some c.
Proof.
  intros H. rewrite nth_error_app1; [exact H|].
  apply nth_error_Some. congruence.
Qed.

Lemma nth_error_last (h : list Cell) (c : Cell) :
  nth_error (h ++ [c]) (List.length h) = Some c.
Proof. rewrite nth_error_app2, Nat.sub_diag by lia. reflexivity. Qed.

Lemma update_last (h : list Cell) (c d : Cell) :
  update (List.length h) d (h ++ [c]) = h ++ [d].
Proof. induction h as [|x h IH]; [reflexivity|]. cbn. now rewrite IH. Qed.

Lemma strings_run (s : Machine) (r : ref) (l : list string) :
  nth_error (heap s) r = Some (StringArray l) -> strings r s = Some (l, s).
Proof. intros H. unfold strings, bind, load. now rewrite H. Qed.

Lemma members_run (s : Machine) (r : ref) (l : list string) :
  nth_error (heap s) r = Some (StringSet l) -> members r s = Some (l, s).
Proof. intros H. unfold members, bind, load. now rewrite H. Qed.

Lemma companyRefs_run (s : Machine) (r : ref) (l : list ref) :
  nth_error (heap s) r = Some (CompanyArray l) ->
  companyRefs r s = Some (l, s).
Proof. intros H. unfold companyRefs, bind, load. now rewrite H. Qed.

Lemma companyObject_run (s : Machine) (r : ref) (o : CompanyObject) :
  nth_error (heap s) r = Some (CompanyCell o) ->
  companyObject r s = Some (o, s).
Proof. intros H. unfold companyObject, bind, load. now rewrite H. Qed.

Lemma items_run (s : Machine) (r : ref) (l : list ItemObject) :
  nth_error (heap s) r = Some (ItemArray l) -> items r s = Some (l, s).
Proof. intros H. unfold items, bind, load. now rewrite H. Qed.

Lemma Array_length_run (s : Machine) (r : ref) (l : list string) :
  nth_error (heap s) r = Some (StringArray l) ->
  Array_length r s = Some (List.length l, s).
Proof. intros H. unfold Array_length. now rewrite (bind_run _ _ _ _ _ (strings_run _ _ _ H)). Qed.

Lemma Array_includes_run (s : Machine) (r : ref) (l : list string)
  (x : string) :
  nth_error (heap s) r = Some (StringArray l) ->
  Array_includes r x s = Some (JsArray.includes l x, s).
Proof. intros H. unfold Array_includes. now rewrite (bind_run _ _ _ _ _ (strings_run _ _ _ H)). Qed.

Lemma Set_size_run (s : Machine) (r : ref) (l : list string) :
  nth_error (heap s) r = Some (StringSet l) ->
  Set_size r s = Some (List.length l, s).
Proof. intros H. unfold Set_size. now rewrite (bind_run _ _ _ _ _ (members_run _ _ _ H)). Qed.

Lemma Companies_length_run (s : Machine) (r : ref) (l : list ref) :
  nth_error (heap s) r = Some (CompanyArray l) ->
  Companies_length r s = Some (List.length l, s).
Proof. intros H. unfold Companies_length. now rewrite (bind_run _ _ _ _ _ (companyRefs_run _ _ _ H)). Qed.

Lemma filterM_run {A : Type} (p : A -> M bool) (q : A -> bool)
  (s : Machine) (l : list A) :
  (forall x, In x l -> p x s = Some (q x, s)) ->
  filterM p l s = Some (filter q l, s).
Proof.
  induction l as [|x l IH]; intros H; [reflexivity|].
  cbn [filterM filter].
  rewrite (bind_run _ _ _ _ _ (H x (or_introl eq_refl))).
  rewrite (bind_run _ _ _ _ _ (IH (fun y Hy => H y (or_intror Hy)))).
  reflexivity.
Qed.

Lemma Array_filter_run (s : Machine) (r : ref) (l : list string)
  (p : string -> M bool) (q : string -> bool) :
  nth_error (heap s) r = Some (StringArray l) ->
  (forall x, In x l -> p x s = Some (q x, s)) ->
  Array_filter p r s =
  Some (List.length (heap s),
        setHeap (heap s ++ [StringArray (filter q l)]) s).
Proof.
  intros H P. unfold Array_filter.
  rewrite (bind_run _ _ _ _ _ (strings_run _ _ _ H)).
  rewrite (bind_run _ _ _ _ _ (filterM_run _ _ _ _ P)).
  reflexivity.
Qed.

Lemma Array_map_run (s : Machine) (r : ref) (l : list string)
  (f : string -> string) :
  nth_error (heap s) r = Some (StringArray l) ->
  Array_map f r s =
  Some (List.length (heap s), setHeap (heap s ++ [StringArray (map f l)]) s).
Proof.
  intros H. unfold Array_map.
  now rewrite (bind_run _ _ _ _ _ (strings_run _ _ _ H)).
Qed.

Lemma Array_from_run (s : Machine) (r : ref) (l : list string) :
  nth_error (heap s) r = Some (StringSet l) ->
  Array_from r s =
  Some (List.length (heap s), setHeap (heap s ++ [StringArray l]) s).
Proof.
  intros H. unfold Array_from.
  now rewrite (bind_run _ _ _ _ _ (members_run _ _ _ H)).
Qed.

Lemma Companies_filter_run (s : Machine) (r : ref) (l : list ref)
  (p : ref -> M bool) (q : ref -> bool) :
  nth_error (heap s) r = Some (CompanyArray l) ->
  (forall x, In x l -> p x s = Some (q x, s)) ->
  Companies_filter p r s =
  Some (List.length (heap s),
        setHeap (heap s ++ [CompanyArray (filter q l)]) s).
Proof.
  intros H P. unfold Companies_filter.
  rewrite (bind_run _ _ _ _ _ (companyRefs_run _ _ _ H)).
  rewrite (bind_run _ _ _ _ _ (filterM_run _ _ _ _ P)).
  reflexivity.
Qed.

(** *** Companies in the store *)

Lemma companyAt_inv (h : list Cell) (r : ref) (c : PrepHub.Company) :
  companyAt h r = Some c ->
  exists o,
    nth_error h r = Some (CompanyCell o) /\
    nth_error h (objRequiredSkills o) =
      Some (StringArray (PrepHub.requiredSkills c)) /\
    PrepHub.id c = objId o /\ PrepHub.isFavorite c = objIsFavorite o.
Proof.
  unfold companyAt. intros H.
  destruct (nth_error h r) as [[| | |o|]|]; try discriminate.
  destruct (nth_error h (objRequiredSkills o)) as [[l| | | |]|] eqn:E;
    try discriminate.
  injection H as <-. exists o. cbn. auto.
Qed.

Lemma companyAt_left (h e : list Cell) (r : ref) (c : PrepHub.Company) :
  companyAt h r = Some c -> companyAt (h ++ e) r = Some c.
Proof.
  intros H. pose proof H as H'. unfold companyAt in H |- *.
  destruct (nth_error h r) as [[| | |o|]|] eqn:E1; try discriminate.
  rewrite (nth_error_left _ e _ _ E1).
  destruct (nth_error h (objRequiredSkills o)) as [[l| | | |]|] eqn:E2;
    try discriminate.
  now rewrite (nth_error_left _ e _ _ E2).
Qed.

Lemma companiesAt_left (h e : list Cell) (rs : list ref)
  (cs : list PrepHub.Company) :
  companiesAt h rs = Some cs -> companiesAt (h ++ e) rs = Some cs.
Proof.
  revert cs. induction rs as [|r rs IH]; intros cs H; [exact H|].
  cbn [companiesAt] in *.
  destruct (companyAt h r) as [c|] eqn:C; [|discriminate].
  destruct (companiesAt h rs) as [cs'|]; [|discriminate].
  now rewrite (companyAt_left _ e _ _ C), (IH _ eq_refl).
Qed.

Lemma companiesAt_cons (h : list Cell) (r : ref) (rs : list ref)
  (cs : list PrepHub.Company) :
  companiesAt h (r :: rs) = Some cs ->
  exists c cs', cs = c :: cs' /\ companyAt h r = Some c /\
                companiesAt h rs = Some cs'.
Proof.
  cbn [companiesAt].
  destruct (companyAt h r) as [c|]; [|discriminate].
  destruct (companiesAt h rs) as [cs'|]; [|discriminate].
  intros [= <-]. now exists c, cs'.
Qed.

Lemma companiesAt_length (h : list Cell) (rs : list ref)
  (cs : list PrepHub.Company) :
  companiesAt h rs = Some cs -> List.length rs = List.length cs.
Proof.
  revert cs. induction rs as [|r rs IH]; intros cs H.
  - injection H as <-. reflexivity.
  - destruct (companiesAt_cons _ _ _ _ H) as (c & cs' & -> & _ & T).
    cbn. now rewrite (IH _ T).
Qed.

(** *** Collecting the required skills *)

Lemma Set_add_run (s : Machine) (h : list Cell) (cur : list string)
  (x : string) :
  heap s = h ++ [StringSet cur] ->
  Set_add (List.length h) x s =
  Some (tt, setHeap (h ++ [StringSet (JsArray.Set_add cur x)]) s).
Proof.
  intros H. unfold Set_add.
  assert (N : nth_error (heap s) (List.length h) = Some (StringSet cur))
    by (rewrite H; apply nth_error_last).
  rewrite (bind_run _ _ _ _ _ (members_run _ _ _ N)).
  unfold store. rewrite H, length_app. cbn [List.length].
  replace (List.length h <? List.length h + 1)%nat with true
    by (symmetry; apply Nat.ltb_lt; lia).
  now rewrite update_last.
Qed.

Lemma forEach_Set_add_run (h : list Cell) (l : list string) :
  forall (cur : list string) (s : Machine),
    heap s = h ++ [StringSet cur] ->
    forEach (fun skill => Set_add (List.length h) skill) l s =
    Some (tt, setHeap (h ++ [StringSet (fold_left JsArray.Set_add l cur)]) s).
Proof.
  induction l as [|x l IH]; intros cur s H.
  - cbn [forEach fold_left]. rewrite <- H, setHeap_id. reflexivity.
  - cbn [forEach fold_left].
    rewrite (bind_run _ _ _ _ _ (Set_add_run _ _ _ x H)).
    rewrite (IH (JsArray.Set_add cur x)); reflexivity.
Qed.

Lemma collect_loop_run (h : list Cell) (rs : list ref) :
  forall (cs : list PrepHub.Company) (cur : list string) (s : Machine),
    companiesAt h rs = Some cs ->
    heap s = h ++ [StringSet cur] ->
    forEach
      (fun company =>
         o <- companyObject company ;;
         Array_forEach (fun skill => Set_add (List.length h) skill)
                       (objRequiredSkills o))
      rs s =
    Some (tt,
          setHeap
            (h ++ [StringSet
                     (fold_left
                        (fun set company =>
                           fold_left JsArray.Set_add
                                     (PrepHub.requiredSkills company) set)
                        cs cur)])
            s).
Proof.
  induction rs as [|r rs IH]; intros cs cur s C H.
  - injection C as <-. cbn [forEach fold_left].
    rewrite <- H, setHeap_id. reflexivity.
  - destruct (companiesAt_cons _ _ _ _ C) as (c & cs' & -> & Cr & Crs).
    destruct (companyAt_inv _ _ _ Cr) as (o & O & R & _).
    cbn [forEach fold_left].
    assert (O' : nth_error (heap s) r = Some (CompanyCell o))
      by (rewrite H; now apply nth_error_left).
    assert (R' : nth_error (heap s) (objRequiredSkills o) =
                 Some (StringArray (PrepHub.requiredSkills c)))
      by (rewrite H; now apply nth_error_left).
    erewrite bind_run; cycle 1.
    { rewrite (bind_run _ _ _ _ _ (companyObject_run _ _ _ O')).
      unfold Array_forEach.
      rewrite (bind_run _ _ _ _ _ (strings_run _ _ _ R')).
      apply (forEach_Set_add_run _ _ _ _ H). }
    rewrite (IH cs' (fold_left JsArray.Set_add (PrepHub.requiredSkills c) cur));
      [reflexivity | assumption | reflexivity].
Qed.

Lemma collectRequiredSkills_run (s : Machine) (h : list Cell)
  (companies : ref) (rs : list ref) (cs : list PrepHub.Company) :
  heap s = h ++ [StringSet []] ->
  nth_error h companies = Some (CompanyArray rs) ->
  companiesAt h rs = Some cs ->
  collectRequiredSkills (List.length h) companies s =
  Some (tt, setHeap (h ++ [StringSet (PrepHub.allRequiredSkills cs)]) s).
Proof.
  intros H A C. unfold collectRequiredSkills, Companies_forEach.
  assert (A' : nth_error (heap s) companies = Some (CompanyArray rs))
    by (rewrite H; now apply nth_error_left).
  rewrite (bind_run _ _ _ _ _ (companyRefs_run _ _ _ A')).
  apply (collect_loop_run _ _ _ _ _ C H).
Qed.

Lemma inputsOf_Holds (s : Machine) (cs : list PrepHub.Company)
  (skills : list string) :
  inputsOf s = Some (cs, skills) <-> exists rs, Holds s rs cs skills.
Proof.
  unfold inputsOf, Holds. split.
  - destruct (nth_error (heap s) (companiesRef s)) as [[| |rs| |]|] eqn:A;
      try discriminate.
    destruct (nth_error (heap s) (userSkillsRef s)) as [[l| | | |]|] eqn:U;
      try discriminate.
    destruct (companiesAt (heap s) rs) as [cs'|] eqn:C; [|discriminate].
    intros [= <- <-]. now exists rs.
  - intros (rs & A & C & U). now rewrite A, U, C.
Qed.

Ltac norm :=
  cbn [heap setHeap companiesRef userSkillsRef currentViewName
       currentCompanyRef jdaExtractedSkillsRef].

Ltac cell :=
  norm;
  repeat first
    [ apply nth_error_last
    | apply nth_error_left ];
  try eassumption.

Lemma isFavoriteOf_run (h : list Cell) (rs : list ref)
  (cs : list PrepHub.Company) :
  companiesAt h rs = Some cs ->
  exists q : ref -> bool,
    (forall s e r, heap s = h ++ e -> In r rs ->
                   isFavoriteOf r s = Some (q r, s)) /\
    List.length (filter q rs) =
      List.length (filter PrepHub.isFavorite cs).
Proof.
  intros C.
  exists (fun r => match nth_error h r with
                   | Some (CompanyCell o) => objIsFavorite o
                   | _ => false
                   end).
  revert cs C. induction rs as [|r rs IH]; intros cs C.
  - injection C as <-. split; [intros s e r _ []|reflexivity].
  - destruct (companiesAt_cons _ _ _ _ C) as (c & cs' & -> & Cr & Crs).
    destruct (IH _ Crs) as [P L].
    destruct (companyAt_inv _ _ _ Cr) as (o & O & _ & _ & F).
    split.
    + intros s e x H [<-|Hx]; [|now apply (P s e)].
      unfold isFavoriteOf.
      assert (O' : nth_error (heap s) r = Some (CompanyCell o))
        by (rewrite H; now apply nth_error_left).
      rewrite (bind_run _ _ _ _ _ (companyObject_run _ _ _ O')).
      unfold ret. now rewrite O.
    + cbn [filter]. rewrite O, F.
      destruct (objIsFavorite o); cbn [List.length]; now rewrite L.
Qed.

Lemma includes_userSkills_run (s : Machine) (skills : list string)
  (x : string) :
  nth_error (heap s) (userSkillsRef s) = Some (StringArray skills) ->
  (userSkills <- appState_userSkills ;; Array_includes userSkills x) s =
  Some (JsArray.includes skills x, s).
Proof.
  intros U.
  rewrite (bind_run appState_userSkills _ s s _ eq_refl).
  now apply Array_includes_run.
Qed.

Lemma excludes_userSkills_run (s : Machine) (skills : list string)
  (x : string) :
  nth_error (heap s) (userSkillsRef s) = Some (StringArray skills) ->
  (userSkills <- appState_userSkills ;;
   b <- Array_includes userSkills x ;; ret (negb b)) s =
  Some (negb (JsArray.includes skills x), s).
Proof.
  intros U.
  rewrite (bind_run appState_userSkills _ s s _ eq_refl).
  now rewrite (bind_run _ _ _ _ _ (Array_includes_run _ _ _ x U)).
Qed.

Lemma setHeap_setHeap (h h' : list Cell) (s : Machine) :
  setHeap h (setHeap h' s) = setHeap h s.
Proof. reflexivity. Qed.

Ltac extension := norm; rewrite <- ?app_assoc; reflexivity.

Lemma renderDashboard_run (s : Machine) (rs : list ref)
  (cs : list PrepHub.Company) (skills : list string) :
  Holds s rs cs skills ->
  exists e,
    renderDashboard s =
    Some (PrepHub.renderDashboard (stateOf cs skills), setHeap (heap s ++ e) s).
Proof.
  intros (A & C & U).
  destruct (isFavoriteOf_run _ _ _ C) as (q & Q & QL).
  eexists. unfold renderDashboard.
  rewrite (bind_run appState_companies _ s s _ eq_refl).
  rewrite (bind_run _ _ _ _ _ (Companies_length_run _ _ _ A)).
  rewrite (bind_run appState_companies _ s s _ eq_refl).
  erewrite bind_run; cycle 1.
  { apply Companies_filter_run with (q := q); [cell|].
    intros x Hx. apply (Q _ []); [now rewrite app_nil_r | exact Hx]. }
  erewrite bind_run; [|apply Companies_length_run; cell].
  unfold Set_new.
  erewrite (bind_run (alloc _)); [|reflexivity].
  erewrite bind_run; [|reflexivity].
  rewrite !setHeap_setHeap. norm.
  erewrite bind_run; cycle 1.
  { apply (collectRequiredSkills_run _ _ _ rs cs); norm;
      [reflexivity | cell | now apply companiesAt_left]. }
  rewrite !setHeap_setHeap.
  erewrite bind_run; [|apply Array_from_run; cell].
  rewrite !setHeap_setHeap. norm.
  erewrite bind_run; cycle 1.
  { apply Array_filter_run with
      (q := fun skill => negb (JsArray.includes skills skill)); [cell|].
    intros x _. apply excludes_userSkills_run. cell. }
  rewrite !setHeap_setHeap. norm.
  erewrite bind_run; [|apply Array_length_run; cell].
  erewrite bind_run; [|apply Set_size_run; cell].
  erewrite bind_run; [|apply Array_from_run; cell].
  rewrite !setHeap_setHeap. norm.
  erewrite bind_run; cycle 1.
  { apply Array_filter_run with
      (q := fun skill => JsArray.includes skills skill); [cell|].
    intros x _. apply includes_userSkills_run. cell. }
  rewrite !setHeap_setHeap. norm.
  erewrite bind_run; [|apply Array_length_run; cell].
  erewrite bind_run; [|reflexivity].
  erewrite bind_run; cycle 1.
  { apply Companies_filter_run with (q := q); [cell|].
    intros x Hx. eapply Q; [extension | exact Hx]. }
  rewrite !setHeap_setHeap. norm.
  unfold ret, PrepHub.renderDashboard, stateOf.
  cbn [PrepHub.companies PrepHub.userSkills].
  rewrite QL, (companiesAt_length _ _ _ C), <- !app_assoc.
  reflexivity.
Qed.

Lemma Extends_Unchanged (s s' : Machine) : Extends s s' -> Unchanged s s'.
Proof.
  intros (A & B & e & E). split; [exact A|]. split; [exact B|].
  intros r L. rewrite E. now apply nth_error_app1.
Qed.

Lemma Extends_Holds (s s' : Machine) (rs : list ref)
  (cs : list PrepHub.Company) (skills : list string) :
  Extends s s' -> Holds s rs cs skills -> Holds s' rs cs skills.
Proof.
  intros (A & B & e & E) (H1 & H2 & H3). unfold Holds.
  rewrite A, B, E. repeat split.
  - now apply nth_error_left.
  - now apply companiesAt_left.
  - now apply nth_error_left.
Qed.

Lemma Extends_setHeap (s : Machine) (e : list Cell) :
  Extends s (setHeap (heap s ++ e) s).
Proof. repeat split. now exists e. Qed.

Lemma Extends_refl (s : Machine) : Extends s s.
Proof. repeat split. exists []. now rewrite app_nil_r. Qed.

(** *** The progress view *)

Lemma progressItem_run (h : list Cell) (skills : list string) (r : ref)
  (c : PrepHub.Company) (s : Machine) (e : list Cell) :
  companyAt h r = Some c ->
  nth_error h (userSkillsRef s) = Some (StringArray skills) ->
  heap s = h ++ e ->
  exists e',
    progressItem r s =
    Some (madeItem skills (r, c), setHeap (heap s ++ e') s).
Proof.
  intros C U H. destruct (companyAt_inv _ _ _ C) as (o & O & R & _).
  assert (O' : nth_error (heap s) r = Some (CompanyCell o))
    by (rewrite H; now apply nth_error_left).
  assert (R' : nth_error (heap s) (objRequiredSkills o) =
               Some (StringArray (PrepHub.requiredSkills c)))
    by (rewrite H; now apply nth_error_left).
  assert (U' : nth_error (heap s) (userSkillsRef s) =
               Some (StringArray skills))
    by (rewrite H; now apply nth_error_left).
  eexists. unfold progressItem.
  rewrite (bind_run _ _ _ _ _ (companyObject_run _ _ _ O')).
  rewrite (bind_run _ _ _ _ _ (Array_length_run _ _ _ R')).
  rewrite (bind_run _ _ _ _ _ (companyObject_run _ _ _ O')).
  erewrite bind_run; cycle 1.
  { apply Array_filter_run with
      (q := fun skill => JsArray.includes skills skill); [exact R'|].
    intros x _. now apply includes_userSkills_run. }
  erewrite bind_run; [|apply Array_length_run; cell].
  reflexivity.
Qed.

Lemma mapM_progressItem_run (h : list Cell) (skills : list string)
  (rs : list ref) :
  forall (cs : list PrepHub.Company) (s : Machine) (e : list Cell),
    companiesAt h rs = Some cs ->
    nth_error h (userSkillsRef s) = Some (StringArray skills) ->
    heap s = h ++ e ->
    exists e',
      mapM progressItem rs s =
      Some (map (madeItem skills) (combine rs cs),
            setHeap (heap s ++ e') s).
Proof.
  induction rs as [|r rs IH]; intros cs s e C U H.
  - injection C as <-. exists []. cbn [mapM combine map].
    now rewrite app_nil_r, setHeap_id.
  - destruct (companiesAt_cons _ _ _ _ C) as (c & cs' & -> & Cr & Crs).
    destruct (progressItem_run _ _ _ _ _ _ Cr U H) as (e1 & P).
    destruct (IH cs' (setHeap (heap s ++ e1) s) (e ++ e1) Crs U) as (e2 & Q).
    { norm. rewrite H. now rewrite app_assoc. }
    exists (e1 ++ e2). cbn [mapM combine map].
    rewrite (bind_run _ _ _ _ _ P), (bind_run _ _ _ _ _ Q).
    unfold ret. rewrite setHeap_setHeap. norm. now rewrite app_assoc.
Qed.

Lemma store_last_run (s : Machine) (h : list Cell) (c d : Cell) :
  heap s = h ++ [c] ->
  store (List.length h) d s = Some (tt, setHeap (h ++ [d]) s).
Proof.
  intros H. unfold store. rewrite H, length_app. cbn [List.length].
  replace (List.length h <? List.length h + 1)%nat with true
    by (symmetry; apply Nat.ltb_lt; lia).
  now rewrite update_last.
Qed.

Lemma renderProgress_run (s : Machine) (rs : list ref)
  (cs : list PrepHub.Company) (skills : list string) :
  Holds s rs cs skills ->
  exists e,
    renderProgress s =
    Some (match rs with
          | [] => None
          | _ :: _ =>
              Some (JsArray.sort
                      (fun a b => sub (itemPercentage a) (itemPercentage b))
                      (map (madeItem skills) (combine rs cs)))
          end,
          setHeap (heap s ++ e) s).
Proof.
  intros (A & C & U). unfold renderProgress.
  rewrite (bind_run appState_companies _ s s _ eq_refl).
  rewrite (bind_run _ _ _ _ _ (Companies_length_run _ _ _ A)).
  destruct rs as [|r rs].
  { exists []. cbn [List.length Nat.eqb]. unfold ret.
    now rewrite app_nil_r, setHeap_id. }
  cbn [List.length Nat.eqb].
  rewrite (bind_run appState_companies _ s s _ eq_refl).
  destruct (mapM_progressItem_run _ _ _ _ s [] C U) as (e1 & P);
    [now rewrite app_nil_r|].
  erewrite bind_run; cycle 1.
  { unfold Companies_map.
    rewrite (bind_run _ _ _ _ _ (companyRefs_run _ _ _ A)).
    rewrite (bind_run _ _ _ _ _ P). reflexivity. }
  rewrite setHeap_setHeap. norm.
  erewrite bind_run; cycle 1.
  { unfold Array_sort.
    erewrite bind_run; [|apply items_run; cell].
    apply store_last_run with
      (c := ItemArray (map (madeItem skills) (combine (r :: rs) cs))).
    reflexivity. }
  rewrite setHeap_setHeap.
  erewrite bind_run; [|apply items_run; cell].
  eexists. unfold ret. rewrite <- app_assoc. reflexivity.
Qed.

Lemma itemsAt_left (h e : list Cell) (l : list ItemObject)
  (xs : list PrepHub.ProgressItem) :
  itemsAt h l = Some xs -> itemsAt (h ++ e) l = Some xs.
Proof.
  revert xs. induction l as [|i l IH]; intros xs H; [exact H|].
  cbn [itemsAt] in *. unfold itemAt in *.
  destruct (companyAt h (itemCompany i)) as [c|] eqn:C; [|discriminate].
  rewrite (companyAt_left _ e _ _ C).
  destruct (itemsAt h l) as [xs'|]; [|discriminate].
  now rewrite (IH _ eq_refl).
Qed.

Lemma itemsAt_insert (h : list Cell) (i : ItemObject)
  (x : PrepHub.ProgressItem) (l : list ItemObject) :
  forall xs : list PrepHub.ProgressItem,
    itemAt h i = Some x -> itemsAt h l = Some xs ->
    itemsAt h (JsArray.insert
                 (fun a b => sub (itemPercentage a) (itemPercentage b)) i l) =
    Some (JsArray.insert
            (fun a b => sub (PrepHub.percentage a) (PrepHub.percentage b))
            x xs).
Proof.
  induction l as [|j l IH]; intros xs I L.
  - injection L as <-. cbn [JsArray.insert itemsAt]. now rewrite I.
  - cbn [itemsAt] in L.
    destruct (itemAt h j) as [y|] eqn:J; [|discriminate].
    destruct (itemsAt h l) as [ys|] eqn:Y; [|discriminate].
    injection L as <-.
    assert (Pi : itemPercentage i = PrepHub.percentage x).
    { unfold itemAt in I. destruct (companyAt h (itemCompany i));
        [|discriminate]. now injection I as <-. }
    assert (Pj : itemPercentage j = PrepHub.percentage y).
    { unfold itemAt in J. destruct (companyAt h (itemCompany j));
        [|discriminate]. now injection J as <-. }
    cbn [JsArray.insert]. unfold JsArray.SortCompare. rewrite Pi, Pj.
    destruct (gt _ (ofZ 0)).
    + cbn [itemsAt]. now rewrite J, (IH ys I eq_refl).
    + cbn [itemsAt]. now rewrite I, J, Y.
Qed.

Lemma itemsAt_sort (h : list Cell) (l : list ItemObject) :
  forall xs : list PrepHub.ProgressItem,
    itemsAt h l = Some xs ->
    itemsAt h (JsArray.sort
                 (fun a b => sub (itemPercentage a) (itemPercentage b)) l) =
    Some (JsArray.sort
            (fun a b => sub (PrepHub.percentage a) (PrepHub.percentage b))
            xs).
Proof.
  induction l as [|i l IH]; intros xs L.
  - now injection L as <-.
  - cbn [itemsAt] in L.
    destruct (itemAt h i) as [x|] eqn:I; [|discriminate].
    destruct (itemsAt h l) as [ys|] eqn:Y; [|discriminate].
    injection L as <-. unfold JsArray.sort. cbn [fold_right].
    apply itemsAt_insert; [exact I|]. now apply IH.
Qed.

Lemma itemsAt_made (h : list Cell) (skills : list string) (rs : list ref) :
  forall cs : list PrepHub.Company,
    companiesAt h rs = Some cs ->
    itemsAt h (map (madeItem skills) (combine rs cs)) =
    Some (map (PrepHub.progressItem skills) cs).
Proof.
  induction rs as [|r rs IH]; intros cs C.
  - now injection C as <-.
  - destruct (companiesAt_cons _ _ _ _ C) as (c & cs' & -> & Cr & Crs).
    cbn [combine map itemsAt]. unfold itemAt at 1.
    cbn [madeItem itemCompany fst snd]. rewrite Cr, (IH _ Crs).
    reflexivity.
Qed.

(** *** The analyzer *)

Lemma includes_lowered_run (s : Machine) (r : ref) (lowered : list string)
  (x : string) :
  nth_error (heap s) r = Some (StringArray lowered) ->
  Array_includes r (toLowerCase x) s =
  Some (JsArray.includes lowered (toLowerCase x), s).
Proof. apply Array_includes_run. Qed.

Lemma excludes_lowered_run (s : Machine) (r : ref) (lowered : list string)
  (x : string) :
  nth_error (heap s) r = Some (StringArray lowered) ->
  (b <- Array_includes r (toLowerCase x) ;; ret (negb b)) s =
  Some (negb (JsArray.includes lowered (toLowerCase x)), s).
Proof.
  intros H. now rewrite (bind_run _ _ _ _ _ (Array_includes_run _ _ _ _ H)).
Qed.

Lemma analyzeJD_run (jdaText : string) (s : Machine) (rs : list ref)
  (cs : list PrepHub.Company) (skills : list string)
  (g : PrepHub.Globals) :
  Holds s rs cs skills ->
  PrepHub.userSkills (PrepHub.appState g) = skills ->
  exists s',
    analyzeJD jdaText s = Some (snd (PrepHub.analyzeJD jdaText g), s') /\
    Extends s s' /\
    (truthy (trim jdaText) = false -> s' = s) /\
    (truthy (trim jdaText) = true ->
     Fresh s (jdaExtractedSkillsRef s') /\
     nth_error (heap s') (jdaExtractedSkillsRef s') =
       Some (StringArray
               (PrepHub.jdaExtractedSkills (fst (PrepHub.analyzeJD jdaText g))))).
Proof.
  intros (A & C & U) G. unfold analyzeJD, PrepHub.analyzeJD.
  destruct (truthy (trim jdaText)) eqn:T; cbn [negb].
  2:{ exists s. split; [reflexivity|]. split; [apply Extends_refl|].
      split; [reflexivity | discriminate]. }
  cbn [PrepHub.appState]. rewrite G.
  set (extracted := PrepHub.extractSkillsFromText (Some (trim jdaText))).
  unfold extractSkillsFromText. fold extracted.
  erewrite (bind_run (alloc _)); [|reflexivity].
  erewrite bind_run; [|reflexivity].
  erewrite bind_run; [|reflexivity].
  norm.
  erewrite bind_run; [|apply Array_length_run; cell].
  destruct (List.length extracted =? 0)%nat.
  { eexists. split; [reflexivity|]. split.
    { repeat split. norm. now eexists. }
    split; [discriminate|]. intros _. norm. cbn [fst PrepHub.jdaExtractedSkills].
    split; [unfold Fresh; lia | apply nth_error_last]. }
  erewrite bind_run; [|reflexivity]. norm.
  erewrite bind_run; [|apply Array_map_run; cell].
  norm.
  erewrite bind_run; [|reflexivity]. norm.
  erewrite bind_run; cycle 1.
  { apply Array_filter_run with
      (q := fun x => JsArray.includes (map toLowerCase skills) (toLowerCase x));
      [cell|].
    intros x _. apply includes_lowered_run. cell. }
  norm.
  erewrite bind_run; [|reflexivity]. norm.
  erewrite bind_run; cycle 1.
  { apply Array_filter_run with
      (q := fun x =>
              negb (JsArray.includes (map toLowerCase skills) (toLowerCase x)));
      [cell|].
    intros x _. apply excludes_lowered_run. cell. }
  norm.
  erewrite bind_run; [|apply Array_length_run; cell].
  erewrite bind_run; [|reflexivity]. norm.
  erewrite bind_run; [|apply Array_length_run; cell].
  erewrite bind_run; [|apply strings_run; cell].
  erewrite bind_run; [|apply strings_run; cell].
  eexists. split; [reflexivity|]. split.
  { repeat split. norm. eexists. rewrite <- !app_assoc. reflexivity. }
  split; [discriminate|]. intros _. norm.
  cbn [fst PrepHub.jdaExtractedSkills].
  split; [unfold Fresh; lia | cell].
Qed.

(** *** The skill gap view *)

Lemma demand_filter_run (skill : string) (h : list Cell) (rs : list ref) :
  forall (cs : list PrepHub.Company) (s : Machine) (e : list Cell),
    companiesAt h rs = Some cs ->
    heap s = h ++ e ->
    exists kept e',
      filterM
        (fun c =>
           o <- companyObject c ;;
           lowered <- Array_map toLowerCase (objRequiredSkills o) ;;
           Array_includes lowered (toLowerCase skill))
        rs s = Some (kept, setHeap (heap s ++ e') s) /\
      List.length kept =
      List.length
        (filter (fun c =>
                   JsArray.includes
                     (map toLowerCase (PrepHub.requiredSkills c))
                     (toLowerCase skill)) cs).
Proof.
  induction rs as [|r rs IH]; intros cs s e C H.
  - injection C as <-. exists [], []. cbn [filterM filter].
    now rewrite app_nil_r, setHeap_id.
  - destruct (companiesAt_cons _ _ _ _ C) as (c & cs' & -> & Cr & Crs).
    destruct (companyAt_inv _ _ _ Cr) as (o & O & R & _).
    assert (O' : nth_error (heap s) r = Some (CompanyCell o))
      by (rewrite H; now apply nth_error_left).
    assert (R' : nth_error (heap s) (objRequiredSkills o) =
                 Some (StringArray (PrepHub.requiredSkills c)))
      by (rewrite H; now apply nth_error_left).
    set (lowered := map toLowerCase (PrepHub.requiredSkills c)).
    destruct (IH cs' (setHeap (heap s ++ [StringArray lowered]) s)
                 (e ++ [StringArray lowered]) Crs) as (kept & e2 & Q & L).
    { norm. rewrite H. now rewrite app_assoc. }
    exists (if JsArray.includes lowered (toLowerCase skill)
            then r :: kept else kept), ([StringArray lowered] ++ e2).
    split.
    + cbn [filterM].
      erewrite bind_run; cycle 1.
      { rewrite (bind_run _ _ _ _ _ (companyObject_run _ _ _ O')).
        rewrite (bind_run _ _ _ _ _ (Array_map_run _ _ _ toLowerCase R')).
        apply Array_includes_run. cell. }
      fold lowered. rewrite (bind_run _ _ _ _ _ Q).
      unfold ret. rewrite setHeap_setHeap. norm. now rewrite <- app_assoc.
    + cbn [filter]. fold lowered.
      destruct (JsArray.includes lowered (toLowerCase skill));
        cbn [List.length]; now rewrite L.
Qed.

Lemma demandCount_run (skill : string) (h : list Cell) (rs : list ref)
  (cs : list PrepHub.Company) (s : Machine) (e : list Cell) :
  nth_error h (companiesRef s) = Some (CompanyArray rs) ->
  companiesAt h rs = Some cs ->
  heap s = h ++ e ->
  exists e',
    demandCount skill s =
    Some (PrepHub.demandCount cs skill, setHeap (heap s ++ e') s).
Proof.
  intros A C H.
  destruct (demand_filter_run skill _ _ _ s e C H) as (kept & e1 & F & L).
  assert (A' : nth_error (heap s) (companiesRef s) = Some (CompanyArray rs))
    by (rewrite H; now apply nth_error_left).
  eexists. unfold demandCount.
  rewrite (bind_run appState_companies _ s s _ eq_refl).
  erewrite bind_run; cycle 1.
  { unfold Companies_filter.
    rewrite (bind_run _ _ _ _ _ (companyRefs_run _ _ _ A')).
    rewrite (bind_run _ _ _ _ _ F). reflexivity. }
  rewrite setHeap_setHeap. norm.
  erewrite Companies_length_run; [|cell].
  unfold PrepHub.demandCount. rewrite L, <- app_assoc. reflexivity.
Qed.

Lemma chips_run (h : list Cell) (rs : list ref) (cs : list PrepHub.Company)
  (l : list string) :
  forall (s : Machine) (e : list Cell),
    nth_error h (companiesRef s) = Some (CompanyArray rs) ->
    companiesAt h rs = Some cs ->
    heap s = h ++ e ->
    exists e',
      mapM (fun skill => count <- demandCount skill ;; ret (skill, count)) l s =
      Some (map (fun skill => (skill, PrepHub.demandCount cs skill)) l,
            setHeap (heap s ++ e') s).
Proof.
  induction l as [|x l IH]; intros s e A C H.
  - exists []. cbn [mapM map]. now rewrite app_nil_r, setHeap_id.
  - destruct (demandCount_run x _ _ _ s e A C H) as (e1 & D).
    destruct (IH (setHeap (heap s ++ e1) s) (e ++ e1)) as (e2 & Q);
      [exact A | exact C | norm; rewrite H; now rewrite app_assoc |].
    exists (e1 ++ e2). cbn [mapM map].
    erewrite bind_run; cycle 1.
    { rewrite (bind_run _ _ _ _ _ D). reflexivity. }
    rewrite (bind_run _ _ _ _ _ Q).
    unfold ret. rewrite setHeap_setHeap. norm. now rewrite app_assoc.
Qed.

Lemma skillChips_run (h : list Cell) (rs : list ref)
  (cs : list PrepHub.Company) (arr : ref) (l : list string)
  (s : Machine) :
  nth_error h (companiesRef s) = Some (CompanyArray rs) ->
  companiesAt h rs = Some cs ->
  (exists e, heap s = h ++ e) ->
  nth_error (heap s) arr = Some (StringArray l) ->
  exists e',
    skillChips arr s =
    Some (map (fun skill => (skill, PrepHub.demandCount cs skill)) l,
          setHeap (heap s ++ e') s).
Proof.
  intros A C [e H] L. unfold skillChips.
  rewrite (bind_run _ _ _ _ _ (Array_length_run _ _ _ L)).
  destruct l as [|x l].
  - exists []. cbn [List.length Nat.ltb Nat.leb map]. unfold ret.
    now rewrite app_nil_r, setHeap_id.
  - cbn [List.length Nat.ltb Nat.leb].
    rewrite (bind_run _ _ _ _ _ (strings_run _ _ _ L)).
    now apply (chips_run h rs cs (x :: l) s e).
Qed.

Ltac chips A C N :=
  match goal with
  | |- context [bind (skillChips ?arr) _ ?st] =>
      let e := fresh "e" in
      let X := fresh "X" in
      pose proof (fun l => skillChips_run _ _ _ arr l st A C) as X;
      edestruct X as (e & N);
      [ eexists; extension | cell | ];
      clear X;
      rewrite (bind_run _ _ _ _ _ N); rewrite ?setHeap_setHeap; norm
  end.

Lemma renderSkillGapAnalysis_run (s : Machine) (rs : list ref)
  (cs : list PrepHub.Company) (skills : list string) :
  Holds s rs cs skills ->
  exists e,
    renderSkillGapAnalysis s =
    Some (PrepHub.renderSkillGapAnalysis (stateOf cs skills),
          setHeap (heap s ++ e) s).
Proof.
  intros (A & C & U).
  unfold renderSkillGapAnalysis, PrepHub.renderSkillGapAnalysis, stateOf.
  cbn [PrepHub.companies PrepHub.userSkills].
  rewrite (bind_run appState_companies _ s s _ eq_refl).
  rewrite (bind_run _ _ _ _ _ (Companies_length_run _ _ _ A)).
  rewrite (companiesAt_length _ _ _ C).
  destruct (List.length cs =? 0)%nat.
  { exists []. unfold ret. now rewrite app_nil_r, setHeap_id. }
  unfold Set_new.
  erewrite (bind_run (alloc _)); [|reflexivity].
  erewrite bind_run; [|reflexivity]. norm.
  erewrite bind_run; cycle 1.
  { apply (collectRequiredSkills_run _ _ _ rs cs); norm;
      [reflexivity | exact A | exact C]. }
  rewrite setHeap_setHeap.
  erewrite bind_run; [|reflexivity]. norm.
  erewrite bind_run; [|apply Array_map_run; cell].
  rewrite setHeap_setHeap. norm.
  erewrite bind_run; [|apply Array_from_run; cell].
  rewrite setHeap_setHeap. norm.
  set (all := PrepHub.allRequiredSkills cs).
  set (lowered := map toLowerCase skills).
  erewrite bind_run; cycle 1.
  { apply Array_filter_run with
      (q := fun x => JsArray.includes lowered (toLowerCase x)); [cell|].
    intros x _. apply includes_lowered_run. cell. }
  rewrite setHeap_setHeap. norm.
  erewrite bind_run; [|apply Array_from_run; cell].
  rewrite setHeap_setHeap. norm.
  erewrite bind_run; cycle 1.
  { apply Array_filter_run with
      (q := fun x => negb (JsArray.includes lowered (toLowerCase x))); [cell|].
    intros x _. apply excludes_lowered_run. cell. }
  rewrite setHeap_setHeap. norm.
  erewrite bind_run; [|apply Set_size_run; cell].
  destruct (List.length all =? 0)%nat.
  { eexists. unfold ret. rewrite <- !app_assoc. reflexivity. }
  chips A C N1.
  chips A C N2.
  erewrite bind_run; [|apply Array_length_run; cell].
  erewrite bind_run; [|apply Array_length_run; cell].
  eexists. unfold ret. rewrite <- !app_assoc. reflexivity.
Qed.

(** *** The detail view *)

Lemma findM_combine_run (companyId : Z) (h : list Cell) (rs : list ref) :
  forall (cs : list PrepHub.Company) (s : Machine) (e : list Cell),
    companiesAt h rs = Some cs ->
    heap s = h ++ e ->
    findM (fun c => o <- companyObject c ;; ret (objId o =? companyId)%Z)
          rs s =
    Some (option_map fst
            (find (fun rc => (PrepHub.id (snd rc) =? companyId)%Z)
                  (combine rs cs)), s).
Proof.
  induction rs as [|r rs IH]; intros cs s e C H.
  - injection C as <-. reflexivity.
  - destruct (companiesAt_cons _ _ _ _ C) as (c & cs' & -> & Cr & Crs).
    destruct (companyAt_inv _ _ _ Cr) as (o & O & _ & I & _).
    assert (O' : nth_error (heap s) r = Some (CompanyCell o))
      by (rewrite H; now apply nth_error_left).
    cbn [findM find combine snd]. rewrite I.
    erewrite bind_run; cycle 1.
    { rewrite (bind_run _ _ _ _ _ (companyObject_run _ _ _ O')).
      reflexivity. }
    destruct (objId o =? companyId)%Z; [reflexivity|].
    now apply (IH cs' s e).
Qed.

Lemma find_combine (companyId : Z) (h : list Cell) (rs : list ref) :
  forall cs : list PrepHub.Company,
    companiesAt h rs = Some cs ->
    match find (fun rc => (PrepHub.id (snd rc) =? companyId)%Z)
               (combine rs cs),
          find (fun c => (PrepHub.id c =? companyId)%Z) cs with
    | Some rc, Some c =>
        snd rc = c /\ In (fst rc) rs /\ companyAt h (fst rc) = Some c
    | None, None => True
    | _, _ => False
    end.
Proof.
  induction rs as [|r rs IH]; intros cs C.
  - now injection C as <-.
  - destruct (companiesAt_cons _ _ _ _ C) as (c & cs' & -> & Cr & Crs).
    cbn [combine find snd].
    destruct (PrepHub.id c =? companyId)%Z.
    + cbn [fst snd]. repeat split; [now left | exact Cr].
    + specialize (IH _ Crs).
      destruct (find _ (combine rs cs')) as [rc|];
        destruct (find _ cs'); try exact IH.
      destruct IH as (I1 & I2 & I3). repeat split; try assumption.
      now right.
Qed.

Lemma viewCompanyDetail_explicit (companyId : Z) (s : Machine)
  (rs : list ref) (cs : list PrepHub.Company) (skills : list string) :
  Holds s rs cs skills ->
  exists s',
    viewCompanyDetail companyId s =
      Some (detailRead companyId skills rs cs, s') /\
    Extends s s' /\
    (detailRead companyId skills rs cs = None -> s' = s) /\
    (forall d, detailRead companyId skills rs cs = Some d ->
               currentCompanyRef s' = Some (readCompany d)).
Proof.
  intros (A & C & U).
  pose proof (findM_combine_run companyId _ _ _ s [] C) as F.
  rewrite app_nil_r in F. specialize (F eq_refl).
  pose proof (find_combine companyId _ _ _ C) as M.
  unfold viewCompanyDetail, detailRead.
  rewrite (bind_run appState_companies _ s s _ eq_refl).
  erewrite bind_run; cycle 1.
  { unfold Companies_find.
    rewrite (bind_run _ _ _ _ _ (companyRefs_run _ _ _ A)). exact F. }
  destruct (find (fun rc => (PrepHub.id (snd rc) =? companyId)%Z)
                 (combine rs cs)) as [[r c]|];
    destruct (find (fun c => (PrepHub.id c =? companyId)%Z) cs) as [c'|];
    try contradiction.
  2:{ exists s. split; [reflexivity|]. split; [apply Extends_refl|].
      split; [reflexivity | discriminate]. }
  cbn [fst snd option_map] in *. destruct M as (-> & MI & M).
  destruct (companyAt_inv _ _ _ M) as (o & O & R & _).
  erewrite bind_run; [|reflexivity].
  erewrite bind_run; [|apply companyObject_run; cell].
  erewrite bind_run; cycle 1.
  { apply Array_filter_run with
      (q := fun skill => JsArray.includes skills skill); [cell|].
    intros x _. apply includes_userSkills_run. cell. }
  norm.
  erewrite bind_run; [|apply companyObject_run; cell].
  erewrite bind_run; cycle 1.
  { apply Array_filter_run with
      (q := fun skill => negb (JsArray.includes skills skill)); [cell|].
    intros x _. apply excludes_userSkills_run. cell. }
  norm.
  erewrite bind_run; [|apply strings_run; cell].
  erewrite bind_run; [|apply strings_run; cell].
  eexists. split; [reflexivity|].
  split.
  { repeat split. norm. eexists. rewrite <- app_assoc. reflexivity. }
  split; [discriminate|]. intros d [= <-]. reflexivity.
Qed.

Lemma detailRead_pure (companyId : Z) (h : list Cell) (rs : list ref)
  (cs : list PrepHub.Company) (skills : list string) :
  companiesAt h rs = Some cs ->
  match detailRead companyId skills rs cs,
        snd (PrepHub.viewCompanyDetail companyId (stateOf cs skills)) with
  | Some d, Some d' =>
      In (readCompany d) rs /\
      companyAt h (readCompany d) = Some (PrepHub.detailCompany d') /\
      readProficient d = PrepHub.proficientSkills d' /\
      readNeeded d = PrepHub.neededSkills d'
  | None, None => True
  | _, _ => False
  end.
Proof.
  intros C. pose proof (find_combine companyId _ _ _ C) as M.
  unfold detailRead, PrepHub.viewCompanyDetail, stateOf.
  cbn [PrepHub.companies PrepHub.userSkills].
  destruct (find (fun rc => (PrepHub.id (snd rc) =? companyId)%Z)
                 (combine rs cs)) as [[r c]|];
    destruct (find (fun c => (PrepHub.id c =? companyId)%Z) cs) as [c'|];
    try contradiction; [|exact I].
  cbn [fst snd] in *. destruct M as (-> & MI & M).
  cbn [readCompany readProficient readNeeded PrepHub.detailCompany
       PrepHub.proficientSkills PrepHub.neededSkills].
  now repeat split.
Qed.

Lemma Holds_inputsOf (s : Machine) (rs : list ref)
  (cs : list PrepHub.Company) (skills : list string) :
  Holds s rs cs skills -> inputsOf s = Some (cs, skills).
Proof. intros H. apply inputsOf_Holds. now exists rs. Qed.

(** A computation that, from every machine that holds the inputs, only
    adds objects and returns [out], can be run again with the same
    result. *)
Lemma repeatable {A : Type} (m : M A) (out : A) (rs : list ref)
  (cs : list PrepHub.Company) (skills : list string) :
  (forall t, Holds t rs cs skills ->
             exists t', m t = Some (out, t') /\ Extends t t') ->
  forall s, Holds s rs cs skills -> Repeatable m s out.
Proof.
  intros R s H.
  destruct (R s H) as (s' & E1 & X1).
  pose proof (Extends_Holds _ _ _ _ _ X1 H) as H'.
  destruct (R s' H') as (s'' & E2 & X2).
  exists s', s''. split; [exact E1|].
  split; [now apply Extends_Unchanged|].
  split; [now rewrite (Holds_inputsOf _ _ _ _ H), (Holds_inputsOf _ _ _ _ H')|].
  split; [exact E2 | now apply Extends_Unchanged].
Qed.


(** *** The frame of the core *)

(** The frame is a property of the core, not of the store: [sort] called
    on an array that was there changes it. *)
Example sort_writes_into_its_array :
  let s :=
    mkMachine [ItemArray [mkItemObject 0 1 1 (ofZ 100);
                          mkItemObject 0 1 0 (ofZ 0)]]
              0 0 "progress" None 0 in
  exists s',
    Array_sort (fun a b => sub (itemPercentage a) (itemPercentage b)) 0%nat s
      = Some (tt, s') /\
    ~ Unchanged s s'.
Proof.
  intros s. eexists. split; [reflexivity|].
  intros (_ & _ & U). specialize (U 0%nat (Nat.lt_0_succ 0)).
  vm_compute in U. discriminate U.
Qed.

(** C9. The operations of the core, run on a store in which arrays, sets
    and company objects are mutable and passed by reference, leave every
    object that was there as it was (the array of companies, each
    company, its array of required skills, the array of the user's
    skills), and leave [appState.companies] and [appState.userSkills]
    referring to the arrays they referred to: what [set.add] and [sort]
    write into is an object the operation has made itself. What an
    operation returns is read from such new objects and is what the
    value model gives for the companies and skills the store holds; a
    second run on the store the first one left returns the same, and so
    does a run on any other store that holds the same companies and
    skills. [viewCompanyDetail] writes [appState.currentCompany], a
    reference to a company that was there, and [analyzeJD], on a text
    that is not blank, [jdaExtractedSkills], a reference to a new
    array. *)
Theorem core_leaves_inputs_unchanged
  (s : Machine) (cs : list PrepHub.Company) (skills : list string)
  (companyId : Z) (jdaText : string) (text : option string) :
  inputsOf s = Some (cs, skills) ->
  let st := stateOf cs skills in
  let g := PrepHub.mkGlobals st [] in
  Repeatable renderDashboard s (PrepHub.renderDashboard st) /\
  Repeatable renderSkillGapAnalysis s (PrepHub.renderSkillGapAnalysis st) /\
  (exists shown,
     Repeatable renderProgress s shown /\
     match shown with
     | None => cs = []
     | Some l =>
         cs <> [] /\ itemsAt (heap s) l = Some (PrepHub.renderProgress st)
     end) /\
  (exists shown s',
     Repeatable (viewCompanyDetail companyId) s shown /\
     viewCompanyDetail companyId s = Some (shown, s') /\
     match shown, snd (PrepHub.viewCompanyDetail companyId st) with
     | Some d, Some d' =>
         companyAt (heap s) (readCompany d) = Some (PrepHub.detailCompany d') /\
         readProficient d = PrepHub.proficientSkills d' /\
         readNeeded d = PrepHub.neededSkills d' /\
         currentCompanyRef s' = Some (readCompany d) /\
         ~ Fresh s (readCompany d)
     | None, None => s' = s
     | _, _ => False
     end) /\
  Repeatable (analyzeJD jdaText) s (snd (PrepHub.analyzeJD jdaText g)) /\
  (exists s',
     analyzeJD jdaText s = Some (snd (PrepHub.analyzeJD jdaText g), s') /\
     if truthy (trim jdaText)
     then Fresh s (jdaExtractedSkillsRef s') /\
          nth_error (heap s') (jdaExtractedSkillsRef s') =
            Some (StringArray
                    (PrepHub.jdaExtractedSkills
                       (fst (PrepHub.analyzeJD jdaText g))))
     else s' = s) /\
  (exists r s',
     extractSkillsFromText text s = Some (r, s') /\
     Unchanged s s' /\ Fresh s r /\
     nth_error (heap s') r =
       Some (StringArray (PrepHub.extractSkillsFromText text))) /\
  (forall t : Machine,
     inputsOf t = inputsOf s ->
     option_map fst (renderDashboard t) = option_map fst (renderDashboard s) /\
     option_map fst (renderSkillGapAnalysis t) =
       option_map fst (renderSkillGapAnalysis s) /\
     option_map fst (analyzeJD jdaText t) =
       option_map fst (analyzeJD jdaText s)).
Proof.
  intros I st g. pose proof I as I0.
  apply inputsOf_Holds in I as (rs & H).
  split.
  { apply (repeatable _ _ rs cs skills); [|exact H].
    intros t Ht. destruct (renderDashboard_run _ _ _ _ Ht) as (e & E).
    eexists. split; [exact E | apply Extends_setHeap]. }
  split.
  { apply (repeatable _ _ rs cs skills); [|exact H].
    intros t Ht. destruct (renderSkillGapAnalysis_run _ _ _ _ Ht) as (e & E).
    eexists. split; [exact E | apply Extends_setHeap]. }
  split.
  { eexists. split.
    - apply (repeatable _ _ rs cs skills); [|exact H].
      intros t Ht. destruct (renderProgress_run _ _ _ _ Ht) as (e & E).
      eexists. split; [exact E | apply Extends_setHeap].
    - destruct H as (A & C & U).
      pose proof (companiesAt_length _ _ _ C) as L.
      destruct rs as [|r rs].
      + destruct cs; [reflexivity | discriminate].
      + split; [destruct cs; [discriminate | congruence]|].
        unfold PrepHub.renderProgress, st, stateOf.
        cbn [PrepHub.companies PrepHub.userSkills].
        apply itemsAt_sort. now apply itemsAt_made. }
  split.
  { destruct (viewCompanyDetail_explicit companyId _ _ _ _ H)
      as (s' & E & X & N & S).
    exists (detailRead companyId skills rs cs), s'. split; [|split].
    - apply (repeatable _ _ rs cs skills); [|exact H].
      intros t Ht.
      destruct (viewCompanyDetail_explicit companyId _ _ _ _ Ht)
        as (t' & Et & Xt & _).
      now exists t'.
    - exact E.
    - destruct H as (A & C & U).
      pose proof (detailRead_pure companyId _ _ _ skills C) as P.
      fold st in P.
      destruct (detailRead companyId skills rs cs) as [d|];
        destruct (snd (PrepHub.viewCompanyDetail companyId st));
        try exact P; [|now apply N].
      destruct P as (_ & P1 & P2 & P3).
      repeat split; try assumption; [now apply S|].
      unfold Fresh. intros F.
      destruct (companyAt_inv _ _ _ P1) as (o & O & _).
      assert (nth_error (heap s) (readCompany d) <> None) as G by congruence.
      apply nth_error_Some in G. lia. }
  split.
  { apply (repeatable _ _ rs cs skills); [|exact H].
    intros t Ht.
    destruct (analyzeJD_run jdaText _ _ _ _ g Ht eq_refl) as (t' & E & X & _).
    now exists t'. }
  split.
  { destruct (analyzeJD_run jdaText _ _ _ _ g H eq_refl)
      as (s' & E & _ & B & T).
    exists s'. split; [exact E|].
    destruct (truthy (trim jdaText)); [now apply T | now apply B]. }
  split.
  { eexists. eexists. split; [reflexivity|]. split.
    - apply Extends_Unchanged. norm. apply Extends_setHeap.
    - split; [unfold Fresh; lia | norm; apply nth_error_last]. }
  intros t It. rewrite I0 in It.
  apply inputsOf_Holds in It as (rs' & H').
  destruct (renderDashboard_run _ _ _ _ H) as (e1 & E1).
  destruct (renderDashboard_run _ _ _ _ H') as (e1' & E1').
  destruct (renderSkillGapAnalysis_run _ _ _ _ H) as (e2 & E2).
  destruct (renderSkillGapAnalysis_run _ _ _ _ H') as (e2' & E2').
  destruct (analyzeJD_run jdaText _ _ _ _ g H eq_refl) as (s3 & E3 & _).
  destruct (analyzeJD_run jdaText _ _ _ _ g H' eq_refl) as (s3' & E3' & _).
  rewrite E1, E1', E2, E2', E3, E3'. now repeat split.
Qed.

Lemma core_leaves_inputs_unchanged_witness :
  let python :=
    mkCompanyObject 1 "Acme" "Backend Intern" 0 "Pune" "Internship" true
                    "" None "2025-01-01" None in
  let empty :=
    mkCompanyObject 2 "Globex" "Analyst" 2 "Not specified" "Full-time" false
                    "" None "2025-01-02" None in
  let s :=
    mkMachine [StringArray ["Python"; "SQL"]; CompanyCell python;
               StringArray []; CompanyCell empty; CompanyArray [1; 3]%nat;
               StringArray ["python"; "SQL"]; StringArray []]
              4 5 "progress" None 6 in
  let cs :=
    [PrepHub.mkCompany 1 "Acme" "Backend Intern" ["Python"; "SQL"] "Pune"
                       "Internship" true "" None "2025-01-01" None;
     PrepHub.mkCompany 2 "Globex" "Analyst" [] "Not specified" "Full-time"
                       false "" None "2025-01-02" None] in
  let skills := ["python"; "SQL"] in
  let companyId := 1%Z in
  let jdaText := " We use Python and SQL. " in
  let text := Some "Python" in
  let st := stateOf cs skills in
  let g := PrepHub.mkGlobals st [] in
  Repeatable renderDashboard s (PrepHub.renderDashboard st) /\
  Repeatable renderSkillGapAnalysis s (PrepHub.renderSkillGapAnalysis st) /\
  (exists shown,
     Repeatable renderProgress s shown /\
     match shown with
     | None => cs = []
     | Some l =>
         cs <> [] /\ itemsAt (heap s) l = Some (PrepHub.renderProgress st)
     end) /\
  (exists shown s',
     Repeatable (viewCompanyDetail companyId) s shown /\
     viewCompanyDetail companyId s = Some (shown, s') /\
     match shown, snd (PrepHub.viewCompanyDetail companyId st) with
     | Some d, Some d' =>
         companyAt (heap s) (readCompany d) = Some (PrepHub.detailCompany d') /\
         readProficient d = PrepHub.proficientSkills d' /\
         readNeeded d = PrepHub.neededSkills d' /\
         currentCompanyRef s' = Some (readCompany d) /\
         ~ Fresh s (readCompany d)
     | None, None => s' = s
     | _, _ => False
     end) /\
  Repeatable (analyzeJD jdaText) s (snd (PrepHub.analyzeJD jdaText g)) /\
  (exists s',
     analyzeJD jdaText s = Some (snd (PrepHub.analyzeJD jdaText g), s') /\
     if truthy (trim jdaText)
     then Fresh s (jdaExtractedSkillsRef s') /\
          nth_error (heap s') (jdaExtractedSkillsRef s') =
            Some (StringArray
                    (PrepHub.jdaExtractedSkills
                       (fst (PrepHub.analyzeJD jdaText g))))
     else s' = s) /\
  (exists r s',
     extractSkillsFromText text s = Some (r, s') /\
     Unchanged s s' /\ Fresh s r /\
     nth_error (heap s') r =
       Some (StringArray (PrepHub.extractSkillsFromText text))) /\
  (forall t : Machine,
     inputsOf t = inputsOf s ->
     option_map fst (renderDashboard t) = option_map fst (renderDashboard s) /\
     option_map fst (renderSkillGapAnalysis t) =
       option_map fst (renderSkillGapAnalysis s) /\
     option_map fst (analyzeJD jdaText t) =
       option_map fst (analyzeJD jdaText s)).
Proof.
  intros python empty s cs skills companyId jdaText text.
  apply (core_leaves_inputs_unchanged s cs skills companyId jdaText text).
  reflexivity.
Defined.

End Effects.

(** ** The skill lists the forms write *)

Module Forms.
Import JsString PrepHub Spec StringFacts TrimFacts.
Local Open Scope string_scope.

(** *** Splitting at commas *)

Lemma split_not_nil (sep : ascii) (s : string) : split sep s <> [].
Proof.
  destruct s as [|c s]; simpl; [discriminate|].
  destruct (Ascii.eqb c sep); [discriminate|].
  destruct (split sep s); discriminate.
Qed.

Lemma join_cons_char (sep : string) (c : ascii) (t : string)
  (ts : list string) :
  join sep (String c t :: ts) = String c (join sep (t :: ts)).
Proof. destruct ts; reflexivity. Qed.

Lemma join_split (s : string) : join "," (split "," s) = s.
Proof.
  induction s as [|c s IH]; [reflexivity|]. cbn [split].
  destruct (Ascii.eqb_spec c ",") as [->|N].
  - destruct (split "," s) as [|t ts] eqn:E.
    + now apply split_not_nil in E.
    + cbn [join]. rewrite <- IH. reflexivity.
  - destruct (split "," s) as [|t ts] eqn:E.
    + now apply split_not_nil in E.
    + rewrite join_cons_char, IH. reflexivity.
Qed.

Lemma split_commaFree (s : string) :
  Forall (fun t => commaFree t = true) (split "," s).
Proof.
  induction s as [|c s IH]; cbn [split].
  - repeat constructor.
  - destruct (Ascii.eqb c ",") eqn:C.
    + constructor; [reflexivity | exact IH].
    + destruct (split "," s) as [|t ts]; [repeat constructor; simpl;
                                          now rewrite C|].
      inversion IH as [|? ? Ht Hts]; subst. constructor; [|exact Hts].
      simpl. now rewrite C, Ht.
Qed.

Lemma split_CommaTokens (s : string) : CommaTokens s (split "," s).
Proof.
  split; [apply split_not_nil|]. split; [apply join_split|].
  apply split_commaFree.
Qed.

Lemma split_token_comma (t rest : string) :
  commaFree t = true ->
  split "," (t ++ String "," rest) = t :: split "," rest.
Proof.
  induction t as [|c t IH]; intros F; [reflexivity|].
  simpl in F. apply andb_true_iff in F as [C F].
  apply negb_true_iff in C. simpl append. cbn [split].
  rewrite C, (IH F). reflexivity.
Qed.

Lemma split_token (t : string) : commaFree t = true -> split "," t = [t].
Proof.
  induction t as [|c t IH]; intros F; [reflexivity|].
  simpl in F. apply andb_true_iff in F as [C F].
  apply negb_true_iff in C. cbn [split]. rewrite C, (IH F). reflexivity.
Qed.

(** The tokens of a string are what [split] returns, and nothing else. *)
Lemma CommaTokens_unique (s : string) (toks : list string) :
  CommaTokens s toks -> toks = split "," s.
Proof.
  intros [N [J F]]. subst s.
  induction F as [|t ts Ht Hts IH]; [now destruct N|].
  destruct ts as [|t2 ts].
  - simpl. symmetry. now apply split_token.
  - change (join "," (t :: t2 :: ts))
      with (t ++ String "," (join "," (t2 :: ts))).
    rewrite (split_token_comma _ _ Ht). f_equal. apply IH. discriminate.
Qed.

(** *** Trimming *)

Lemma trimStart_allWhite (l s : string) :
  allWhite l = true -> trimStart (l ++ s) = trimStart s.
Proof.
  induction l as [|c l IH]; simpl; [reflexivity|].
  intros W. apply andb_true_iff in W as [C W]. rewrite C. auto.
Qed.

Lemma trimStart_white (r : string) : allWhite r = true -> trimStart r = "".
Proof.
  intros W. rewrite <- (append_empty_r r).
  now rewrite trimStart_allWhite.
Qed.

Lemma trimStart_fixed (t : string) :
  startsWhite t = false -> trimStart t = t.
Proof. destruct t as [|c t]; simpl; [reflexivity|]. now intros ->. Qed.

Lemma trimEnd_white (r : string) : allWhite r = true -> trimEnd r = "".
Proof.
  induction r as [|c r IH]; simpl; [reflexivity|].
  intros W. apply andb_true_iff in W as [C W]. now rewrite (IH W), C.
Qed.

Lemma trimEnd_strip (t r : string) :
  allWhite r = true -> endsWhite t = false -> trimEnd (t ++ r) = t.
Proof.
  intros W. induction t as [|a t IH]; intros E.
  - simpl. now apply trimEnd_white.
  - simpl append. cbn [trimEnd]. destruct t as [|b t].
    + simpl append. rewrite (trimEnd_white r W). simpl in E. now rewrite E.
    + rewrite IH; [reflexivity | exact E].
Qed.

(** A token has one trimmed form, the one [trim] returns. *)
Lemma Trimmed_unique (tok t : string) : Trimmed tok t -> t = trim tok.
Proof.
  intros [[l [r [E [Wl Wr]]]] [S N]]. subst tok. unfold trim.
  rewrite trimStart_allWhite by assumption.
  destruct t as [|a t].
  - simpl append. now rewrite trimStart_white.
  - rewrite trimStart_fixed.
    + symmetry. now apply trimEnd_strip.
    + exact S.
Qed.

(** *** Tokens to skills *)

Lemma truthy_false (s : string) : truthy s = false <-> s = "".
Proof. destruct s; simpl; split; congruence. Qed.

Lemma truthy_true (s : string) : truthy s = true <-> s <> "".
Proof. destruct s; simpl; split; congruence. Qed.

Lemma SkillsOfTokens_parse (toks : list string) :
  SkillsOfTokens toks (filter truthy (map trim toks)).
Proof.
  induction toks as [|tok toks IH]; simpl; [constructor|].
  destruct (truthy (trim tok)) eqn:T.
  - apply SkillsOfTokens_skill; [apply trim_Trimmed | | exact IH].
    now apply truthy_true.
  - apply SkillsOfTokens_empty; [|exact IH].
    apply truthy_false in T. rewrite <- T. apply trim_Trimmed.
Qed.

Lemma SkillsOfTokens_unique (toks skills : list string) :
  SkillsOfTokens toks skills -> skills = filter truthy (map trim toks).
Proof.
  induction 1 as [|tok toks skills T _ IH|tok t toks skills T N _ IH];
    simpl; [reflexivity| |].
  - apply Trimmed_unique in T. rewrite <- T. exact IH.
  - apply Trimmed_unique in T. rewrite <- T.
    apply truthy_true in N. rewrite N. now f_equal.
Qed.

(** The list a form field yields is the list of its comma-separated
    tokens, trimmed, the empty ones left out. *)
Lemma parse_characterised (field : string) (parsed : list string) :
  (exists toks, CommaTokens field toks /\ SkillsOfTokens toks parsed) <->
  filter truthy (map trim (split "," field)) = parsed.
Proof.
  split.
  - intros [toks [C S]]. apply CommaTokens_unique in C. subst toks.
    symmetry. now apply SkillsOfTokens_unique.
  - intros <-. exists (split "," field).
    split; [apply split_CommaTokens | apply SkillsOfTokens_parse].
Qed.

Lemma parse_no_empty (toks : list string) :
  Forall (fun s => s <> "") (filter truthy toks).
Proof.
  apply Forall_forall. intros s I. apply filter_In in I as [_ T].
  now apply truthy_true.
Qed.

(** C10. The list [handleUpdateSkills] stores as the user's skills, and
    the list [handleAddCompany] stores as the required skills of the
    company it appends, is the list of the comma-separated tokens of the
    field, each trimmed, the empty ones left out, in the order of the
    field. It holds no empty string, and a token that comes twice stays
    twice. Neither handler touches the other list. *)
Theorem skill_lists_from_forms
  (skills : string) (form : AddCompanyForm) (st : AppState) :
  (forall parsed,
      (exists toks, CommaTokens skills toks /\ SkillsOfTokens toks parsed) <->
      userSkills (handleUpdateSkills skills st) = parsed) /\
  (forall parsed,
      (exists toks, CommaTokens (formSkills form) toks /\
                    SkillsOfTokens toks parsed) <->
      exists c, companies (handleAddCompany form st) = (companies st ++ [c])%list /\
                requiredSkills c = parsed) /\
  Forall (fun s => s <> "") (userSkills (handleUpdateSkills skills st)) /\
  (forall c, companies (handleAddCompany form st) = (companies st ++ [c])%list ->
             Forall (fun s => s <> "") (requiredSkills c)) /\
  companies (handleUpdateSkills skills st) = companies st /\
  userSkills (handleAddCompany form st) = userSkills st /\
  userSkills (handleUpdateSkills " SQL, ,sql,SQL ,," st) =
    ["SQL"; "sql"; "SQL"].
Proof.
  split; [|split; [|split; [|split; [|split; [|split]]]]].
  - intros parsed. cbn [handleUpdateSkills userSkills].
    apply parse_characterised.
  - intros parsed. rewrite parse_characterised.
    cbn [handleAddCompany switchView companies]. split.
    + intros <-. eexists. split; reflexivity.
    + intros [c [E <-]]. apply app_inv_head in E. injection E as <-.
      reflexivity.
  - cbn [handleUpdateSkills userSkills]. apply parse_no_empty.
  - cbn [handleAddCompany switchView companies]. intros c E.
    apply app_inv_head in E. injection E as <-.
    cbn [requiredSkills]. apply parse_no_empty.
  - reflexivity.
  - reflexivity.
  - vm_compute. reflexivity.
Qed.

End Forms.

(** ** HTML escaping *)

Module HtmlFacts.
Import JsString Html StringFacts.
Local Open Scope string_scope.

Lemma escapeHtml_cons (c : ascii) (s : string) :
  escapeHtml (String c s) = escapeChar c ++ escapeHtml s.
Proof.
  unfold escapeHtml.
  destruct c as [[] [] [] [] [] [] [] []]; reflexivity.
Qed.

Lemma escapeHtml_escapeEach (s : string) : escapeHtml s = escapeEach s.
Proof.
  induction s as [|c s IH]; [reflexivity|].
  rewrite escapeHtml_cons, IH. reflexivity.
Qed.

Lemma markupFree_escapeEach (s : string) : markupFree (escapeEach s) = true.
Proof.
  induction s as [|c s IH]; [reflexivity|]. cbn [escapeEach].
  destruct c as [[] [] [] [] [] [] [] []]; cbn; exact IH.
Qed.

Lemma markupFree_at (l r : string) (c : ascii) :
  markupFree (l ++ String c r) = true ->
  c <> "<"%char /\ c <> ">"%char /\ c <> "034"%char /\ c <> "'"%char /\
  (c = "&"%char ->
   startsWith r "amp;" = true \/ startsWith r "lt;" = true \/
   startsWith r "gt;" = true \/ startsWith r "quot;" = true \/
   startsWith r "#39;" = true).
Proof.
  induction l as [|d l IH]; cbn [append markupFree]; intros H.
  - rewrite !andb_true_iff, !orb_true_iff, !negb_true_iff in H.
    destruct H as [[[[[A B] C] D] E] _].
    repeat split; try (intros ->; discriminate).
    intros ->. destruct E as [[[[[E|E]|E]|E]|E]|E]; auto; discriminate.
  - apply andb_true_iff in H as [_ H]. auto.
Qed.

Lemma unescape_escapeEach (s : string) : unescapeHtml (escapeEach s) = s.
Proof.
  induction s as [|c s IH]; [reflexivity|]. cbn [escapeEach].
  destruct c as [[] [] [] [] [] [] [] []]; cbn; rewrite IH; reflexivity.
Qed.

(** X1. What [escapeHtml] returns holds none of the code units that open
    or close a tag or an attribute value, and every ampersand in it begins
    one of the entities amp, lt, gt, quot and #39: the five replacements,
    applied one after the other, never escape what an earlier one wrote. *)
Theorem escapeHtml_markup_free (str l r : string) (c : ascii) :
  escapeHtml str = l ++ String c r ->
  c <> "<"%char /\ c <> ">"%char /\ c <> "034"%char /\ c <> "'"%char /\
  (c = "&"%char ->
   startsWith r "amp;" = true \/ startsWith r "lt;" = true \/
   startsWith r "gt;" = true \/ startsWith r "quot;" = true \/
   startsWith r "#39;" = true).
Proof.
  intros E. apply markupFree_at with l. rewrite <- E, escapeHtml_escapeEach.
  apply markupFree_escapeEach.
Qed.

Lemma escapeHtml_markup_free_witness :
  "&"%char <> "<"%char /\ "&"%char <> ">"%char /\ "&"%char <> "034"%char /\
  "&"%char <> "'"%char /\
  ("&"%char = "&"%char ->
   startsWith "lt;b&gt; &amp; co" "amp;" = true \/
   startsWith "lt;b&gt; &amp; co" "lt;" = true \/
   startsWith "lt;b&gt; &amp; co" "gt;" = true \/
   startsWith "lt;b&gt; &amp; co" "quot;" = true \/
   startsWith "lt;b&gt; &amp; co" "#39;" = true).
Proof.
  apply (escapeHtml_markup_free "a<b> & co" "a" "lt;b&gt; &amp; co" "&").
  reflexivity.
Defined.

(** X2. Escaping loses nothing: the text is read back from what
    [escapeHtml] returns by replacing the five entities, so two texts are
    escaped alike only when they are the same text. *)
Theorem escapeHtml_round_trip (a b : string) :
  unescapeHtml (escapeHtml a) = a /\
  (escapeHtml a = escapeHtml b <-> a = b).
Proof.
  assert (R : forall s, unescapeHtml (escapeHtml s) = s)
    by (intros s; rewrite escapeHtml_escapeEach; apply unescape_escapeEach).
  split; [apply R|]. split; [|now intros ->].
  intros E. rewrite <- (R a), <- (R b). now rewrite E.
Qed.

End HtmlFacts.

(** ** Company management *)

Module TrackerFacts.
Import JsString JsNumber PrepHub Tracker Spec Tables.
Import ArrayFacts Percent Ranking Gap.
Local Open Scope string_scope.

(** *** Edits in place *)

Lemma updateFirst_not_found {A : Type} (p : A -> bool) (f : A -> A)
  (l : list A) :
  find p l = None -> updateFirst p f l = l.
Proof.
  induction l as [|x l IH]; simpl; [reflexivity|].
  destruct (p x); [discriminate|]. intros H. now rewrite IH.
Qed.

Lemma updateFirst_found {A : Type} (p : A -> bool) (f : A -> A)
  (l : list A) (x : A) :
  find p l = Some x ->
  exists l1 l2, l = (l1 ++ x :: l2)%list /\
                (forall y, In y l1 -> p y = false) /\
                updateFirst p f l = (l1 ++ f x :: l2)%list.
Proof.
  induction l as [|y l IH]; simpl; [discriminate|].
  destruct (p y) eqn:P.
  - intros H. injection H as <-. exists [], l. repeat split. intros ? [].
  - intros H. destruct (IH H) as [l1 [l2 [E [N U]]]].
    exists (y :: l1), l2. simpl. rewrite <- E, U. repeat split.
    intros z [<- | Hz]; auto.
Qed.

Lemma updateFirst_map {A B : Type} (p : A -> bool) (f : A -> A)
  (g : A -> B) (l : list A) :
  (forall x, g (f x) = g x) -> map g (updateFirst p f l) = map g l.
Proof.
  intros H. induction l as [|x l IH]; simpl; [reflexivity|].
  destruct (p x); simpl; [now rewrite H | now rewrite IH].
Qed.

Lemma updateFirst_twice {A : Type} (p : A -> bool) (f : A -> A)
  (l : list A) :
  (forall x, p (f x) = p x) -> (forall x, f (f x) = x) ->
  updateFirst p f (updateFirst p f l) = l.
Proof.
  intros P F. induction l as [|x l IH]; simpl; [reflexivity|].
  destruct (p x) eqn:E; simpl.
  - now rewrite P, E, F.
  - now rewrite E, IH.
Qed.

(** The readiness figures read the companies through their required
    skills alone. *)
Lemma allRequiredSkills_map (cs cs' : list Company) :
  map requiredSkills cs' = map requiredSkills cs ->
  allRequiredSkills cs' = allRequiredSkills cs.
Proof.
  unfold allRequiredSkills. generalize (@nil string).
  revert cs'; induction cs as [|c cs IH]; intros [|c' cs'] s E;
    try discriminate; [reflexivity|].
  simpl in E. injection E as E1 E2. simpl. rewrite E1. now apply IH.
Qed.

Lemma demandCount_map (cs cs' : list Company) (skill : string) :
  map requiredSkills cs' = map requiredSkills cs ->
  demandCount cs' skill = demandCount cs skill.
Proof.
  unfold demandCount.
  revert cs'; induction cs as [|c cs IH]; intros [|c' cs'] E;
    try discriminate; [reflexivity|].
  simpl in E. injection E as E1 E2. simpl. rewrite E1.
  destruct (JsArray.includes (map toLowerCase (requiredSkills c))
                             (toLowerCase skill)); simpl;
    now rewrite (IH cs' E2).
Qed.

Lemma renderSkillGapAnalysis_map (st st' : AppState) :
  map requiredSkills (companies st') = map requiredSkills (companies st) ->
  userSkills st' = userSkills st ->
  renderSkillGapAnalysis st' = renderSkillGapAnalysis st.
Proof.
  intros C U. unfold renderSkillGapAnalysis.
  rewrite U, (allRequiredSkills_map _ _ C).
  assert (L : List.length (companies st') = List.length (companies st))
    by (rewrite <- (length_map requiredSkills), C; apply length_map).
  rewrite L.
  destruct (List.length (companies st) =? 0)%nat; [reflexivity|].
  destruct (List.length (allRequiredSkills (companies st)) =? 0)%nat;
    [reflexivity|].
  f_equal. f_equal.
  - apply map_ext. intros s. now rewrite (demandCount_map _ _ s C).
  - apply map_ext. intros s. now rewrite (demandCount_map _ _ s C).
Qed.

(** Sorting commutes with a map through which the comparator factors. *)
Lemma sort_map {A B : Type} (g : A -> B) (cmp : B -> B -> number)
  (l : list A) :
  JsArray.sort cmp (map g l) =
  map g (JsArray.sort (fun x y => cmp (g x) (g y)) l).
Proof.
  assert (I : forall x l,
             JsArray.insert cmp (g x) (map g l) =
             map g (JsArray.insert (fun x y => cmp (g x) (g y)) x l)).
  { intros x l0. induction l0 as [|y l0 IH]; [reflexivity|].
    cbn [map JsArray.insert]. unfold JsArray.SortCompare.
    destruct (gt (if isNaN (cmp (g x) (g y)) then ofZ 0 else cmp (g x) (g y))
                 (ofZ 0)); cbn [map]; [now rewrite IH | reflexivity]. }
  induction l as [|x l IH]; [reflexivity|].
  cbn [map JsArray.sort fold_right]. unfold JsArray.sort in IH.
  now rewrite IH, I.
Qed.

(** The figures of the progress view, company by company, in the order
    shown. *)
Lemma renderProgress_figures (st st' : AppState) :
  map requiredSkills (companies st') = map requiredSkills (companies st) ->
  userSkills st' = userSkills st ->
  map (fun i => (totalSkills i, acquiredSkills i, percentage i))
      (renderProgress st') =
  map (fun i => (totalSkills i, acquiredSkills i, percentage i))
      (renderProgress st).
Proof.
  intros C U. unfold renderProgress. rewrite U.
  pose (fig := fun i : ProgressItem =>
                 (totalSkills i, acquiredSkills i, percentage i)).
  pose (cmp := fun a b : nat * nat * number => sub (snd a) (snd b)).
  change (fun a b : ProgressItem => sub (percentage a) (percentage b))
    with (fun a b : ProgressItem => cmp (fig a) (fig b)).
  rewrite <- !(sort_map fig cmp). f_equal.
  rewrite !map_map.
  transitivity (map (fun r => fig (progressItem (userSkills st)
                      {| id := 0; name := ""; role := "";
                         requiredSkills := r; location := ""; type := "";
                         isFavorite := false; notes := "";
                         description := None; addedDate := "";
                         deadline := None |}))
                    (map requiredSkills (companies st'))).
  - rewrite map_map. reflexivity.
  - rewrite C, map_map. reflexivity.
Qed.

Lemma toggled_twice (c : Company) :
  {| id := id c; name := name c; role := role c;
     requiredSkills := requiredSkills c; location := location c;
     type := type c; isFavorite := negb (negb (isFavorite c));
     notes := notes c; description := description c;
     addedDate := addedDate c; deadline := deadline c |} = c.
Proof. destruct c. cbn. now rewrite negb_involutive. Qed.

(** X3. [toggleFavorite] changes the first company that carries the id,
    and of it the favourite flag alone: each of its ten other fields is
    as it was. Companies before it do not carry the id, companies after
    it are left alone even when they do. An unknown id changes nothing,
    toggling twice restores the array, and the favourite count of the
    dashboard moves by exactly one. *)
Theorem toggleFavorite_first_match (companyId : Z) (st : AppState) :
  let cs := companies st in
  let st' := {| companies := toggleFavorite companyId cs;
                currentView := currentView st;
                currentCompany := currentCompany st;
                userSkills := userSkills st |} in
  match find (fun c => (id c =? companyId)%Z) cs with
  | None => toggleFavorite companyId cs = cs
  | Some c =>
      exists l1 l2 c',
        cs = (l1 ++ c :: l2)%list /\
        (forall d, In d l1 -> id d <> companyId) /\
        toggleFavorite companyId cs = (l1 ++ c' :: l2)%list /\
        isFavorite c' = negb (isFavorite c) /\
        id c' = id c /\ name c' = name c /\ role c' = role c /\
        requiredSkills c' = requiredSkills c /\ notes c' = notes c /\
        location c' = location c /\ type c' = type c /\
        description c' = description c /\ addedDate c' = addedDate c /\
        deadline c' = deadline c /\
        (favoriteCount (renderDashboard st') +
           (if isFavorite c then 1 else 0) =
         favoriteCount (renderDashboard st) +
           (if isFavorite c then 0 else 1))%nat
  end /\
  toggleFavorite companyId (toggleFavorite companyId cs) = cs.
Proof.
  intros cs st'. split.
  - destruct (find (fun c => (id c =? companyId)%Z) cs) as [c|] eqn:F.
    + destruct (updateFirst_found _
                  (fun c => {| id := id c; name := name c; role := role c;
                               requiredSkills := requiredSkills c;
                               location := location c; type := type c;
                               isFavorite := negb (isFavorite c);
                               notes := notes c;
                               description := description c;
                               addedDate := addedDate c;
                               deadline := deadline c |}) _ _ F)
        as [l1 [l2 [E [N U]]]].
      eexists l1, l2, _. split; [exact E|]. split.
      { intros d Hd. specialize (N d Hd). cbn in N.
        now apply Z.eqb_neq in N. }
      split; [exact U|].
      cbn [isFavorite id name role requiredSkills notes location type
           description addedDate deadline].
      repeat (split; [reflexivity|]).
      unfold renderDashboard, st'. cbn [favoriteCount companies].
      fold cs. unfold toggleFavorite. rewrite U, E.
      rewrite !filter_app, !length_app. cbn [filter isFavorite].
      destruct (isFavorite c); cbn [negb List.length]; lia.
    + now apply updateFirst_not_found.
  - unfold toggleFavorite. apply updateFirst_twice.
    + reflexivity.
    + intros x. cbn. apply toggled_twice.
Qed.

(** X4. Marking a favourite and saving notes change no readiness figure:
    the skill gap view is the same, the progress view shows the same
    totals, counts and percentages in the same order, and the dashboard
    counts the same companies and skills. *)
Theorem edits_in_place_keep_readiness
  (companyId : Z) (notesValue : string) (st : AppState) (cs' : list Company) :
  cs' = toggleFavorite companyId (companies st) \/
  cs' = autoSaveNotes companyId notesValue (companies st) ->
  let st' := {| companies := cs';
                currentView := currentView st;
                currentCompany := currentCompany st;
                userSkills := userSkills st |} in
  map id cs' = map id (companies st) /\
  renderSkillGapAnalysis st' = renderSkillGapAnalysis st /\
  map (fun i => (totalSkills i, acquiredSkills i, percentage i))
      (renderProgress st') =
  map (fun i => (totalSkills i, acquiredSkills i, percentage i))
      (renderProgress st) /\
  totalCompanies (renderDashboard st') = totalCompanies (renderDashboard st) /\
  skillsNeeded (renderDashboard st') = skillsNeeded (renderDashboard st) /\
  overallProgress (renderDashboard st') = overallProgress (renderDashboard st).
Proof.
  intros H st'.
  assert (I : map id cs' = map id (companies st))
    by (destruct H as [-> | ->]; now apply updateFirst_map).
  assert (R : map requiredSkills (companies st') =
              map requiredSkills (companies st))
    by (cbn [companies st']; destruct H as [-> | ->];
        now apply updateFirst_map).
  split; [exact I|].
  split; [now apply renderSkillGapAnalysis_map|].
  split; [now apply renderProgress_figures|].
  unfold renderDashboard. cbn [totalCompanies skillsNeeded overallProgress].
  rewrite (allRequiredSkills_map _ _ R). cbn [companies userSkills st'].
  repeat split.
  rewrite <- (length_map id cs'), I. apply length_map.
Qed.

Lemma edits_in_place_keep_readiness_witness :
  let st := {| companies :=
                 [{| id := 7; name := "A"; role := "Engineer";
                     requiredSkills := ["Python"; "SQL"];
                     location := "Not specified"; type := "Full-time";
                     isFavorite := false; notes := ""; description := None;
                     addedDate := ""; deadline := None |}];
               currentView := "companies"; currentCompany := None;
               userSkills := ["Python"] |} in
  let st' := {| companies := toggleFavorite 7 (companies st);
                currentView := currentView st;
                currentCompany := currentCompany st;
                userSkills := userSkills st |} in
  map id (toggleFavorite 7 (companies st)) = map id (companies st) /\
  renderSkillGapAnalysis st' = renderSkillGapAnalysis st /\
  map (fun i => (totalSkills i, acquiredSkills i, percentage i))
      (renderProgress st') =
  map (fun i => (totalSkills i, acquiredSkills i, percentage i))
      (renderProgress st) /\
  totalCompanies (renderDashboard st') = totalCompanies (renderDashboard st) /\
  skillsNeeded (renderDashboard st') = skillsNeeded (renderDashboard st) /\
  overallProgress (renderDashboard st') = overallProgress (renderDashboard st).
Proof.
  intros st st'.
  apply (edits_in_place_keep_readiness 7 "" st
           (toggleFavorite 7 (companies st))).
  left. reflexivity.
Defined.

(** *** Removing a company *)

Lemma find_none_filter (companyId : Z) (cs : list Company) :
  find (fun c => (id c =? companyId)%Z) cs = None ->
  filter (fun c => negb (id c =? companyId)%Z) cs = cs.
Proof.
  induction cs as [|c cs IH]; simpl; [reflexivity|].
  destruct (id c =? companyId)%Z; [discriminate|].
  intros H. simpl. now rewrite IH.
Qed.


(** X6. A company that is open in the detail view and then removed is no
    longer found by its id, but stays in [appState.currentCompany]:
    [deleteCompany] does not clear it. *)
Theorem deleted_company_stays_current
  (companyId : Z) (st : AppState) (c : Company) :
  find (fun c => (id c =? companyId)%Z) (companies st) = Some c ->
  let opened := fst (viewCompanyDetail companyId st) in
  let removed := deleteCompany companyId true opened in
  currentCompany removed = Some c /\
  ~ In c (companies removed) /\
  viewCompanyDetail companyId removed = (removed, None).
Proof.
  intros F opened removed.
  assert (O : opened = {| companies := companies st;
                          currentView := currentView st;
                          currentCompany := Some c;
                          userSkills := userSkills st |})
    by (unfold opened, viewCompanyDetail; now rewrite F).
  assert (R : removed =
              {| companies := filter (fun c => negb (id c =? companyId)%Z)
                                     (companies st);
                 currentView := currentView st;
                 currentCompany := Some c;
                 userSkills := userSkills st |})
    by (unfold removed, deleteCompany; rewrite O; cbn [companies];
        now rewrite F).
  rewrite R. cbn [currentCompany companies]. split; [reflexivity|].
  apply find_some in F as [I E]. split.
  - intros H. apply filter_In in H as [_ H]. now rewrite E in H.
  - unfold viewCompanyDetail. cbn [companies].
    destruct (find (fun c0 => (id c0 =? companyId)%Z)
                   (filter (fun c0 => negb (id c0 =? companyId)%Z)
                           (companies st))) as [d|] eqn:G; [|reflexivity].
    apply find_some in G as [G1 G2]. apply filter_In in G1 as [_ G1].
    now rewrite G2 in G1.
Qed.

Lemma deleted_company_stays_current_witness :
  let c := {| id := 7; name := "A"; role := "Engineer";
              requiredSkills := ["Python"];
              location := "Not specified"; type := "Full-time";
              isFavorite := false; notes := ""; description := None;
              addedDate := ""; deadline := None |} in
  let st := {| companies := [c]; currentView := "companies";
               currentCompany := None; userSkills := [] |} in
  let opened := fst (viewCompanyDetail 7 st) in
  let removed := deleteCompany 7 true opened in
  currentCompany removed = Some c /\
  ~ In c (companies removed) /\
  viewCompanyDetail 7 removed = (removed, None).
Proof.
  intros c st.
  apply (deleted_company_stays_current 7 st c). reflexivity.
Defined.

(** X7. A company added through the form and removed again leaves the
    companies as they were, provided no other company carries its id,
    the reading of the clock; two companies added at the same reading
    are removed together. *)
Theorem add_then_delete (form form2 : AddCompanyForm) (st : AppState) :
  (forall c, In c (companies st) -> id c <> formNow form) ->
  formNow form2 = formNow form ->
  deleteCompany (formNow form) true (handleAddCompany form st) =
    switchView "companies" st /\
  deleteCompany (formNow form) true
    (handleAddCompany form2 (handleAddCompany form st)) =
    switchView "companies" st.
Proof.
  intros N E.
  assert (K : filter (fun c => negb (id c =? formNow form)%Z) (companies st)
              = companies st).
  { apply find_none_filter.
    destruct (find (fun c => (id c =? formNow form)%Z) (companies st))
      as [c|] eqn:F; [|reflexivity].
    apply find_some in F as [I F]. apply Z.eqb_eq in F.
    now destruct (N c I). }
  assert (F : forall l c, id c = formNow form ->
              exists d, find (fun c => (id c =? formNow form)%Z)
                             (l ++ [c])%list = Some d).
  { intros l c Hc. induction l as [|x l IH]; simpl.
    - rewrite Hc, Z.eqb_refl. eauto.
    - destruct (id x =? formNow form)%Z; eauto. }
  split.
  - unfold deleteCompany, handleAddCompany, switchView.
    cbn [companies currentView currentCompany userSkills].
    match goal with
    | |- context [find _ (companies st ++ [?c])%list] =>
        destruct (F (companies st) c eq_refl) as [d ->]
    end.
    cbn [negb]. rewrite filter_app, K. cbn [filter id].
    rewrite Z.eqb_refl. cbn [negb]. now rewrite app_nil_r.
  - unfold deleteCompany, handleAddCompany, switchView.
    cbn [companies currentView currentCompany userSkills].
    match goal with
    | |- context [find _ (?l ++ [?c])%list] =>
        destruct (F l c E) as [d ->]
    end.
    cbn [negb]. rewrite !filter_app, K. cbn [filter id].
    rewrite E, Z.eqb_refl. cbn [negb]. now rewrite !app_nil_r.
Qed.

Lemma add_then_delete_witness :
  let form := {| formCompanyName := "Acme"; formRole := "Intern";
                 formSkills := "Python, SQL"; formLocation := "";
                 formType := "Internship"; formDeadline := "";
                 formNow := 1700000000000; formNowISO := "" |} in
  let st := {| companies := []; currentView := "dashboard";
               currentCompany := None; userSkills := [] |} in
  deleteCompany (formNow form) true (handleAddCompany form st) =
    switchView "companies" st /\
  deleteCompany (formNow form) true
    (handleAddCompany form (handleAddCompany form st)) =
    switchView "companies" st.
Proof.
  intros form st. apply (add_then_delete form form st).
  - intros c [].
  - reflexivity.
Defined.

(** *** The company card *)

(** X8. A company card previews the first three required skills and
    shows the tag "+N more" exactly when there are more than three, N
    being the number of skills not previewed; with three skills or fewer
    all are previewed. The preview is the beginning of the required
    skills and holds three of them whenever there are that many, so that
    with more than three exactly three are previewed. *)
Theorem createCompanyCard_accounts_for_all_skills (c : Company) :
  let card := createCompanyCard c in
  (exists rest, requiredSkills c = (skillsPreview card ++ rest)%list /\
                (moreShown card = true ->
                 moreSkills card = Z.of_nat (List.length rest)) /\
                (moreShown card = false -> rest = [])) /\
  (List.length (skillsPreview card) <= 3)%nat /\
  (moreShown card = true <-> (3 < List.length (requiredSkills c))%nat) /\
  List.length (skillsPreview card) =
    Nat.min 3 (List.length (requiredSkills c)) /\
  (moreShown card = true -> List.length (skillsPreview card) = 3%nat) /\
  (moreShown card = false -> skillsPreview card = requiredSkills c) /\
  moreSkills card = (Z.of_nat (List.length (requiredSkills c)) - 3)%Z.
Proof.
  intros card. unfold card, createCompanyCard.
  cbn [skillsPreview moreSkills moreShown].
  split; [|split; [|split; [|split; [|split; [|split]]]]].
  - exists (skipn 3 (requiredSkills c)). split; [|split].
    + symmetry. apply firstn_skipn.
    + intros H. apply Z.ltb_lt in H. rewrite length_skipn. lia.
    + intros H. apply Z.ltb_ge in H. apply length_zero_iff_nil.
      rewrite length_skipn. lia.
  - rewrite length_firstn. lia.
  - rewrite Z.ltb_lt. lia.
  - apply length_firstn.
  - intros H. apply Z.ltb_lt in H. rewrite length_firstn. lia.
  - intros H. apply Z.ltb_ge in H. apply firstn_all2. lia.
  - reflexivity.
Qed.

End TrackerFacts.

(** ** From a job or a JD to the tracker *)

Module Commit.
Import JsString JsNumber PrepHub Tracker Spec Tables MoreTables.
Import StringFacts ArrayFacts Extractor Percent Analyzer Ranking Gap.
Local Open Scope string_scope.

Lemma allRequiredSkills_app_empty (cs : list Company) (c : Company) :
  requiredSkills c = [] ->
  allRequiredSkills (cs ++ [c]) = allRequiredSkills cs.
Proof.
  intros E. unfold allRequiredSkills.
  rewrite fold_left_app. cbn [fold_left]. now rewrite E.
Qed.

(** X9. The company [addJobToTracker] appends requires no skill: the
    progress view shows it with 0 of 0 skills and the percentage [NaN],
    whatever else is tracked, while the set of required skills and the
    skill figures of the dashboard stay as they were. *)
Theorem tracked_job_shows_NaN
  (company role jobLocation jobDescription : string) (now : Z)
  (nowISO : string) (st : AppState) :
  let st' := addJobToTracker company role jobLocation jobDescription
                             now nowISO st in
  exists c,
    companies st' = (companies st ++ [c])%list /\
    userSkills st' = userSkills st /\
    name c = company /\ id c = now /\ requiredSkills c = [] /\
    description c = Some jobDescription /\
    In {| PrepHub.company := c; totalSkills := 0; acquiredSkills := 0;
          percentage := NaN |} (renderProgress st') /\
    allRequiredSkills (companies st') = allRequiredSkills (companies st) /\
    skillsNeeded (renderDashboard st') = skillsNeeded (renderDashboard st) /\
    overallProgress (renderDashboard st') =
      overallProgress (renderDashboard st).
Proof.
  intros st'. unfold st', addJobToTracker. eexists.
  cbn [companies userSkills].
  split; [reflexivity|]. split; [reflexivity|].
  cbn [name id requiredSkills description].
  split; [reflexivity|]. split; [reflexivity|]. split; [reflexivity|].
  split; [reflexivity|].
  split.
  { unfold renderProgress. cbn [companies userSkills].
    apply (Permutation_in _ (Permutation_sym (sort_Permutation _ _ _))).
    rewrite map_app. apply in_or_app. right. left. reflexivity. }
  assert (A : forall c, requiredSkills c = [] ->
              allRequiredSkills (companies st ++ [c]) =
              allRequiredSkills (companies st))
    by (intros; now apply allRequiredSkills_app_empty).
  split; [now apply A|].
  unfold renderDashboard.
  cbn [skillsNeeded overallProgress companies userSkills].
  rewrite A by reflexivity. split; reflexivity.
Qed.

(** *** Committing an analysed JD *)

Lemma filter_length_implies {A : Type} (p q : A -> bool) (l : list A) :
  (forall x, In x l -> p x = true -> q x = true) ->
  (List.length (filter p l) <= List.length (filter q l))%nat.
Proof.
  induction l as [|x l IH]; intros H; simpl; [lia|].
  assert (IH' : (List.length (filter p l) <= List.length (filter q l))%nat)
    by (apply IH; intros y Hy; apply H; now right).
  destruct (p x) eqn:P.
  - rewrite (H x (or_introl eq_refl) P). simpl. lia.
  - destruct (q x); simpl; lia.
Qed.

Lemma NoDup_map_injective {A B : Type} (f : A -> B) (l : list A) (a b : A) :
  NoDup (map f l) -> In a l -> In b l -> f a = f b -> a = b.
Proof.
  induction l as [|x l IH]; simpl; intros N Ha Hb E; [contradiction|].
  apply NoDup_cons_iff in N as [Nx N].
  destruct Ha as [<- | Ha], Hb as [<- | Hb]; auto.
  - destruct Nx. rewrite E. now apply in_map.
  - destruct Nx. rewrite <- E. now apply in_map.
Qed.

Lemma monotoneTable :
  forallb monotoneRowOk (seq 1 (List.length KNOWN_SKILLS)) = true.
Proof. vm_compute. reflexivity. Qed.

Lemma expectedPercent_monotone (a b whole : nat) :
  (1 <= whole <= List.length KNOWN_SKILLS)%nat ->
  (a <= b <= whole)%nat ->
  (expectedPercent a whole <= expectedPercent b whole)%Z.
Proof.
  intros W [AB BW].
  pose proof (proj1 (forallb_forall _ _) monotoneTable whole) as T.
  unfold monotoneRowOk in T. rewrite forallb_forall in T.
  specialize (T ltac:(apply in_seq; lia)).
  induction AB as [|b AB IH]; [lia|].
  specialize (IH ltac:(lia)).
  specialize (T b ltac:(apply in_seq; lia)). apply Z.leb_le in T. lia.
Qed.

(** X10. A JD in which the analyzer recognised skills is committed with
    exactly those skills as the required skills of a new company. The
    progress view then counts as many skills as the analyzer listed and
    shows an integer percentage from 0 to 100, never [NaN]; it compares
    exactly where the analyzer compared up to case, so it never shows
    more acquired skills, nor a higher percentage, than the analyzer; and
    it shows the analyzer's score when every skill of the user is spelled
    as the vocabulary spells it. *)
Theorem committed_JD_in_progress
  (text : string) (form : JDAForm) (g : Globals) (r : JDAResults) :
  snd (analyzeJD text g) = JDAShown r -> jdaNoSkills r = false ->
  exists g' c score shown,
    addJDAToTracker form (fst (analyzeJD text g)) = Some g' /\
    companies (appState g') = (companies (appState g) ++ [c])%list /\
    userSkills (appState g') = userSkills (appState g) /\
    requiredSkills c = extractSkillsFromText (Some text) /\
    totalSkills (progressItem (userSkills (appState g')) c) =
      (List.length (jdaHaveSkills r) + List.length (jdaNeedSkills r))%nat /\
    (acquiredSkills (progressItem (userSkills (appState g')) c) <=
       List.length (jdaHaveSkills r))%nat /\
    jdaScoreValue r = ofZ score /\
    percentage (progressItem (userSkills (appState g')) c) = ofZ shown /\
    (0 <= shown <= score)%Z /\ (score <= 100)%Z /\
    ((forall p, In p (userSkills (appState g)) -> In p KNOWN_SKILLS) ->
     shown = score).
Proof.
  intros H NS. destruct (truthy (trim text)) eqn:T.
  2:{ rewrite (analyzeJD_blank _ _ T) in H. discriminate. }
  assert (N : extractSkillsFromText (Some text) <> []).
  { intros X. rewrite (analyzeJD_no_skills _ _ T X) in H.
    apply JDAShown_inj in H. subst r. discriminate. }
  pose proof (analyzeJD_scored _ g T N) as A. cbv zeta in A.
  rewrite A in H. cbn [snd] in H. apply JDAShown_inj in H.
  rewrite A. cbn [fst]. clear A.
  set (extracted := extractSkillsFromText (Some text)) in *.
  set (skills := userSkills (appState g)) in *.
  set (have := filter (fun s => JsArray.includes (map toLowerCase skills)
                                                 (toLowerCase s)) extracted)
    in *.
  set (acq := filter (fun s => JsArray.includes skills s) extracted).
  assert (S : Subsequence extracted KNOWN_SKILLS)
    by apply extractSkills_Subsequence.
  assert (L : (1 <= List.length extracted <= List.length KNOWN_SKILLS)%nat).
  { split; [|now apply Subsequence_length].
    destruct extracted; [congruence | simpl; lia]. }
  assert (HL : (List.length have <= List.length extracted)%nat)
    by apply filter_length_le.
  assert (AH : (List.length acq <= List.length have)%nat).
  { apply filter_length_implies. intros s _ I.
    apply includes_lower_iff. exists s. split; [|reflexivity].
    now apply includes_In. }
  exists {| appState :=
              switchView "companies"
                {| companies :=
                     (companies (appState g) ++
                      [{| id := jdaNow form;
                          name := orElse (trim (jdaCompanyName form))
                                         "Unknown Company";
                          role := orElse (trim (jdaRoleName form))
                                         "Unknown Role";
                          requiredSkills := extracted;
                          location := "Not specified";
                          type := if JsString.includes
                                       (toLowerCase
                                          (orElse (trim (jdaRoleName form))
                                                  "Unknown Role"))
                                       "intern"
                                  then "Internship" else "Full-time";
                          isFavorite := false;
                          notes := "Added from JD Analyzer.";
                          description := Some (trim (jdaText form));
                          addedDate := jdaNowISO form;
                          deadline := None |}])%list;
                   currentView := currentView (appState g);
                   currentCompany := currentCompany (appState g);
                   userSkills := skills |};
            jdaExtractedSkills := extracted |}.
  eexists. exists (expectedPercent (List.length have) (List.length extracted)).
  exists (expectedPercent (List.length acq) (List.length extracted)).
  split.
  { unfold addJDAToTracker. cbn [jdaExtractedSkills appState].
    destruct (List.length extracted =? 0)%nat eqn:Z0;
      [apply Nat.eqb_eq in Z0; lia | reflexivity]. }
  cbn [appState switchView companies userSkills requiredSkills].
  split; [reflexivity|]. split; [reflexivity|]. split; [reflexivity|].
  unfold progressItem.
  cbn [totalSkills acquiredSkills percentage requiredSkills].
  subst r. cbn [jdaHaveSkills jdaNeedSkills jdaScoreValue].
  fold have. fold acq.
  split; [unfold have; now rewrite filter_split_length|].
  split; [exact AH|].
  split; [apply percentOf_vocabulary_sizes; lia|].
  split; [apply percentOf_vocabulary_sizes; lia|].
  split.
  { split; [apply expectedPercent_range; lia|].
    apply expectedPercent_monotone; lia. }
  split; [apply expectedPercent_range; lia|].
  intros V. f_equal. unfold acq, have. f_equal.
  apply filter_ext_in. intros s Hs.
  destruct (JsArray.includes (map toLowerCase skills) (toLowerCase s))
    eqn:I.
  - apply includes_lower_iff in I as [p [Hp E]].
    apply includes_In.
    assert (p = s); [|now subst].
    apply (NoDup_map_injective toLowerCase KNOWN_SKILLS);
      [apply KNOWN_SKILLS_distinct_lower | now apply V | | exact E].
    now apply Subsequence_In with extracted.
  - destruct (JsArray.includes skills s) eqn:J; [|reflexivity].
    apply includes_In in J.
    assert (K : JsArray.includes (map toLowerCase skills) (toLowerCase s)
                = true)
      by (apply includes_lower_iff; exists s; auto).
    congruence.
Qed.

Lemma committed_JD_in_progress_witness :
  let g := {| appState :=
                {| companies := []; currentView := "jdanalyzer";
                   currentCompany := None; userSkills := ["java"; "AWS"] |};
              jdaExtractedSkills := [] |} in
  let form := {| jdaCompanyName := " Acme "; jdaRoleName := "";
                 jdaText := "Java, AWS, Linux, HTML, Jest";
                 jdaNow := 1700000000000; jdaNowISO := "" |} in
  let r := {| jdaNoSkills := false; jdaScoreCircle := mid;
              jdaScoreValue := ofZ 40;
              jdaHaveSkills := ["Java"; "AWS"];
              jdaNeedSkills := ["HTML"; "Linux"; "Jest"] |} in
  exists g' c score shown,
    addJDAToTracker form
      (fst (analyzeJD "Java, AWS, Linux, HTML, Jest" g)) = Some g' /\
    companies (appState g') = (companies (appState g) ++ [c])%list /\
    userSkills (appState g') = userSkills (appState g) /\
    requiredSkills c =
      extractSkillsFromText (Some "Java, AWS, Linux, HTML, Jest") /\
    totalSkills (progressItem (userSkills (appState g')) c) =
      (List.length (jdaHaveSkills r) + List.length (jdaNeedSkills r))%nat /\
    (acquiredSkills (progressItem (userSkills (appState g')) c) <=
       List.length (jdaHaveSkills r))%nat /\
    jdaScoreValue r = ofZ score /\
    percentage (progressItem (userSkills (appState g')) c) = ofZ shown /\
    (0 <= shown <= score)%Z /\ (score <= 100)%Z /\
    ((forall p, In p (userSkills (appState g)) -> In p KNOWN_SKILLS) ->
     shown = score).
Proof.
  intros g form r.
  apply (committed_JD_in_progress "Java, AWS, Linux, HTML, Jest" form g r).
  - vm_compute. reflexivity.
  - reflexivity.
Defined.

(** The company of the witness: the analyzer scores 40, the progress view
    shows 20, for "java" is not "Java". *)
Example committed_JD_shows_less :
  let g := {| appState :=
                {| companies := []; currentView := "jdanalyzer";
                   currentCompany := None; userSkills := ["java"; "AWS"] |};
              jdaExtractedSkills := [] |} in
  map percentage
      (renderProgress
         {| companies :=
              [{| id := 1; name := "Acme"; role := "Unknown Role";
                  requiredSkills :=
                    jdaExtractedSkills
                      (fst (analyzeJD "Java, AWS, Linux, HTML, Jest" g));
                  location := "Not specified"; type := "Full-time";
                  isFavorite := false; notes := "";
                  description := None; addedDate := "";
                  deadline := None |}];
            currentView := "progress"; currentCompany := None;
            userSkills := ["java"; "AWS"] |}) = [ofZ 20].
Proof. vm_compute. reflexivity. Qed.

(** X11. Nothing is committed when there is nothing to commit: after
    [clearJDA], and after an analysis that recognised no skill,
    [addJDAToTracker] only notifies. After an analysis of a blank text,
    which stores nothing, it commits what the analysis before had
    stored. *)
Theorem nothing_to_commit (text : string) (form : JDAForm) (g : Globals) :
  addJDAToTracker form (clearJDA g) = None /\
  (extractSkillsFromText (Some text) = [] -> truthy (trim text) = true ->
   addJDAToTracker form (fst (analyzeJD text g)) = None) /\
  (truthy (trim text) = false ->
   addJDAToTracker form (fst (analyzeJD text g)) = addJDAToTracker form g).
Proof.
  split; [reflexivity|]. split.
  - intros X T. now rewrite (analyzeJD_no_skills _ _ T X).
  - intros T. now rewrite (analyzeJD_blank _ _ T).
Qed.

End Commit.

(** ** The skills text, written and read back *)

Module SkillText.
Import JsString PrepHub Tracker Spec StringFacts TrimFacts Forms.
Local Open Scope string_scope.

Lemma commaFree_append (a b : string) :
  commaFree (a ++ b) = commaFree a && commaFree b.
Proof.
  induction a as [|c a IH]; simpl; [reflexivity|].
  now rewrite IH, andb_assoc.
Qed.

Lemma trim_commaFree (tok : string) :
  commaFree tok = true -> commaFree (trim tok) = true.
Proof.
  destruct (trim_Trimmed tok) as [[l [r [E _]]] _]. intros H.
  rewrite E, !commaFree_append, !andb_true_iff in H. tauto.
Qed.

(** A skill as the form handlers store it: not empty, no white space at
    either end, no comma. *)
Lemma parsed_skill (field s : string) :
  In s (filter truthy (map trim (split "," field))) ->
  truthy s = true /\ startsWhite s = false /\ endsWhite s = false /\
  commaFree s = true.
Proof.
  intros H. apply filter_In in H as [H T].
  apply in_map_iff in H as [tok [<- I]].
  destruct (trim_Trimmed tok) as [_ [S E]].
  repeat split; try assumption. apply trim_commaFree.
  pose proof (split_commaFree field) as F.
  rewrite Forall_forall in F. now apply F.
Qed.

Lemma trim_padded (pre a : string) :
  allWhite pre = true -> startsWhite a = false -> endsWhite a = false ->
  trim (pre ++ a) = a.
Proof.
  intros W S E. unfold trim.
  rewrite trimStart_allWhite, trimStart_fixed by assumption.
  rewrite <- (append_empty_r a) at 1. now apply trimEnd_strip.
Qed.

Lemma parse_join (l : list string) (pre : string) :
  l <> [] ->
  (forall s, In s l ->
     truthy s = true /\ startsWhite s = false /\ endsWhite s = false /\
     commaFree s = true) ->
  allWhite pre = true -> commaFree pre = true ->
  filter truthy (map trim (split "," (pre ++ join ", " l))) = l.
Proof.
  revert pre. induction l as [|a l IH]; intros pre N G W C;
    [congruence|].
  destruct (G a (or_introl eq_refl)) as [Ta [Sa [Ea Ca]]].
  destruct l as [|b l].
  - cbn [join]. rewrite split_token
      by (rewrite commaFree_append, C, Ca; reflexivity).
    cbn [map filter]. rewrite trim_padded by assumption.
    now rewrite Ta.
  - change (join ", " (a :: b :: l))
      with (a ++ String "," (" " ++ join ", " (b :: l))).
    rewrite <- append_assoc.
    rewrite split_token_comma
      by (rewrite commaFree_append, C, Ca; reflexivity).
    cbn [map filter]. rewrite trim_padded by assumption. rewrite Ta.
    f_equal. apply IH; [discriminate | | reflexivity | reflexivity].
    intros s Hs. apply G. now right.
Qed.

Lemma join_truthy (l : list string) (a : string) :
  truthy a = true -> truthy (join ", " (a :: l)) = true.
Proof. destruct a; [discriminate|]. now destruct l. Qed.

(** X12. The skills the user saved come back from their own text: the
    line [importSkillsFromProfile] writes into the resume builder (the
    skills joined by a comma and a space, as the skills form is
    prefilled) shows in the preview as exactly the saved skills, and
    saving that line again leaves the skills as they are. With no skill
    saved nothing is written. *)
Theorem skills_text_round_trip (field : string) (st : AppState) :
  let saved := handleUpdateSkills field st in
  match importSkillsFromProfile saved with
  | None => userSkills saved = []
  | Some text =>
      text = join ", " (userSkills saved) /\
      previewSkillChips text = Some (userSkills saved) /\
      userSkills (handleUpdateSkills text saved) = userSkills saved
  end.
Proof.
  intros saved. unfold importSkillsFromProfile.
  destruct (userSkills saved) as [|a l] eqn:U; [reflexivity|].
  cbn [List.length Nat.eqb]. split; [reflexivity|].
  assert (G : forall s, In s (a :: l) ->
     truthy s = true /\ startsWhite s = false /\ endsWhite s = false /\
     commaFree s = true).
  { intros s Hs. apply (parsed_skill field). rewrite <- U in Hs. exact Hs. }
  assert (P : filter truthy (map trim (split "," (join ", " (a :: l))))
              = a :: l).
  { apply (parse_join (a :: l) ""); [discriminate | exact G | | ];
      reflexivity. }
  split.
  - unfold previewSkillChips.
    rewrite join_truthy by (apply G; now left). now rewrite P.
  - cbn [handleUpdateSkills userSkills]. exact P.
Qed.

End SkillText.

(** ** The views, side by side *)

Module Views.
Import JsString JsNumber PrepHub Spec Tables.
Import ArrayFacts Percent Ranking Gap Analyzer Commit.
Local Open Scope string_scope.
Local Open Scope list_scope.

Lemma filter_length_pos {A : Type} (p : A -> bool) (l : list A) (x : A) :
  In x l -> p x = true -> (1 <= List.length (filter p l))%nat.
Proof.
  intros I P. assert (H : In x (filter p l)) by now apply filter_In.
  destruct (filter p l); [contradiction | simpl; lia].
Qed.

Lemma demandCount_range (cs : list Company) (s : string) :
  In s (allRequiredSkills cs) ->
  (1 <= demandCount cs s <= List.length cs)%nat.
Proof.
  intros H. apply allRequiredSkills_In in H as [c [C S]]. split.
  - unfold demandCount. apply filter_length_pos with c; [exact C|].
    apply includes_lower_iff. now exists s.
  - apply filter_length_le.
Qed.

Lemma renderSkillGapAnalysis_shown (st : AppState) (a : GapAnalysis) :
  renderSkillGapAnalysis st = GapShown a ->
  let all := allRequiredSkills (companies st) in
  let lowered := map toLowerCase (userSkills st) in
  let withCount := fun skill => (skill, demandCount (companies st) skill) in
  all <> [] /\
  gapNeeded a =
    map withCount
        (filter (fun s => negb (JsArray.includes lowered (toLowerCase s)))
                all) /\
  gapProficient a =
    map withCount
        (filter (fun s => JsArray.includes lowered (toLowerCase s)) all).
Proof.
  unfold renderSkillGapAnalysis.
  destruct (List.length (companies st) =? 0)%nat; [discriminate|].
  destruct (List.length (allRequiredSkills (companies st)) =? 0)%nat eqn:L;
    [discriminate|].
  intros H. assert (E : forall b, GapShown b = GapShown a -> b = a)
    by (intros b B; now injection B).
  apply E in H. subst a. cbn [gapNeeded gapProficient].
  repeat split. intros Z. rewrite Z in L. discriminate.
Qed.

(** X13. When the skill gap view lists skills, every skill some company
    requires is listed once, either to learn or as possessed, nothing else
    is listed, and the count shown beside a skill lies between 1 and the
    number of companies. *)
Theorem skill_gap_view_lists_each_skill_once
  (st : AppState) (a : GapAnalysis) :
  renderSkillGapAnalysis st = GapShown a ->
  NoDup (map fst (gapNeeded a) ++ map fst (gapProficient a)) /\
  (forall s, In s (map fst (gapNeeded a) ++ map fst (gapProficient a)) <->
             exists c, In c (companies st) /\ In s (requiredSkills c)) /\
  (forall s n, In (s, n) (gapNeeded a ++ gapProficient a) ->
               n = demandCount (companies st) s /\
               (1 <= n <= List.length (companies st))%nat) /\
  gapNeeded a ++ gapProficient a <> [].
Proof.
  intros H. destruct (renderSkillGapAnalysis_shown st a H) as [N [EN EP]].
  rewrite EN, EP. rewrite !map_map. cbn [fst]. rewrite !map_id.
  set (p := fun s => JsArray.includes (map toLowerCase (userSkills st))
                                      (toLowerCase s)).
  assert (P : Permutation
                (filter (fun s => negb (p s))
                        (allRequiredSkills (companies st)) ++
                 filter p (allRequiredSkills (companies st)))
                (allRequiredSkills (companies st))).
  { eapply perm_trans; [apply Permutation_app_comm|].
    apply filter_split_Permutation. }
  split; [|split; [|split]].
  - apply (Permutation_NoDup (Permutation_sym P)).
    apply allRequiredSkills_NoDup.
  - intros s. rewrite <- allRequiredSkills_In. split.
    + apply (Permutation_in _ P).
    + apply (Permutation_in _ (Permutation_sym P)).
  - intros s n I. rewrite <- map_app in I.
    apply in_map_iff in I as [s' [E I]]. injection E as -> <-.
    split; [reflexivity|]. apply demandCount_range.
    apply (Permutation_in _ P I).
  - rewrite <- map_app. intros Z. apply map_eq_nil in Z.
    apply N. apply Permutation_nil. rewrite <- Z. now symmetry.
Qed.

Lemma skill_gap_view_lists_each_skill_once_witness :
  let st := {| companies :=
                 [{| id := 1; name := "A"; role := "Engineer";
                     requiredSkills := ["Python"; "SQL"];
                     location := "Not specified"; type := "Full-time";
                     isFavorite := false; notes := ""; description := None;
                     addedDate := ""; deadline := None |}];
               currentView := "skills"; currentCompany := None;
               userSkills := ["python"] |} in
  let a := {| gapNeeded := [("SQL", 1%nat)];
              gapProficient := [("Python", 1%nat)];
              gapReadiness := ofZ 50 |} in
  NoDup (map fst (gapNeeded a) ++ map fst (gapProficient a)) /\
  (forall s, In s (map fst (gapNeeded a) ++ map fst (gapProficient a)) <->
             exists c, In c (companies st) /\ In s (requiredSkills c)) /\
  (forall s n, In (s, n) (gapNeeded a ++ gapProficient a) ->
               n = demandCount (companies st) s /\
               (1 <= n <= List.length (companies st))%nat) /\
  gapNeeded a ++ gapProficient a <> [].
Proof.
  intros st a. apply (skill_gap_view_lists_each_skill_once st a).
  vm_compute. reflexivity.
Defined.

(** X14. The dashboard and the skill gap view count the same set of
    required skills, but the dashboard compares exactly and the skill gap
    view up to case: the dashboard never reports fewer skills needed than
    the skill gap view lists to learn, and it reports none when the skill
    gap view has nothing to list. Its progress figure is computed from
    the skills it does not count as needed. *)
Theorem dashboard_against_skill_gap_view (st : AppState) :
  let d := renderDashboard st in
  let total := List.length (allRequiredSkills (companies st)) in
  (skillsNeeded d <= total)%nat /\
  (favoriteCount d <= totalCompanies d)%nat /\
  overallProgress d =
    (if (0 <? total)%nat then percentOf (total - skillsNeeded d) total
     else ofZ 0) /\
  match renderSkillGapAnalysis st with
  | GapShown a =>
      (List.length (gapNeeded a) <= skillsNeeded d)%nat /\
      (List.length (gapNeeded a) + List.length (gapProficient a) = total)%nat
  | _ => skillsNeeded d = 0%nat /\ total = 0%nat
  end.
Proof.
  intros d total. unfold d, renderDashboard.
  cbn [skillsNeeded favoriteCount totalCompanies overallProgress].
  fold total.
  pose proof (filter_split_length
                (fun skill => JsArray.includes (userSkills st) skill)
                (allRequiredSkills (companies st))) as SL.
  cbv beta in SL. fold total in SL.
  split; [lia|]. split; [apply filter_length_le|]. split.
  { destruct (0 <? total)%nat; [|reflexivity]. f_equal. lia. }
  destruct (renderSkillGapAnalysis st) as [| |a] eqn:R.
  - unfold renderSkillGapAnalysis in R.
    destruct (List.length (companies st) =? 0)%nat eqn:L.
    + apply Nat.eqb_eq, length_zero_iff_nil in L.
      assert (Z : allRequiredSkills (companies st) = [])
        by (rewrite L; reflexivity).
      unfold total. rewrite Z. split; reflexivity.
    + destruct (List.length (allRequiredSkills (companies st)) =? 0)%nat;
        discriminate.
  - unfold renderSkillGapAnalysis in R.
    destruct (List.length (companies st) =? 0)%nat; [discriminate|].
    destruct (List.length (allRequiredSkills (companies st)) =? 0)%nat
      eqn:L; [|discriminate].
    apply Nat.eqb_eq in L. fold total in L.
    split; [|exact L]. lia.
  - destruct (renderSkillGapAnalysis_shown st a R) as [_ [EN EP]].
    rewrite EN, EP, !length_map. split.
    + apply filter_length_implies. intros s _ I.
      apply negb_true_iff in I. apply negb_true_iff.
      destruct (JsArray.includes (userSkills st) s) eqn:J; [|reflexivity].
      apply includes_In in J. rewrite <- I. symmetry.
      apply includes_lower_iff. now exists s.
    + rewrite Nat.add_comm. apply filter_split_length.
Qed.

(** X15. The progress view shows every company once, also when a
    percentage is [NaN]: the companies of its items are a rearrangement
    of the tracked companies, and each item counts the required skills of
    its company and, among them, those the user lists with the same
    spelling. *)
Theorem renderProgress_lists_every_company (st : AppState) :
  Permutation (map company (renderProgress st)) (companies st) /\
  Forall (fun i =>
            totalSkills i = List.length (requiredSkills (company i)) /\
            acquiredSkills i =
              List.length (filter (fun s => JsArray.includes (userSkills st) s)
                                  (requiredSkills (company i))) /\
            (acquiredSkills i <= totalSkills i)%nat /\
            percentage i = percentOf (acquiredSkills i) (totalSkills i))
         (renderProgress st).
Proof.
  pose proof (sort_Permutation _
                (fun a b => sub (percentage a) (percentage b))
                (map (progressItem (userSkills st)) (companies st))) as P.
  fold (renderProgress st) in P. split.
  - apply perm_trans
      with (map company (map (progressItem (userSkills st)) (companies st))).
    + now apply Permutation_map.
    + rewrite map_map. cbn [company progressItem]. now rewrite map_id.
  - apply Forall_forall. intros i I.
    apply (Permutation_in _ P) in I. apply in_map_iff in I as [c [<- _]].
    cbn [progressItem totalSkills acquiredSkills percentage company].
    repeat split. apply filter_length_le.
Qed.

End Views.

(** ** More on the extractor and the analyzer *)

Module ExtractorMore.
Import JsString JsNumber PrepHub Spec Tables MoreTables.
Import StringFacts ArrayFacts Extractor Percent TrimFacts Analyzer Ranking.
Local Open Scope string_scope.

Lemma lowerChar_idempotent (c : ascii) : lowerChar (lowerChar c) = lowerChar c.
Proof. destruct c as [[] [] [] [] [] [] [] []]; vm_compute; reflexivity. Qed.

Lemma toLowerCase_idempotent (s : string) :
  toLowerCase (toLowerCase s) = toLowerCase s.
Proof.
  induction s as [|c s IH]; simpl; [reflexivity|].
  now rewrite lowerChar_idempotent, IH.
Qed.

(** X17. The extractor reads neither the case of the text nor the white
    space around it: the lower-cased text, and the trimmed text when
    something is left of it, give the same skills as the text. *)
Theorem extractSkills_ignores_case_and_margins (text : string) :
  extractSkillsFromText (Some (toLowerCase text)) =
    extractSkillsFromText (Some text) /\
  (extractSkillsFromText (Some (trim text)) =
     extractSkillsFromText (Some text) \/
   truthy (trim text) = false /\ extractSkillsFromText (Some (trim text)) = []).
Proof.
  split.
  - unfold extractSkillsFromText.
    now rewrite toLowerCase_truthy, toLowerCase_idempotent.
  - destruct (truthy (trim text)) eqn:T.
    + left. now apply extractSkills_trim.
    + right. split; [reflexivity|]. unfold extractSkillsFromText.
      now rewrite T.
Qed.

(** X18. A longer text yields no fewer skills: what the extractor finds
    in a text it finds in every text the first occurs in. *)
Theorem extractSkills_monotone (text longer skill : string) :
  Substring text longer ->
  In skill (extractSkillsFromText (Some text)) ->
  In skill (extractSkillsFromText (Some longer)).
Proof.
  intros S. rewrite !extractSkills_In. intros [K H]. split; [exact K|].
  apply Substring_trans with (toLowerCase text); [exact H|].
  now apply Substring_toLowerCase.
Qed.

Lemma extractSkills_monotone_witness :
  In "Python" (extractSkillsFromText (Some "We use Python daily")).
Proof.
  apply (extractSkills_monotone "Python" "We use Python daily" "Python").
  - exists "We use ", " daily". reflexivity.
  - vm_compute. left. reflexivity.
Defined.

Lemma extremeTable :
  forallb extremeRowOk (seq 1 (List.length KNOWN_SKILLS)) = true.
Proof. vm_compute. reflexivity. Qed.

Lemma expectedPercent_extremes (part whole : nat) :
  (1 <= whole <= List.length KNOWN_SKILLS)%nat -> (part <= whole)%nat ->
  (expectedPercent part whole = 100%Z <-> part = whole) /\
  (expectedPercent part whole = 0%Z <-> part = 0%nat).
Proof.
  intros W P.
  pose proof (proj1 (forallb_forall _ _) extremeTable whole) as T.
  unfold extremeRowOk in T. rewrite forallb_forall in T.
  specialize (T ltac:(apply in_seq; lia) part ltac:(apply in_seq; lia)).
  apply andb_true_iff in T as [A B].
  apply Bool.eqb_prop in A, B.
  rewrite <- Z.eqb_eq, <- !Nat.eqb_eq, A. rewrite <- Z.eqb_eq, B. tauto.
Qed.

Lemma ofZ_injective (a b : Z) :
  (0 <= a <= 100)%Z -> (0 <= b <= 100)%Z -> ofZ a = ofZ b -> a = b.
Proof.
  intros A B E.
  pose proof (compare_percentages a b A B) as C1.
  pose proof (compare_percentages b a B A) as C2.
  pose proof (compare_percentages b b B B) as C3.
  rewrite E in C1, C2. rewrite C3 in C1, C2.
  rewrite Z.ltb_irrefl in C1, C2.
  symmetry in C1, C2. apply Z.ltb_ge in C1, C2. lia.
Qed.

(** X19. When the analyzer recognised skills, it shows 100 only if no
    skill is missing and 0 only if no skill is possessed: rounding never
    lifts an incomplete match to 100 nor drops a partial one to 0. *)
Theorem analyzeJD_extreme_scores
  (text : string) (g : Globals) (r : JDAResults) :
  snd (analyzeJD text g) = JDAShown r -> jdaNoSkills r = false ->
  (jdaScoreValue r = ofZ 100 <-> jdaNeedSkills r = []) /\
  (jdaScoreValue r = ofZ 0 <-> jdaHaveSkills r = []).
Proof.
  intros H NS. destruct (truthy (trim text)) eqn:T.
  2:{ rewrite (analyzeJD_blank _ _ T) in H. discriminate. }
  assert (N : extractSkillsFromText (Some text) <> []).
  { intros X. rewrite (analyzeJD_no_skills _ _ T X) in H.
    apply JDAShown_inj in H. subst r. discriminate. }
  pose proof (analyzeJD_scored _ g T N) as A. cbv zeta in A.
  rewrite A in H. cbn [snd] in H. apply JDAShown_inj in H. subst r.
  cbn [jdaScoreValue jdaNeedSkills jdaHaveSkills]. clear A NS.
  set (extracted := extractSkillsFromText (Some text)) in *.
  set (p := fun s => JsArray.includes
                       (map toLowerCase (userSkills (appState g)))
                       (toLowerCase s)).
  assert (L : (1 <= List.length extracted <= List.length KNOWN_SKILLS)%nat).
  { split; [destruct extracted; [congruence | simpl; lia]|].
    apply Subsequence_length, extractSkills_Subsequence. }
  pose proof (filter_length_le p extracted) as F.
  pose proof (filter_split_length p extracted) as SL.
  unfold p in *. cbv beta in SL.
  destruct (expectedPercent_extremes _ _ L F) as [E100 E0].
  pose proof (expectedPercent_range _ (List.length extracted)
                ltac:(lia) F) as R.
  rewrite (percentOf_vocabulary_sizes _ _ L F).
  split.
  - rewrite <- length_zero_iff_nil. split.
    + intros E. apply ofZ_injective in E; [|exact R|lia].
      apply E100 in E. lia.
    + intros Z. f_equal. apply E100. lia.
  - rewrite <- length_zero_iff_nil. split.
    + intros E. apply ofZ_injective in E; [|exact R|lia].
      now apply E0.
    + intros Z. f_equal. now apply E0.
Qed.

Lemma analyzeJD_extreme_scores_witness :
  let r := {| jdaNoSkills := false; jdaScoreCircle := mid;
              jdaScoreValue := ofZ 40;
              jdaHaveSkills := ["Java"; "AWS"];
              jdaNeedSkills := ["HTML"; "Linux"; "Jest"] |} in
  (jdaScoreValue r = ofZ 100 <-> jdaNeedSkills r = []) /\
  (jdaScoreValue r = ofZ 0 <-> jdaHaveSkills r = []).
Proof.
  intros r.
  apply (analyzeJD_extreme_scores "Java, AWS, Linux, HTML, Jest"
           {| appState :=
                {| companies := []; currentView := "jdanalyzer";
                   currentCompany := None; userSkills := ["java"; "aws"] |};
              jdaExtractedSkills := [] |} r).
  - vm_compute. reflexivity.
  - reflexivity.
Defined.

End ExtractorMore.

(** ** The jobs search *)

Module JobsFacts.
Import JsString PrepHub Tracker Spec TrimFacts.
Local Open Scope string_scope.

(** X20. Paging never leaves page 1 downwards: from a page that is at
    least 1, [loadJobsPage] either does nothing (when the step would lead
    below 1) or searches the page one step away, and the page stays at
    least 1. The keyword it searches for is never empty and has no white
    space around it: a blank field falls back on 'software developer
    intern'. *)
Theorem loadJobsPage_stays_on_pages
  (direction : Z) (jobKeyword jobLocation jobCountry : string)
  (js : JobsState) :
  (1 <= currentPage js)%Z ->
  let out := loadJobsPage direction jobKeyword jobLocation jobCountry js in
  (1 <= currentPage (fst out))%Z /\
  totalResults (fst out) = totalResults js /\
  match snd out with
  | None => (currentPage js + direction < 1)%Z /\ fst out = js
  | Some q =>
      currentPage (fst out) = (currentPage js + direction)%Z /\
      queryPage q = currentPage (fst out) /\
      queryKeyword q = lastKeyword (fst out) /\
      queryLocation q = lastLocation (fst out) /\
      queryLocation q = trim jobLocation /\
      truthy (queryKeyword q) = true /\
      startsWhite (queryKeyword q) = false /\
      endsWhite (queryKeyword q) = false /\
      (queryKeyword q = trim jobKeyword \/
       trim jobKeyword = "" /\ queryKeyword q = "software developer intern")
  end.
Proof.
  intros P out. unfold out, loadJobsPage.
  destruct (Z.ltb_spec (currentPage js + direction) 1) as [L|L].
  - cbn [fst snd]. repeat split; assumption.
  - unfold searchJobs.
    cbn [fst snd currentPage totalResults lastKeyword lastLocation
         queryPage queryKeyword queryLocation].
    split; [exact L|]. split; [reflexivity|].
    repeat (split; [reflexivity|]).
    destruct (trim_Trimmed jobKeyword) as [_ [S E]].
    unfold orElse. destruct (truthy (trim jobKeyword)) eqn:T.
    + repeat split; try assumption. now left.
    + repeat split. right. split; [|reflexivity].
      destruct (trim jobKeyword); [reflexivity | discriminate].
Qed.

Lemma loadJobsPage_stays_on_pages_witness :
  let js := {| currentPage := 1; totalResults := 30; resultsPerPage := 12;
               lastKeyword := "react"; lastLocation := "";
               lastCountry := "in" |} in
  let out := loadJobsPage (-1) "  " "" "in" js in
  (1 <= currentPage (fst out))%Z /\
  totalResults (fst out) = totalResults js /\
  match snd out with
  | None => (currentPage js + -1 < 1)%Z /\ fst out = js
  | Some q =>
      currentPage (fst out) = (currentPage js + -1)%Z /\
      queryPage q = currentPage (fst out) /\
      queryKeyword q = lastKeyword (fst out) /\
      queryLocation q = lastLocation (fst out) /\
      queryLocation q = trim "" /\
      truthy (queryKeyword q) = true /\
      startsWhite (queryKeyword q) = false /\
      endsWhite (queryKeyword q) = false /\
      (queryKeyword q = trim "  " \/
       trim "  " = "" /\ queryKeyword q = "software developer intern")
  end.
Proof.
  intros js.
  apply (loadJobsPage_stays_on_pages (-1) "  " "" "in" js).
  cbn [currentPage js]. lia.
Defined.

End JobsFacts.

(** ** Job cards *)

Module JobCardFacts.
Import JsString PrepHub Tracker Html JobCard Spec.
Local Open Scope string_scope.

Lemma hasClose_stripFrom (inTag : bool) (s : string) :
  hasClose (stripFrom inTag s) = true -> hasClose s = true.
Proof.
  revert inTag. induction s as [|c s IH]; intros inTag; [destruct inTag; auto|].
  cbn [stripFrom hasClose]. destruct inTag.
  - destruct (Ascii.eqb c ">"); [reflexivity|]. cbn [orb]. apply IH.
  - destruct (Ascii.eqb c "<" && tagAhead s).
    + intros H. rewrite (IH _ H). apply orb_true_r.
    + cbn [hasClose]. destruct (Ascii.eqb c ">"); [reflexivity|].
      cbn [orb]. apply IH.
Qed.

Lemma tagAhead_hasClose (s : string) : tagAhead s = true -> hasClose s = true.
Proof.
  destruct s as [|c s]; [discriminate|]. unfold tagAhead.
  intros H. apply andb_true_iff in H. apply H.
Qed.

Lemma hasClose_false_stripFrom (inTag : bool) (s : string) :
  hasClose s = false -> hasClose (stripFrom inTag s) = false.
Proof.
  intros H. destruct (hasClose (stripFrom inTag s)) eqn:E; [|reflexivity].
  apply hasClose_stripFrom in E. congruence.
Qed.

Lemma tagAhead_stripFrom (s : string) :
  tagAhead s = false -> tagAhead (stripFrom false s) = false.
Proof.
  destruct s as [|c s]; [reflexivity|].
  unfold tagAhead at 1. cbn [stripFrom hasClose].
  destruct (Ascii.eqb c ">") eqn:C; cbn [negb andb orb].
  - intros _. apply Ascii.eqb_eq in C. subst c. cbn [Ascii.eqb andb].
    reflexivity.
  - intros H.
    assert (T : tagAhead s = false).
    { destruct (tagAhead s) eqn:T; [|reflexivity].
      apply tagAhead_hasClose in T. congruence. }
    rewrite T, andb_false_r. unfold tagAhead. cbn [hasClose].
    rewrite C. cbn [negb andb orb]. now apply hasClose_false_stripFrom.
Qed.

Lemma hasTag_stripFrom (s : string) :
  hasTag (stripFrom false s) = false /\ hasTag (stripFrom true s) = false.
Proof.
  induction s as [|c s [IHf IHt]]; [split; reflexivity|].
  cbn [stripFrom]. split.
  - destruct (Ascii.eqb c "<" && tagAhead s) eqn:E; [exact IHt|].
    cbn [hasTag tagStart]. rewrite IHf, orb_false_r.
    apply andb_false_iff in E as [E|E]; [now rewrite E|].
    rewrite (tagAhead_stripFrom _ E). apply andb_false_r.
  - destruct (Ascii.eqb c ">"); assumption.
Qed.

Lemma hasClose_append (m r : string) : hasClose (m ++ String ">" r) = true.
Proof.
  induction m as [|c m IH]; [reflexivity|].
  cbn [append hasClose]. rewrite IH. apply orb_true_r.
Qed.

Lemma hasTag_at (l m r : string) :
  m <> "" -> hasClose m = false ->
  hasTag (l ++ String "<" (m ++ String ">" r)) = true.
Proof.
  intros N C. induction l as [|a l IH].
  - cbn [append hasTag tagStart]. cbn [Ascii.eqb Bool.eqb andb].
    destruct m as [|c m]; [congruence|].
    cbn [hasClose] in C. apply orb_false_iff in C as [C1 C2].
    cbn [append tagAhead hasClose]. rewrite C1, hasClose_append.
    reflexivity.
  - cbn [append hasTag]. rewrite IH. apply orb_true_r.
Qed.

Lemma stripFrom_fixed (s : string) :
  hasTag s = false -> stripFrom false s = s.
Proof.
  induction s as [|c s IH]; [reflexivity|].
  cbn [hasTag tagStart stripFrom]. intros H.
  apply orb_false_iff in H as [H1 H2]. rewrite H1, (IH H2). reflexivity.
Qed.

Lemma stripFrom_Subsequence (inTag : bool) (s : string) :
  Subsequence (list_ascii_of_string (stripFrom inTag s))
              (list_ascii_of_string s).
Proof.
  revert inTag. induction s as [|c s IH]; intros inTag.
  - destruct inTag; constructor.
  - cbn [stripFrom list_ascii_of_string]. destruct inTag.
    + destruct (Ascii.eqb c ">"); constructor; apply IH.
    + destruct (Ascii.eqb c "<" && tagAhead s).
      * constructor. apply IH.
      * cbn [list_ascii_of_string]. apply Subsequence_keep, IH.
Qed.

Lemma stripFrom_skips (m r : string) :
  hasClose m = false ->
  stripFrom true (m ++ String ">" r) = stripFrom false r.
Proof.
  induction m as [|c m IH]; intros C; [reflexivity|].
  cbn [hasClose] in C. apply orb_false_iff in C as [C1 C2].
  cbn [append stripFrom]. rewrite C1. now apply IH.
Qed.

Lemma hasClose_split (s : string) :
  hasClose s = true ->
  exists m r, s = m ++ String ">" r /\ hasClose m = false.
Proof.
  induction s as [|c s IH]; [discriminate|]. cbn [hasClose].
  destruct (Ascii.eqb c ">") eqn:E.
  - intros _. apply Ascii.eqb_eq in E. subst c. now exists "", s.
  - cbn [orb]. intros H. destruct (IH H) as (m & r & -> & C).
    exists (String c m), r. split; [reflexivity|].
    cbn [hasClose]. now rewrite E, C.
Qed.

Lemma tagStart_TagAt (s : string) : tagStart s = true <-> TagAt s.
Proof.
  split.
  - destruct s as [|c s]; [discriminate|]. cbn [tagStart].
    intros H. apply andb_true_iff in H as [H1 H2].
    apply Ascii.eqb_eq in H1. subst c.
    destruct s as [|c s]; [discriminate|]. unfold tagAhead in H2.
    apply andb_true_iff in H2 as [H2 H3]. apply negb_true_iff in H2.
    destruct (hasClose_split _ H3) as (m & r & E & C).
    exists m, r. rewrite E. split; [reflexivity|]. split; [|exact C].
    intros ->. cbn [append] in E. injection E as -> _.
    cbn in H2. discriminate.
  - intros (m & r & -> & N & C).
    pose proof (hasTag_at "" m r N C) as H. cbn [append hasTag] in H.
    cbn [tagStart]. cbn [Ascii.eqb Bool.eqb andb].
    destruct m as [|c m]; [congruence|].
    cbn [hasClose] in C. apply orb_false_iff in C as [C1 C2].
    cbn [append tagAhead hasClose]. rewrite C1, hasClose_append.
    reflexivity.
Qed.

Lemma Stripped_stripFrom (s d : string) :
  Stripped s d -> d = stripFrom false s.
Proof.
  induction 1 as [|c s d N _ IH|m r d N C _ IH]; [reflexivity| |].
  - cbn [stripFrom].
    destruct (Ascii.eqb c "<" && tagAhead s) eqn:T; [|now rewrite IH].
    exfalso. apply N, tagStart_TagAt. exact T.
  - assert (T : tagStart (String "<" (m ++ String ">" r)) = true)
      by (apply tagStart_TagAt; now exists m, r).
    cbn [tagStart] in T. cbn [stripFrom]. rewrite T.
    rewrite (stripFrom_skips _ _ C). exact IH.
Qed.

Lemma stripFrom_Stripped (s : string) : Stripped s (stripFrom false s).
Proof.
  assert (G : forall n s, (String.length s <= n)%nat ->
              Stripped s (stripFrom false s)).
  { clear s. induction n as [|n IH]; intros s L.
    - destruct s; [constructor | cbn in L; lia].
    - destruct s as [|c s]; [constructor|].
      cbn [String.length] in L.
      destruct (tagStart (String c s)) eqn:T.
      + pose proof T as T'. apply tagStart_TagAt in T'.
        destruct T' as (m & r & E & N & C).
        injection E as -> ->.
        assert (R : stripFrom false (String "<" (m ++ String ">" r)) =
                    stripFrom false r).
        { cbn [tagStart] in T. cbn [stripFrom]. rewrite T.
          now apply stripFrom_skips. }
        rewrite R. apply Stripped_tag; [assumption..|].
        apply IH.
        assert (String.length (m ++ String ">" r) =
                (String.length m + S (String.length r))%nat) as LE.
        { clear. induction m as [|c m IH]; [reflexivity|].
          cbn [append String.length]. now rewrite IH. }
        lia.
      + cbn [tagStart] in T. cbn [stripFrom]. rewrite T.
        apply Stripped_keep.
        * intros A. apply tagStart_TagAt in A. cbn [tagStart] in A.
          congruence.
        * apply IH. lia. }
  now apply (G (String.length s)).
Qed.

(** X21. The description kept for a job that is tracked from its card is
    the posting's description with its tags left out and nothing else:
    read from the left, every code unit at which no tag begins is kept,
    every tag (a ['<'], a non-empty run free of ['>'], a ['>']) is left
    out whole, and that fixes the description. No tag is left in it,
    nothing but code units of the posting's description is in it and in
    that order, and stripping it again changes nothing. The card shows
    the first 200 code units of it, escaped. *)
Theorem tracked_job_description_has_no_tag (job : Job) (now : Z)
  (nowISO : string) (st : AppState) :
  let card := createJobCard job in
  let posted := orDefault (jobDescription job) "" in
  exists c d,
    companies (addJobToTrackerFromCache (Some (cardCache card)) now nowISO st)
      = (companies st ++ [c])%list /\
    description c = Some d /\
    d = stripTags posted /\
    ~ (exists l m r,
         d = l ++ String "<" (m ++ String ">" r) /\
         m <> "" /\ hasClose m = false) /\
    Subsequence (list_ascii_of_string d) (list_ascii_of_string posted) /\
    stripTags d = d /\
    cardDescription card = escapeHtml (String.substring 0 200 d ++ "...") /\
    (forall d' : string, Stripped posted d' <-> d' = d).
Proof.
  intros card posted.
  eexists. exists (stripTags posted).
  split; [reflexivity|]. split; [reflexivity|]. split; [reflexivity|].
  pose proof (proj1 (hasTag_stripFrom posted)) as T.
  split; [|split; [|split; [|split]]].
  - intros (l & m & r & E & N & C).
    pose proof (hasTag_at l m r N C) as H.
    unfold stripTags in E. rewrite <- E in H. congruence.
  - apply stripFrom_Subsequence.
  - apply stripFrom_fixed. exact T.
  - reflexivity.
  - intros d'. split.
    + apply Stripped_stripFrom.
    + intros ->. apply stripFrom_Stripped.
Qed.

(** The example of a description with markup inside and outside tags. *)
Example stripTags_keeps_text :
  stripTags "a <b>c</b> d < e > f <> g <<i>" = "a c d  f <> g ".
Proof. reflexivity. Qed.

(** X22. A job whose card carries the badge 'Internship' is tracked with
    type 'Internship': the badge and the type test the same title. *)
Theorem internship_badge_tracked_as_internship (job : Job) (now : Z)
  (nowISO : string) (st : AppState) :
  cardBadge (createJobCard job) = "Internship" ->
  exists c,
    companies (addJobToTrackerFromCache
                 (Some (cardCache (createJobCard job))) now nowISO st)
      = (companies st ++ [c])%list /\
    type c = "Internship" /\
    role c = orDefault (jobTitle job) "Untitled Role".
Proof.
  intros B. eexists. split; [reflexivity|]. split; [|reflexivity].
  cbn [type cardCache createJobCard cachedTitle].
  unfold createJobCard in B. cbn [cardBadge] in B.
  destruct (String.eqb (orDefault (jobContractTime job) "") "part_time");
    [discriminate|].
  destruct (String.eqb (orDefault (jobContractType job) "") "contract");
    [discriminate|].
  destruct (JsString.includes
              (toLowerCase (orDefault (jobTitle job) "Untitled Role"))
              "intern"); [reflexivity | discriminate].
Qed.

Lemma internship_badge_tracked_as_internship_witness :
  let job := {| jobTitle := Some "Backend Intern";
                jobCompanyName := Some "Acme";
                jobLocationName := None;
                jobDescription := Some "<p>Build <b>APIs</b></p>";
                jobContractType := None;
                jobContractTime := Some "full_time" |} in
  let st := {| companies := []; currentView := "jobs";
               currentCompany := None; userSkills := [] |} in
  exists c,
    companies (addJobToTrackerFromCache
                 (Some (cardCache (createJobCard job))) 7 "t" st)
      = (companies st ++ [c])%list /\
    type c = "Internship" /\
    role c = orDefault (jobTitle job) "Untitled Role".
Proof.
  intros job st.
  apply (internship_badge_tracked_as_internship job 7 "t" st).
  reflexivity.
Defined.

End JobCardFacts.

(** ** The jobs proxy *)

Module ProxyFacts.
Import JsString Proxy StringFacts.
Local Open Scope string_scope.

Lemma querySafe_append (a b : string) :
  querySafe (a ++ b) = querySafe a && querySafe b.
Proof.
  induction a as [|c a IH]; [reflexivity|].
  cbn [append querySafe]. rewrite IH. apply andb_assoc.
Qed.

Lemma querySafe_encodeUnit (c : ascii) : querySafe (encodeUnit c) = true.
Proof. destruct c as [[] [] [] [] [] [] [] []]; reflexivity. Qed.

Lemma querySafe_encodeURIComponent (s : string) :
  querySafe (encodeURIComponent s) = true.
Proof.
  induction s as [|c s IH]; [reflexivity|].
  cbn [encodeURIComponent]. now rewrite querySafe_append, querySafe_encodeUnit.
Qed.

Lemma querySafeChar_amp (c : ascii) :
  querySafeChar c = true -> Ascii.eqb c "&" = false.
Proof. destruct c as [[] [] [] [] [] [] [] []]; intros H; try reflexivity; discriminate H. Qed.

Lemma querySafe_ampFree (s : string) : querySafe s = true -> ampFree s = true.
Proof.
  induction s as [|c s IH]; [reflexivity|]. cbn [querySafe ampFree].
  intros H. apply andb_true_iff in H as [H1 H2].
  now rewrite (querySafeChar_amp _ H1), IH.
Qed.

Lemma ampFree_append (a b : string) :
  ampFree (a ++ b) = ampFree a && ampFree b.
Proof.
  induction a as [|c a IH]; [reflexivity|].
  cbn [append ampFree]. rewrite IH. apply andb_assoc.
Qed.

Lemma split_at_amp (a b : string) :
  ampFree a = true -> split "&" (a ++ String "&" b) = a :: split "&" b.
Proof.
  induction a as [|c a IH]; intros F; [reflexivity|].
  cbn [ampFree] in F. apply andb_true_iff in F as [F1 F2].
  apply negb_true_iff in F1.
  cbn [append split]. rewrite F1, (IH F2). reflexivity.
Qed.

Lemma split_no_amp (a : string) : ampFree a = true -> split "&" a = [a].
Proof.
  induction a as [|c a IH]; intros F; [reflexivity|].
  cbn [ampFree] in F. apply andb_true_iff in F as [F1 F2].
  apply negb_true_iff in F1.
  cbn [split]. rewrite F1, (IH F2). reflexivity.
Qed.

(** X23. The handler asks the upstream only when the method is not
    OPTIONS and both keys are set. When the country, the page and the keys
    hold no ['&'], the URL it asks for has just the parameters [app_id],
    [app_key], [results_per_page], [what] and, for a non-empty location,
    [where]: whatever the keyword and the location are, their values hold
    only unreserved characters and percent escapes, so they neither add a
    parameter nor end the query. *)
Theorem handler_request_parameters (method : string) (q : Query)
  (APP_ID APP_KEY : option string) (fetch : string -> Upstream)
  (url : string) :
  fst (handler method q APP_ID APP_KEY fetch) = Some url ->
  ampFree (withDefault (country q) "in") = true ->
  ampFree (withDefault (page q) "1") = true ->
  ampFree (withDefault APP_ID "") = true ->
  ampFree (withDefault APP_KEY "") = true ->
  let what := encodeURIComponent (withDefault (keyword q) "software developer") in
  let where_ := encodeURIComponent (withDefault (location q) "") in
  method <> "OPTIONS" /\
  truthy (withDefault APP_ID "") = true /\
  truthy (withDefault APP_KEY "") = true /\
  querySafe what = true /\ querySafe where_ = true /\
  split "&" url =
    ([ ("https://api.adzuna.com/v1/api/jobs/" ++
        withDefault (country q) "in" ++
        "/search/" ++ withDefault (page q) "1" ++
        "?app_id=" ++ withDefault APP_ID "")%string;
       ("app_key=" ++ withDefault APP_KEY "")%string;
       "results_per_page=12";
       ("what=" ++ what)%string ] ++
     (if truthy (withDefault (location q) "")
      then [("where=" ++ where_)%string] else []))%list.
Proof.
  intros H FC FP FI FK what where_.
  unfold handler in H.
  destruct (String.eqb method "OPTIONS") eqn:M; [discriminate|].
  apply String.eqb_neq in M.
  destruct APP_ID as [appId|]; [|discriminate].
  destruct APP_KEY as [appKey|]; [|destruct (truthy appId); discriminate].
  cbn [withDefault] in *.
  destruct (truthy appId) eqn:TI; [|discriminate].
  destruct (truthy appKey) eqn:TK; [|discriminate].
  cbn [andb fst] in H. injection H as <-.
  pose proof (querySafe_encodeURIComponent
                (withDefault (keyword q) "software developer")) as SW.
  pose proof (querySafe_encodeURIComponent (withDefault (location q) ""))
    as SL.
  fold what in SW. fold where_ in SL.
  repeat (split; [assumption || reflexivity|]).
  unfold adzunaUrl. fold what. fold where_.
  set (country := withDefault (Proxy.country q) "in") in *.
  set (page := withDefault (Proxy.page q) "1") in *.
  assert (F1 : ampFree ("https://api.adzuna.com/v1/api/jobs/" ++ country ++
                        "/search/" ++ page ++ "?app_id=" ++ appId) = true).
  { rewrite !ampFree_append, FC, FP, FI. reflexivity. }
  assert (F2 : ampFree ("app_key=" ++ appKey) = true)
    by (rewrite ampFree_append, FK; reflexivity).
  assert (F4 : ampFree ("what=" ++ what) = true)
    by (rewrite ampFree_append, (querySafe_ampFree _ SW); reflexivity).
  assert (F5 : ampFree ("where=" ++ where_) = true)
    by (rewrite ampFree_append, (querySafe_ampFree _ SL); reflexivity).
  assert (E : forall tail : string,
    ((((("https://api.adzuna.com/v1/api/jobs/" ++ country ++ "/search/" ++ page)
        ++ "?app_id=" ++ appId) ++ "&app_key=" ++ appKey)
        ++ "&results_per_page=12") ++ "&what=" ++ what) ++ tail =
    ("https://api.adzuna.com/v1/api/jobs/" ++ country ++ "/search/" ++ page ++
     "?app_id=" ++ appId) ++
    String "&" (("app_key=" ++ appKey) ++
    String "&" ("results_per_page=12" ++
    String "&" (("what=" ++ what) ++ tail)))).
  { intros tail. rewrite !append_assoc. cbn [append]. reflexivity. }
  destruct (truthy (withDefault (location q) "")).
  - change ("&where=" ++ where_) with (String "&" ("where=" ++ where_)).
    rewrite E.
    rewrite (split_at_amp _ _ F1), (split_at_amp _ _ F2).
    rewrite (split_at_amp "results_per_page=12" _ eq_refl).
    rewrite (split_at_amp _ _ F4), (split_no_amp _ F5). reflexivity.
  - pose proof (E "") as E0.
    assert (R : forall x : string, x ++ "" = x)
      by (induction x as [|c x IH]; [reflexivity | cbn [append]; now rewrite IH]).
    rewrite !R in E0. rewrite E0.
    rewrite (split_at_amp _ _ F1), (split_at_amp _ _ F2).
    rewrite (split_at_amp "results_per_page=12" _ eq_refl).
    rewrite (split_no_amp _ F4). reflexivity.
Qed.

Lemma handler_request_parameters_witness :
  let q := {| keyword := Some "c++ & c#"; location := Some "New Delhi";
              country := None; page := Some "2" |} in
  let what := encodeURIComponent (withDefault (keyword q) "software developer") in
  let where_ := encodeURIComponent (withDefault (location q) "") in
  "GET" <> "OPTIONS" /\
  truthy (withDefault (Some "id") "") = true /\
  truthy (withDefault (Some "key") "") = true /\
  querySafe what = true /\ querySafe where_ = true /\
  split "&" ("https://api.adzuna.com/v1/api/jobs/in/search/2?app_id=id" ++
             "&app_key=key&results_per_page=12" ++
             "&what=c%2B%2B%20%26%20c%23&where=New%20Delhi") =
    ([ ("https://api.adzuna.com/v1/api/jobs/" ++
        withDefault (country q) "in" ++
        "/search/" ++ withDefault (page q) "1" ++
        "?app_id=" ++ withDefault (Some "id") "")%string;
       ("app_key=" ++ withDefault (Some "key") "")%string;
       "results_per_page=12";
       ("what=" ++ what)%string ] ++
     (if truthy (withDefault (location q) "")
      then [("where=" ++ where_)%string] else []))%list.
Proof.
  intros q.
  apply (handler_request_parameters "GET" q (Some "id") (Some "key")
           (fun _ => FetchFailed "down")
           ("https://api.adzuna.com/v1/api/jobs/in/search/2?app_id=id" ++
            "&app_key=key&results_per_page=12" ++
            "&what=c%2B%2B%20%26%20c%23&where=New%20Delhi"));
    reflexivity.
Defined.

End ProxyFacts.

(** ** The stored state *)

Module StorageFacts.
Import JsString JsNumber Storage.
Local Open Scope string_scope.

Lemma lookup_assign_same (key : string) (v : JsValue)
  (fields : list (string * JsValue)) :
  lookup key (assign key v fields) = Some v.
Proof.
  induction fields as [|[k w] rest IH]; cbn [assign lookup].
  - now rewrite String.eqb_refl.
  - destruct (String.eqb k key) eqn:E; cbn [lookup]; rewrite E; auto.
Qed.

Lemma lookup_assign_other (key key' : string) (v : JsValue)
  (fields : list (string * JsValue)) :
  key <> key' -> lookup key' (assign key v fields) = lookup key' fields.
Proof.
  intros N. induction fields as [|[k w] rest IH]; cbn [assign lookup].
  - apply String.eqb_neq in N. now rewrite N.
  - destruct (String.eqb k key) eqn:E; cbn [lookup]; [|now rewrite IH].
    apply String.eqb_eq in E. subst k.
    apply String.eqb_neq in N. now rewrite N.
Qed.

Lemma valid_is_object (st : JsValue) :
  validateAppState (Some st) = true -> exists fields, st = JObject fields.
Proof.
  intros V.
  destruct st as [|b|x|s|items|fs]; [| | | | |eauto]; exfalso;
    unfold validateAppState in V; cbn in V.
  - discriminate.
  - destruct b; discriminate.
  - destruct x; discriminate.
  - destruct s; discriminate.
  - discriminate.
Qed.

Lemma defaults_fields (fields : list (string * JsValue)) :
  let st := initializeDefaultState (JObject fields) in
  getField "companies" st = Some (JArray []) /\
  getField "userSkills" st = Some (JArray []) /\
  getField "currentView" st = Some (JString "dashboard") /\
  getField "currentCompany" st = Some JNull.
Proof.
  cbn [initializeDefaultState setField getField].
  repeat split;
    repeat first
      [ apply lookup_assign_same
      | rewrite lookup_assign_other by discriminate ].
Qed.

Lemma defaults_valid (fields : list (string * JsValue)) :
  validateAppState (Some (initializeDefaultState (JObject fields))) = true.
Proof.
  destruct (defaults_fields fields) as (C & U & V & _).
  unfold validateAppState. rewrite C, U, V.
  cbn [initializeDefaultState setField]. reflexivity.
Qed.

Lemma switchView_valid (view : string) (st : JsValue) :
  validateAppState (Some st) = true ->
  validateAppState (Some (switchViewField view st)) = true /\
  getField "currentView" (switchViewField view st) = Some (JString view) /\
  getField "companies" (switchViewField view st) = getField "companies" st /\
  getField "userSkills" (switchViewField view st) = getField "userSkills" st.
Proof.
  intros V. destruct (valid_is_object _ V) as [fields ->].
  cbn [switchViewField setField getField].
  assert (A : lookup "currentView" (assign "currentView" (JString view) fields)
              = Some (JString view)) by apply lookup_assign_same.
  assert (B : lookup "companies" (assign "currentView" (JString view) fields)
              = lookup "companies" fields)
    by (apply lookup_assign_other; discriminate).
  assert (C : lookup "userSkills" (assign "currentView" (JString view) fields)
              = lookup "userSkills" fields)
    by (apply lookup_assign_other; discriminate).
  repeat split; try assumption.
  unfold validateAppState in *. cbn [getField truthyValue andb] in *.
  rewrite A, B, C.
  apply andb_true_iff in V as [V _]. rewrite V. reflexivity.
Qed.

(** X24. Whatever the storage holds, [loadFromLocalStorage] leaves a
    state that passes [validateAppState]: either the stored [data], which
    is taken only if it passes, or the defaults. A missing or empty item,
    a text that is not JSON, the text [null], a stored value without
    [data] and a [data] that fails the validation all end in the defaults:
    no company, no skill, the dashboard as the view and no current
    company. *)
Theorem loadFromLocalStorage_valid (saved : Stored)
  (fields : list (string * JsValue)) :
  let appState := JObject fields in
  let st := loadFromLocalStorage saved appState in
  validateAppState (Some st) = true /\
  ((exists parsed, saved = Parsed parsed /\ getField "data" parsed = Some st /\
                   validateAppState (Some st) = true) \/
   st = initializeDefaultState appState /\
   getField "companies" st = Some (JArray []) /\
   getField "userSkills" st = Some (JArray []) /\
   getField "currentView" st = Some (JString "dashboard") /\
   getField "currentCompany" st = Some JNull /\
   (forall parsed data,
      saved = Parsed parsed -> getField "data" parsed = Some data ->
      validateAppState (Some data) = false)).
Proof.
  intros appState st.
  assert (D : forall s, s = initializeDefaultState appState ->
              (forall parsed data,
                 saved = Parsed parsed -> getField "data" parsed = Some data ->
                 validateAppState (Some data) = false) ->
              validateAppState (Some s) = true /\
              ((exists parsed, saved = Parsed parsed /\
                               getField "data" parsed = Some s /\
                               validateAppState (Some s) = true) \/
               s = initializeDefaultState appState /\
               getField "companies" s = Some (JArray []) /\
               getField "userSkills" s = Some (JArray []) /\
               getField "currentView" s = Some (JString "dashboard") /\
               getField "currentCompany" s = Some JNull /\
               (forall parsed data,
                  saved = Parsed parsed -> getField "data" parsed = Some data ->
                  validateAppState (Some data) = false))).
  { intros s -> F. split; [apply defaults_valid|]. right.
    split; [reflexivity|].
    destruct (defaults_fields fields) as (A & B & C & E).
    repeat split; assumption. }
  unfold st, loadFromLocalStorage.
  destruct saved as [| | |parsed];
    try (apply D; [reflexivity | intros ? ? [=]]).
  destruct parsed as [|b|x|s|items|fs];
    try (apply D; [reflexivity | intros ? ? [= <-]; discriminate]).
  destruct (getField "data" (JObject fs)) as [data|] eqn:G;
    [|apply D; [reflexivity | intros ? ? [= <-]; congruence]].
  destruct (truthyValue data && validateAppState (Some data)) eqn:V.
  - apply andb_true_iff in V as [_ V]. split; [exact V|]. left.
    exists (JObject fs). auto.
  - apply D; [reflexivity|]. intros ? d [= <-] G'.
    rewrite G in G'. injection G' as <-.
    apply andb_false_iff in V as [V|V]; [|exact V].
    unfold validateAppState. rewrite V. reflexivity.
Qed.

(** X25. A state that passes [validateAppState] still passes it after
    [importData] and after [clearAllData], whatever the file holds and
    whatever is answered. A file is taken over only if it parses, its
    [data] passes the validation and the import is confirmed; the state
    then has the file's companies and skills and a view name that is not
    empty, and in every other case it is left as it was. Clearing, once
    confirmed twice, leaves no company and no skill. *)
Theorem import_and_clear_keep_state_valid (appState : JsValue) :
  validateAppState (Some appState) = true ->
  (forall imported confirmed,
     let st := importData imported confirmed appState in
     validateAppState (Some st) = true /\
     (st = appState \/
      exists parsed data view,
        imported = Some parsed /\ confirmed = true /\
        getField "data" parsed = Some data /\
        validateAppState (Some data) = true /\
        getField "companies" st = getField "companies" data /\
        getField "userSkills" st = getField "userSkills" data /\
        getField "currentView" st = Some (JString view) /\ view <> "")) /\
  (forall confirm1 confirm2,
     let st := clearAllData confirm1 confirm2 appState in
     validateAppState (Some st) = true /\
     (if confirm1 && confirm2
      then getField "companies" st = Some (JArray []) /\
           getField "userSkills" st = Some (JArray []) /\
           getField "currentView" st = Some (JString "dashboard")
      else st = appState)).
Proof.
  intros V. split.
  - intros imported confirmed st. unfold st, importData.
    destruct imported as [parsed|]; [|auto].
    destruct parsed as [|b|x|s|items|fs]; auto.
    destruct (getField "data" (JObject fs)) as [data|] eqn:G; [|auto].
    destruct (truthyValue data && validateAppState (Some data)) eqn:W;
      [|auto].
    destruct confirmed; [|auto].
    apply andb_true_iff in W as [_ W].
    set (view := match getField "currentView" data with
                 | Some (JString s) => orElse s "dashboard"
                 | _ => "dashboard"
                 end).
    destruct (switchView_valid view data W) as (A & B & C & D).
    split; [exact A|]. right. exists (JObject fs), data, view.
    repeat split; try assumption; try reflexivity.
    unfold view.
    destruct (getField "currentView" data) as [[|b|x|s|items|fs']|];
      try discriminate.
    unfold orElse. destruct s; cbn [truthy]; discriminate.
  - intros confirm1 confirm2 st. unfold st, clearAllData.
    destruct confirm1; cbn [negb andb]; [|auto].
    destruct confirm2; cbn [negb]; [|auto].
    destruct (valid_is_object _ V) as [fields ->].
    pose proof (defaults_valid fields) as DV.
    destruct (defaults_fields fields) as (A & B & C & E).
    destruct (switchView_valid "dashboard" _ DV) as (A' & B' & C' & D').
    split; [exact A'|]. rewrite C', D'. auto.
Qed.

Lemma import_and_clear_keep_state_valid_witness :
  let appState :=
    JObject [("companies", JArray []); ("userSkills", JArray [JString "Go"]);
             ("currentView", JString "skills"); ("currentCompany", JNull)] in
  let file :=
    JObject [("version", JString "1.0");
             ("data", JObject [("companies", JArray []);
                               ("userSkills", JArray []);
                               ("currentView", JString "")])] in
  validateAppState (Some (importData (Some file) true appState)) = true /\
  getField "currentView" (importData (Some file) true appState)
    = Some (JString "dashboard") /\
  validateAppState (Some (clearAllData true true appState)) = true.
Proof.
  intros appState file.
  destruct (import_and_clear_keep_state_valid appState eq_refl) as [I C].
  split; [apply (I (Some file) true)|].
  split; [reflexivity | apply (C true true)].
Defined.

End StorageFacts.
